(** * Pre-commit validation pipeline of Gestion-CCSA

    A shallow embedding of [scripts/pre_commit_check.py]: the
    [PreCommitChecker] class (configuration loading, the process runner,
    the confirmer, the six checks, the linter fixer, the orchestrator
    [run_all_checks]) and the [main] entry point, followed by the
    properties of the pipeline.

    The script is effectful: it spawns external tools, reads the keyboard
    and the working tree, mutates the fields of the checker object and
    raises exceptions.  All of this is threaded through one monad of state
    and exceptions, [M], over an abstract [Platform] that answers for the
    outside world.

    The installer of the git hook, [scripts/install-hook.py], is embedded
    in the same way over an abstract file system (module
    [InstallHook]). *)

From Stdlib Require Import String Ascii ZArith List Bool Lia DecimalString.
Import ListNotations.
Open Scope string_scope.
Open Scope Z_scope.

(* ===================================================================== *)
(** * Python strings *)
(* ===================================================================== *)

(** Python [str] values are modelled by Rocq strings, one [ascii] per
    character. *)
Module PyStr.

Definition nl : ascii := ascii_of_nat 10.
Definition dquote : string := String (ascii_of_nat 34) EmptyString.
Definition squote : string := String (ascii_of_nat 39) EmptyString.
Definition backslash : string := String (ascii_of_nat 92) EmptyString.
Definition newline : string := String nl EmptyString.

(** [c.isspace()] on the ASCII range. *)
Definition is_space (c : ascii) : bool :=
  let n := nat_of_ascii c in
  (((9 <=? n) && (n <=? 13)) || ((28 <=? n) && (n <=? 32)))%nat.

Fixpoint lstrip (s : string) : string :=
  match s with
  | EmptyString => EmptyString
  | String c r => if is_space c then lstrip r else s
  end.

Definition reverse (s : string) : string :=
  string_of_list_ascii (rev (list_ascii_of_string s)).

Definition rstrip (s : string) : string := reverse (lstrip (reverse s)).

(** [s.strip()] *)
Definition strip (s : string) : string := rstrip (lstrip s).

Definition lower_char (c : ascii) : ascii :=
  let n := nat_of_ascii c in
  if ((65 <=? n) && (n <=? 90))%nat then ascii_of_nat (n + 32) else c.

(** [s.lower()], on ASCII letters *)
Fixpoint lower (s : string) : string :=
  match s with
  | EmptyString => EmptyString
  | String c r => String (lower_char c) (lower r)
  end.

(** [s.split('\n')] *)
Fixpoint split_nl (s : string) : list string :=
  match s with
  | EmptyString => [EmptyString]
  | String c r =>
      if Ascii.eqb c nl then EmptyString :: split_nl r
      else match split_nl r with
           | h :: t => String c h :: t
           | [] => [String c EmptyString]
           end
  end.

(** [sub in s] *)
Fixpoint contains (sub s : string) : bool :=
  String.prefix sub s ||
  match s with
  | EmptyString => false
  | String _ r => contains sub r
  end.

(** [s.startswith(p)] *)
Definition startswith (p s : string) : bool := String.prefix p s.

(** [sep.join(l)] on a list of strings *)
Definition join (sep : string) (l : list string) : string :=
  String.concat sep l.

(** [s[:n]] *)
Definition take (n : nat) (s : string) : string := String.substring 0 n s.

(** [str(n)] on an integer *)
Definition of_Z (n : Z) : string := NilZero.string_of_int (Z.to_int n).

(** the characters of a string, as [for c in s] yields them *)
Definition chars (s : string) : list string :=
  map (fun c => String c EmptyString) (list_ascii_of_string s).

(** [s1 == s2] *)
Definition eqb (a b : string) : bool := String.eqb a b.

(** [bool(s)] *)
Definition nonempty (s : string) : bool :=
  match s with EmptyString => false | _ => true end.

End PyStr.

(* ===================================================================== *)
(** * Decoded JSON documents and the Python operations applied to them *)
(* ===================================================================== *)

Set Warnings "-register-all".

(** What [json.load] returns.  A [dict] is kept as its list of items in
    insertion order, each key once.  A float literal is kept as mantissa
    and decimal exponent. *)
Inductive json : Type :=
| JNull
| JBool (b : bool)
| JInt (n : Z)
| JFloat (mantissa exponent : Z)
| JStr (s : string)
| JArr (l : list json)
| JObj (items : list (string * json)).

(** The exceptions the script can meet. *)
Inductive exn : Type :=
| KeyError (key : string)
| TypeError (msg : string)
| AttributeError (msg : string)
| TimeoutExpired (timeout : Z)       (* subprocess.TimeoutExpired *)
| LaunchError (msg : string)         (* any other Exception out of subprocess.run *)
| FileError (msg : string)           (* OSError / UnicodeDecodeError out of a file read *)
| ReError (msg : string)             (* re.error *)
| EOFError
| KeyboardInterrupt
| SystemExit (code : Z).

(** [isinstance(e, Exception)]: everything but the two [BaseException]s. *)
Definition is_Exception (e : exn) : bool :=
  match e with
  | KeyboardInterrupt | SystemExit _ => false
  | _ => true
  end.

(** [str(e)] *)
Definition exn_message (e : exn) : string :=
  match e with
  | KeyError k => PyStr.squote ++ k ++ PyStr.squote
  | TypeError m | AttributeError m | LaunchError m | FileError m | ReError m => m
  | TimeoutExpired t => "Command timed out after " ++ PyStr.of_Z t ++ " seconds"
  | EOFError | KeyboardInterrupt => ""
  | SystemExit c => PyStr.of_Z c
  end.

(** The outcome of a Python expression: a value or a raised exception. *)
Inductive Res (A : Type) : Type :=
| Ok (a : A)
| Raise (e : exn).
Arguments Ok {A} a.
Arguments Raise {A} e.

Module Py.

(** [type(v).__name__] *)
Definition type_name (v : json) : string :=
  match v with
  | JNull => "NoneType"
  | JBool _ => "bool"
  | JInt _ => "int"
  | JFloat _ _ => "float"
  | JStr _ => "str"
  | JArr _ => "list"
  | JObj _ => "dict"
  end.

(** [bool(v)] *)
Definition truthy (v : json) : bool :=
  match v with
  | JNull => false
  | JBool b => b
  | JInt n => negb (n =? 0)
  | JFloat m _ => negb (m =? 0)
  | JStr s => PyStr.nonempty s
  | JArr l => match l with [] => false | _ => true end
  | JObj m => match m with [] => false | _ => true end
  end.

Fixpoint lookup (k : string) (m : list (string * json)) : option json :=
  match m with
  | [] => None
  | (k', v) :: r => if String.eqb k k' then Some v else lookup k r
  end.

(** [v[k]] with a string key *)
Definition subscript (v : json) (k : string) : Res json :=
  match v with
  | JObj m => match lookup k m with
              | Some x => Ok x
              | None => Raise (KeyError k)
              end
  | JArr _ => Raise (TypeError "list indices must be integers or slices, not str")
  | JStr _ => Raise (TypeError "string indices must be integers, not 'str'")
  | _ => Raise (TypeError (PyStr.squote ++ type_name v ++ PyStr.squote
                           ++ " object is not subscriptable"))
  end.

(** [v.get(k, default)] *)
Definition get (v : json) (k : string) (default : json) : Res json :=
  match v with
  | JObj m => match lookup k m with
              | Some x => Ok x
              | None => Ok default
              end
  | _ => Raise (AttributeError (PyStr.squote ++ type_name v ++ PyStr.squote
                                ++ " object has no attribute 'get'"))
  end.

(** [for x in v]: the elements of a list, the characters of a string, the
    keys of a dict. *)
Definition iter (v : json) : Res (list json) :=
  match v with
  | JArr l => Ok l
  | JStr s => Ok (map JStr (PyStr.chars s))
  | JObj m => Ok (map (fun kv => JStr (fst kv)) m)
  | _ => Raise (TypeError (PyStr.squote ++ type_name v ++ PyStr.squote
                           ++ " object is not iterable"))
  end.

Fixpoint all_str (l : list json) : option (list string) :=
  match l with
  | [] => Some []
  | JStr s :: r => match all_str r with
                   | Some t => Some (s :: t)
                   | None => None
                   end
  | _ :: _ => None
  end.

(** [sep.join(v)] *)
Definition join (sep : string) (v : json) : Res string :=
  match iter v with
  | Raise _ => Raise (TypeError "can only join an iterable")
  | Ok l => match all_str l with
            | Some ss => Ok (PyStr.join sep ss)
            | None => Raise (TypeError "sequence item: expected str instance")
            end
  end.

Definition is_str (s : string) (v : json) : bool :=
  match v with JStr t => String.eqb s t | _ => false end.

(** [s in v] for a string [s] *)
Definition str_in (s : string) (v : json) : Res bool :=
  match v with
  | JArr l => Ok (existsb (is_str s) l)
  | JStr t => Ok (PyStr.contains s t)
  | JObj m => Ok (match lookup s m with Some _ => true | None => false end)
  | _ => Raise (TypeError ("argument of type " ++ PyStr.squote ++ type_name v
                           ++ PyStr.squote ++ " is not iterable"))
  end.

End Py.

(* ===================================================================== *)
(** * The outside world *)
(* ===================================================================== *)

(** What [subprocess.run(command, timeout=..)] can do. *)
Inductive ProcOutcome : Type :=
| Exited (returncode : Z) (stdout stderr : string)
| TimedOut                       (* raises subprocess.TimeoutExpired *)
| LaunchFailed (msg : string)    (* raises some other Exception, e.g. FileNotFoundError *)
| Interrupted.                   (* raises KeyboardInterrupt *)

(** What [input(prompt)] can do. *)
Inductive InputOutcome : Type :=
| Line (s : string)
| EndOfInput                     (* raises EOFError *)
| Interrupt.                     (* raises KeyboardInterrupt *)

(** What [open(path)] followed by [json.load] can do. *)
Inductive ConfigFile : Type :=
| Loaded (v : json)
| NotFound                       (* FileNotFoundError *)
| Malformed                      (* json.JSONDecodeError *)
| Unreadable (msg : string).     (* another error while opening or reading *)

(** The operating system, the working tree and the library functions the
    script calls without defining them. *)
Record Platform : Type := {
  World : Type;
  (** [os.name == 'nt'] *)
  is_nt : bool;
  (** [subprocess.run], in the project root *)
  spawn : list string -> Z -> World -> ProcOutcome * World;
  (** [input] *)
  read_line : string -> World -> InputOutcome * World;
  (** [Path(p).exists()] *)
  path_exists : string -> World -> bool;
  (** [Path(p).read_text()]; [None] when it raises *)
  read_text : string -> World -> option string;
  (** [Path('.').rglob('*.py')], each path through [str] *)
  rglob_py : World -> list string;
  (** [open(path)] and [json.load] *)
  load_json : string -> World -> ConfigFile;
  (** [json.loads]; [None] when it raises *)
  json_loads : string -> option json;
  (** [re.match(pattern, text, re.IGNORECASE)] found a match; [None] when
      the pattern does not compile *)
  re_match_i : string -> string -> option bool;
  (** [re.search(pattern, text, re.IGNORECASE)] found a match *)
  re_search_i : string -> string -> bool;
  (** [str(v)], as an f-string formats a value *)
  py_str : json -> string
}.

(** What an observer of a run sees. *)
Inductive Event : Type :=
| EvRun (command : list json) (timeout : Z)   (* _run_command entered subprocess.run *)
| EvPrompt (msg : string)                     (* input(msg) *)
| EvCheck (name : string)                     (* run_all_checks called check_func() *)
| EvFix (name : string)                       (* run_all_checks called fix_func() *)
| EvSummary (success : bool).                 (* _print_summary(success) *)

(** ** CheckResult *)
Record CheckResult : Type := mkResult {
  name : string;
  passed : bool;
  message : string;
  can_fix : bool;
  fix_command : string;
  details : list string
}.

(** [CheckResult(name, passed, message)] with the defaults of [__init__] *)
Definition result (n : string) (p : bool) (m : string) : CheckResult :=
  mkResult n p m false "" [].

(** [CheckResult(name, passed, message, details=d)] *)
Definition result_d (n : string) (p : bool) (m : string) (d : list string)
  : CheckResult :=
  mkResult n p m false "" d.

(** ** The fields of a PreCommitChecker *)
Record Checker : Type := mkChecker {
  config : json;
  colors_enabled : json;
  errors : list string;
  warnings : list string;
  fixes_applied : list string;
  strict_mode : json;
  auto_fix : json;
  interactive : json
}.

Definition add_error (e : string) (c : Checker) : Checker :=
  mkChecker (config c) (colors_enabled c) (errors c ++ [e]) (warnings c)
            (fixes_applied c) (strict_mode c) (auto_fix c) (interactive c).

Definition add_warning (w : string) (c : Checker) : Checker :=
  mkChecker (config c) (colors_enabled c) (errors c) (warnings c ++ [w])
            (fixes_applied c) (strict_mode c) (auto_fix c) (interactive c).

Definition add_fix (f : string) (c : Checker) : Checker :=
  mkChecker (config c) (colors_enabled c) (errors c) (warnings c)
            (fixes_applied c ++ [f]) (strict_mode c) (auto_fix c) (interactive c).

Definition set_auto_fix (v : json) (c : Checker) : Checker :=
  mkChecker (config c) (colors_enabled c) (errors c) (warnings c)
            (fixes_applied c) (strict_mode c) v (interactive c).

Definition set_interactive (v : json) (c : Checker) : Checker :=
  mkChecker (config c) (colors_enabled c) (errors c) (warnings c)
            (fixes_applied c) (strict_mode c) (auto_fix c) v.

(* ===================================================================== *)
(** * The monad of the script *)
(* ===================================================================== *)

(** The state of a run: the world, the checker object ([self]) and what
    has been observed so far. *)
Record State (W : Type) : Type := mkSt {
  world : W;
  self : Checker;
  trace : list Event
}.
Arguments mkSt {W} world self trace.
Arguments world {W} s.
Arguments self {W} s.
Arguments trace {W} s.

Section Script.

Variable P : Platform.

Definition St : Type := State (World P).

(** A Python computation.  The state reached is kept when an exception
    is raised, as the mutations of [self] and of the tree are. *)
Definition M (A : Type) : Type := St -> Res A * St.

Definition ret {A} (a : A) : M A := fun s => (Ok a, s).

Definition bind {A B} (m : M A) (f : A -> M B) : M B :=
  fun s => match m s with
           | (Ok a, s') => f a s'
           | (Raise e, s') => (Raise e, s')
           end.

Definition raise {A} (e : exn) : M A := fun s => (Raise e, s).

(** the value of a pure expression that may raise *)
Definition lift {A} (r : Res A) : M A := fun s => (r, s).

(** [try: m  except ...: h]; [h e = None] when no clause matches [e] *)
Definition try_except {A} (m : M A) (h : exn -> option (M A)) : M A :=
  fun s => match m s with
           | (Ok a, s') => (Ok a, s')
           | (Raise e, s') => match h e with
                              | Some k => k s'
                              | None => (Raise e, s')
                              end
           end.

(** read a field of [self] *)
Definition gets {A} (f : Checker -> A) : M A := fun s => (Ok (f (self s)), s).

(** mutate [self] *)
Definition modify (f : Checker -> Checker) : M unit :=
  fun s => (Ok tt, mkSt (world s) (f (self s)) (trace s)).

(** look at the world *)
Definition observe {A} (f : World P -> A) : M A := fun s => (Ok (f (world s)), s).

Definition log (e : Event) : M unit :=
  fun s => (Ok tt, mkSt (world s) (self s) (trace s ++ [e])).

End Script.

Arguments ret {P A} a.
Arguments bind {P A B} m f.
Arguments raise {P A} e.
Arguments lift {P A} r.
Arguments try_except {P A} m h.
Arguments gets {P A} f.
Arguments modify {P} f.
Arguments observe {P A} f.
Arguments log {P} e.

(** sequencing of pure expressions that may raise *)
Definition res_bind {A B} (r : Res A) (f : A -> Res B) : Res B :=
  match r with
  | Ok a => f a
  | Raise e => Raise e
  end.

Declare Scope py_scope.
Delimit Scope py_scope with py.
Notation "x <- m ;; k" := (bind m (fun x => k))
  (at level 61, m at next level, right associativity) : py_scope.
Notation "' pat <- m ;; k" := (bind m (fun x => match x with pat => k end))
  (at level 61, pat pattern, m at next level, right associativity) : py_scope.
Notation "m ;; k" := (bind m (fun _ => k))
  (at level 61, right associativity) : py_scope.
Notation "x <-- r ;;; k" := (res_bind r (fun x => k))
  (at level 61, r at next level, right associativity) : py_scope.
Open Scope py_scope.

(* ===================================================================== *)
(** * class PreCommitChecker *)
(* ===================================================================== *)

Section PreCommitChecker.

Variable P : Platform.
Local Abbreviation M := (M P) (only parsing).

Definition argv (l : list string) : list json := map JStr l.

Fixpoint first_non_str (l : list json) : option json :=
  match l with
  | [] => None
  | JStr _ :: r => first_non_str r
  | v :: _ => Some v
  end.

(** [subprocess.run(command, shell=False, capture_output=True, text=True,
    timeout=timeout, cwd=self.project_root)], returning
    [(result.returncode, result.stdout, result.stderr)].  An argument that
    is not a string is refused with a TypeError before anything is
    spawned. *)
Definition subprocess_run (command : list json) (timeout : Z)
  : M (Z * string * string) :=
  log (EvRun command timeout) ;;
  match Py.all_str command with
  | None =>
      raise (TypeError ("expected str, bytes or os.PathLike object, not "
                        ++ match first_non_str command with
                           | Some v => Py.type_name v
                           | None => "str"
                           end))
  | Some args =>
      fun s =>
        let (o, w) := spawn P args timeout (world s) in
        let s' := mkSt w (self s) (trace s) in
        match o with
        | Exited rc out err => (Ok (rc, out, err), s')
        | TimedOut => (Raise (TimeoutExpired timeout), s')
        | LaunchFailed msg => (Raise (LaunchError msg), s')
        | Interrupted => (Raise KeyboardInterrupt, s')
        end
  end.

(** [input(prompt)] *)
Definition input (prompt : string) : M string :=
  log (EvPrompt prompt) ;;
  fun s =>
    let (o, w) := read_line P prompt (world s) in
    let s' := mkSt w (self s) (trace s) in
    match o with
    | Line l => (Ok l, s')
    | EndOfInput => (Raise EOFError, s')
    | Interrupt => (Raise KeyboardInterrupt, s')
    end.

(** [_default_config] *)
Definition _default_config : json :=
  JObj [ ("strict_mode", JBool true);
         ("auto_fix", JBool true);
         ("interactive", JBool true);
         ("checks", JObj [
            ("linter", JObj [("enabled", JBool true)]);
            ("tests", JObj [("enabled", JBool true)]);
            ("django", JObj [("enabled", JBool true)]);
            ("security", JObj [("enabled", JBool true)]);
            ("files", JObj [("enabled", JBool true)]);
            ("git", JObj [("enabled", JBool true);
                          ("conventional_commits", JBool true)]) ]) ].

(** [_load_config]: runs before the checker object exists, so it only
    looks at the world. *)
Definition _load_config (config_path : string) (w : World P) : Res json :=
  match load_json P config_path w with
  | Loaded v => Ok v
  | NotFound => Ok _default_config
  | Malformed => Raise (SystemExit 1)
  | Unreadable msg => Raise (FileError msg)
  end.

(** [__init__] *)
Definition init (config_path : string) (w : World P) : Res Checker :=
  cfg <-- _load_config config_path w ;;;
  colors <-- Py.get cfg "colors" (JObj []) ;;;
  enabled <-- Py.get colors "enabled" (JBool true) ;;;
  strict <-- Py.get cfg "strict_mode" (JBool true) ;;;
  autofix <-- Py.get cfg "auto_fix" (JBool true) ;;;
  inter <-- Py.get cfg "interactive" (JBool true) ;;;
  Ok (mkChecker cfg enabled [] [] [] strict autofix inter).

(** [_run_command(command, timeout=timeout)]; every caller leaves
    [capture_output] and [shell] at their defaults. *)
Definition _run_command (command : list json) (timeout : Z)
  : M (Z * string * string) :=
  try_except (subprocess_run command timeout)
    (fun e =>
       match e with
       | TimeoutExpired _ =>
           Some (ret (-1, "", "Commande expirée après " ++ PyStr.of_Z timeout ++ "s"))
       | _ =>
           if is_Exception e then Some (ret (-1, "", exn_message e)) else None
       end).

Definition affirmative (response : string) : bool :=
  existsb (String.eqb response) [""; "o"; "oui"; "y"; "yes"].

(** [_confirm]; every caller only tests the truth value of the answer. *)
Definition _confirm (message : string) : M bool :=
  i <- gets interactive ;;
  if negb (Py.truthy i) then
    a <- gets auto_fix ;;
    ret (Py.truthy a)
  else
    try_except
      (line <- input (message ++ " [O/n] : ") ;;
       let response := PyStr.lower (PyStr.strip line) in
       ret (affirmative response))
      (fun e =>
         match e with
         | EOFError | KeyboardInterrupt => Some (ret false)
         | _ => None
         end).

(** [_print_summary]: the report itself is text on the terminal; the
    model records that it was printed and for which verdict. *)
Definition _print_summary (success : bool) : M unit :=
  log (EvSummary success).

(** [check_tool_installed] *)
Definition check_tool_installed (tool : string) : M bool :=
  let cmd := if is_nt P then ["where"; tool] else ["which"; tool] in
  '(return_code, _, _) <- _run_command (argv cmd) 60 ;;
  if negb (return_code =? 0) then
    '(return_code, _, _) <- _run_command (argv ["pip"; "show"; tool]) 60 ;;
    ret (return_code =? 0)
  else
    ret (return_code =? 0).

(** [install_tool] *)
Definition install_tool (tool : string) : M bool :=
  ok <- _confirm ("Installer " ++ tool ++ " ?") ;;
  if ok then
    '(return_code, _, _) <- _run_command (argv ["pip"; "install"; tool]) 60 ;;
    if return_code =? 0 then ret true else ret false
  else
    ret false.

(** [self.config["checks"][key]] *)
Definition checks_entry (key : string) : M json :=
  cfg <- gets config ;;
  checks <- lift (Py.subscript cfg "checks") ;;
  lift (Py.subscript checks key).

(** [self.config["checks"][key][field]] *)
Definition entry_field (key field : string) : M json :=
  entry <- checks_entry key ;;
  lift (Py.subscript entry field).

(** [self.config["checks"][key].get(field, default)] *)
Definition entry_get (key field : string) (default : json) : M json :=
  entry <- checks_entry key ;;
  lift (Py.get entry field default).

(** [len([e for e in errors if e.strip()])] *)
Definition count_nonblank (l : list string) : nat :=
  length (filter (fun e => PyStr.nonempty (PyStr.strip e)) l).

Definition str_of_nat (n : nat) : string := PyStr.of_Z (Z.of_nat n).

(** [check_linter] *)
Definition check_linter : M CheckResult :=
  enabled <- entry_field "linter" "enabled" ;;
  if negb (Py.truthy enabled) then
    ret (result "Linter" true "Désactivé")
  else
    installed <- check_tool_installed "flake8" ;;
    got <- (if negb installed then install_tool "flake8" else ret true) ;;
    if negb got then
      ret (result "Linter" false "Flake8 non installé")
    else
      exclude_v <- entry_field "linter" "exclude" ;;
      exclude <- lift (Py.join "," exclude_v) ;;
      max_line_length <- entry_field "linter" "max_line_length" ;;
      '(returncode, stdout, stderr) <-
        _run_command (argv ["flake8"; "."; "--exclude"; exclude;
                            "--max-line-length"; py_str P max_line_length;
                            "--ignore"; "D100,D101,D102,D103,D104,D400,D401"]) 60 ;;
      if returncode =? 0 then
        ret (result "Linter" true "Aucune erreur détectée")
      else
        let errors := if PyStr.nonempty stdout
                      then PyStr.split_nl (PyStr.strip stdout) else [] in
        let error_count := count_nonblank errors in
        let details :=
          (str_of_nat error_count ++ " erreur(s) de style détectée(s)")
          :: "Exemples d'erreurs :" :: firstn 5 errors in
        black <- check_tool_installed "black" ;;
        if black then
          ret (mkResult "Linter" false
                        (str_of_nat error_count ++ " erreurs de style")
                        true "black ." details)
        else
          ret (result_d "Linter" false
                        (str_of_nat error_count ++ " erreurs de style") details).

(** [fix_linter] *)
Definition fix_linter : M bool :=
  let fixed := false in
  black <- check_tool_installed "black" ;;
  fixed <- (if black then
              '(returncode, _, _) <-
                _run_command (argv ["black"; ".";
                                    "--exclude";
                                    "/(env|venv|__pycache__|migrations|scripts|logs)/"]) 60 ;;
              if returncode =? 0 then ret true else ret fixed
            else ret fixed) ;;
  isort <- check_tool_installed "isort" ;;
  fixed <- (if isort then
              '(returncode, _, _) <-
                _run_command (argv ["isort"; ".";
                                    "--skip"; "env"; "--skip"; "venv";
                                    "--skip"; "__pycache__";
                                    "--skip"; "migrations"; "--skip"; "scripts";
                                    "--skip"; "logs"]) 60 ;;
              if returncode =? 0 then ret true else ret fixed
            else ret fixed) ;;
  ret fixed.

(** the number of lines of [stdout] that mention both "test" and "ok" *)
Definition count_tests (stdout : string) : nat :=
  length (filter (fun line =>
                    PyStr.contains "test" (PyStr.lower line)
                    && PyStr.contains "ok" (PyStr.lower line))
                 (PyStr.split_nl stdout)).

(** the loop of [check_tests] over [enumerate(lines)] *)
Fixpoint failure_lines (lines : list string) : list string :=
  match lines with
  | [] => []
  | line :: rest =>
      List.app
        (if PyStr.startswith "FAIL:" line || PyStr.startswith "ERROR:" line
         then line :: match rest with
                      | next :: _ => [next]
                      | [] => []
                      end
         else [])
        (failure_lines rest)
  end.

(** [check_tests] *)
Definition check_tests : M CheckResult :=
  enabled <- entry_field "tests" "enabled" ;;
  if negb (Py.truthy enabled) then
    ret (result "Tests" true "Désactivés")
  else
    test_module <- entry_get "tests" "test_module" (JStr "") ;;
    let cmd := if Py.truthy test_module
               then [JStr "python"; JStr "manage.py"; JStr "test"; test_module;
                     JStr "--verbosity=1"]
               else argv ["python"; "manage.py"; "test"; "--verbosity=1"] in
    '(returncode, stdout, stderr) <- _run_command cmd 120 ;;
    if returncode =? 0 then
      ret (result "Tests" true
                  ("Tous les tests passent (" ++ str_of_nat (count_tests stdout)
                   ++ " tests)"))
    else
      let details :=
        if PyStr.contains "FAIL" stdout || PyStr.contains "ERROR" stdout
        then failure_lines (PyStr.split_nl stdout) else [] in
      ret (result_d "Tests" false "Certains tests ont échoué" (firstn 10 details)).

(** [s1 or s2] on strings *)
Definition str_or (a b : string) : string := if PyStr.nonempty a then a else b.

(** [check_django] *)
Definition check_django : M CheckResult :=
  enabled <- entry_field "django" "enabled" ;;
  if negb (Py.truthy enabled) then
    ret (result "Django" true "Désactivé")
  else
    '(returncode, stdout, stderr) <-
      _run_command (argv ["python"; "manage.py"; "check"; "--verbosity=1"]) 60 ;;
    if negb (returncode =? 0) then
      ret (result_d "Django" false "Erreurs dans la configuration"
                    [str_or stderr stdout])
    else
      check_deploy <- entry_get "django" "check_deploy" (JBool false) ;;
      deploy <-
        (if Py.truthy check_deploy then
           '(returncode, stdout, stderr) <-
             _run_command (argv ["python"; "manage.py"; "check"; "--deploy";
                                 "--verbosity=1"]) 60 ;;
           if negb (returncode =? 0) then
             let warnings :=
               filter (fun line => PyStr.contains "WARNING" line
                                   || PyStr.contains "ERROR" line)
                      (PyStr.split_nl (stdout ++ stderr)) in
             ret (Some (result_d "Django" false
                                 "Problèmes de configuration production"
                                 (firstn 5 warnings)))
           else ret None
         else ret None) ;;
      match deploy with
      | Some failure => ret failure
      | None =>
          check_migrations <- entry_get "django" "check_migrations" (JBool true) ;;
          if Py.truthy check_migrations then
            '(returncode, stdout, stderr) <-
              _run_command (argv ["python"; "manage.py"; "makemigrations";
                                  "--check"; "--dry-run"]) 60 ;;
            if negb (returncode =? 0) then
              let missing :=
                ret (mkResult "Django" false "Migrations manquantes" true ""
                              ["Exécutez: python manage.py makemigrations"]) in
              auto_migrate <- entry_get "django" "auto_migrate" (JBool false) ;;
              if Py.truthy auto_migrate then
                ok <- _confirm "   Des migrations sont manquantes. Les créer ?" ;;
                if ok then
                  '(returncode, stdout, stderr) <-
                    _run_command (argv ["python"; "manage.py"; "makemigrations"]) 60 ;;
                  if returncode =? 0 then
                    modify (add_fix "Migrations créées") ;;
                    ret (result "Django" true "Configuration OK, migrations créées")
                  else missing
                else missing
              else missing
            else ret (result "Django" true "Configuration Django OK")
          else ret (result "Django" true "Configuration Django OK")
      end.

(** An element of [results] in [check_security]: a tuple
    [(name, ok, msg)] or [(name, ok, msg, details)]. *)
Record SubScan : Type := mkSub {
  sub_name : string;
  sub_ok : bool;
  sub_msg : string;
  sub_extra : option (list string)
}.

(** the dictionary [dangerous] of [_check_dangerous_patterns], in
    insertion order *)
Definition dangerous : list (string * string) :=
  [ ("SECRET_KEY\s*=\s*[" ++ PyStr.dquote ++ "\'][^" ++ PyStr.dquote ++ "\']+["
       ++ PyStr.dquote ++ "\']",
     "SECRET_KEY en dur dans le code");
    ("DEBUG\s*=\s*True", "DEBUG = True (vérifiez que c'est intentionnel)");
    ("ALLOWED_HOSTS\s*=\s*\[\s*\*\s*\]", "ALLOWED_HOSTS = ['*'] (trop permissif)");
    ("eval\s*\(", "Utilisation d'eval() (dangereux)");
    ("exec\s*\(", "Utilisation d'exec() (dangereux)");
    ("password\s*=\s*[" ++ PyStr.dquote ++ "\'][^" ++ PyStr.dquote ++ "\']+["
       ++ PyStr.dquote ++ "\']",
     "Mot de passe en dur dans le code");
    ("api_key\s*=\s*[" ++ PyStr.dquote ++ "\'][^" ++ PyStr.dquote ++ "\']+["
       ++ PyStr.dquote ++ "\']",
     "API key en dur dans le code") ].

Definition exclude_dirs : list string :=
  ["env"; "venv"; "__pycache__"; "migrations"; ".git"; "scripts"].

(** what one file contributes to [patterns] *)
Definition scan_file (w : World P) (py_file : string) : list string :=
  if existsb (fun excluded => PyStr.contains excluded py_file) exclude_dirs
  then []
  else match read_text P py_file w with
       | None => []
       | Some content =>
           map (fun pd => py_file ++ ": " ++ snd pd)
               (filter (fun pd => re_search_i P (fst pd) content) dangerous)
       end.

(** [_check_dangerous_patterns] *)
Definition _check_dangerous_patterns : M (list string) :=
  observe (fun w => firstn 10 (flat_map (scan_file w) (rglob_py P w))).

(** [f"{v.get('package', 'N/A')}: {v.get('vulnerability', 'N/A')}"];
    [None] when it raises *)
Definition safety_line (v : json) : option string :=
  match Py.get v "package" (JStr "N/A"),
        Py.get v "vulnerability" (JStr "N/A") with
  | Ok p, Ok vuln => Some (py_str P p ++ ": " ++ py_str P vuln)
  | _, _ => None
  end.

(** the list comprehension over [vulnerabilities[:5]]; [None] when it
    raises *)
Fixpoint safety_lines (vs : list json) : option (list string) :=
  match vs with
  | [] => Some []
  | v :: r => match safety_line v, safety_lines r with
              | Some x, Some xs => Some (x :: xs)
              | _, _ => None
              end
  end.

(** the [details] built from the output of [safety check --json]: the
    [try] block and its bare [except] *)
Definition safety_details (stdout : string) : list string :=
  let fallback := [str_or stdout "Vulnérabilités détectées"] in
  if PyStr.nonempty stdout then
    match json_loads P stdout with
    | None => fallback
    | Some (JArr l) =>
        match safety_lines (firstn 5 l) with
        | Some d => d
        | None => fallback
        end
    | Some (JStr s) =>
        (* a slice of a string: its characters have no [get] *)
        match PyStr.take 5 s with
        | EmptyString => []
        | _ => fallback
        end
    | Some _ => fallback
    end
  else [].

(** the aggregation loop at the end of [check_security] *)
Definition failed_details (failed : list SubScan) : list string :=
  flat_map (fun r =>
              (sub_name r ++ ": " ++ sub_msg r)
              :: match sub_extra r with
                 | Some extra => extra
                 | None => []
                 end)
           failed.

(** [check_security] *)
Definition check_security : M CheckResult :=
  enabled <- entry_field "security" "enabled" ;;
  if negb (Py.truthy enabled) then
    ret (result "Sécurité" true "Désactivée")
  else
    let results : list SubScan := [] in
    (* Bandit *)
    tools <- entry_field "security" "tools" ;;
    use_bandit <- lift (Py.str_in "bandit" tools) ;;
    results <-
      (if use_bandit then
         installed <- check_tool_installed "bandit" ;;
         (if negb installed then install_tool "bandit" else ret false) ;;
         installed <- check_tool_installed "bandit" ;;
         if installed then
           let exclude := PyStr.join "," ["./tests"; "./migrations"; "./env";
                                          "./venv"; "./.git"; "__pycache__"] in
           '(returncode, stdout, stderr) <-
             _run_command (argv ["bandit"; "-r"; "."; "-x"; exclude; "-ll";
                                 "--quiet"]) 60 ;;
           if negb (returncode =? 0) then
             ret (results ++ [mkSub "Bandit" false (str_or stdout stderr) None])%list
           else
             ret (results ++ [mkSub "Bandit" true "Aucune vulnérabilité détectée"
                                    None])%list
         else ret results
       else ret results) ;;
    (* Safety *)
    tools <- entry_field "security" "tools" ;;
    use_safety <- lift (Py.str_in "safety" tools) ;;
    results <-
      (if use_safety then
         installed <- check_tool_installed "safety" ;;
         (if negb installed then install_tool "safety" else ret false) ;;
         installed <- check_tool_installed "safety" ;;
         if installed then
           '(returncode, stdout, stderr) <-
             _run_command (argv ["safety"; "check"; "--json"]) 120 ;;
           if negb (returncode =? 0) then
             ret (results ++ [mkSub "Safety" false
                                    "Vulnérabilités dans les dépendances"
                                    (Some (safety_details stdout))])%list
           else
             ret (results ++ [mkSub "Safety" true "Aucune vulnérabilité détectée"
                                    None])%list
         else ret results
       else ret results) ;;
    (* secrets *)
    check_secrets <- entry_get "security" "check_secrets" (JBool true) ;;
    results <-
      (if Py.truthy check_secrets then
         baseline <- observe (path_exists P ".secrets.baseline") ;;
         (if negb baseline then
            _run_command (argv ["detect-secrets"; "scan"; "--all-files";
                                "--baseline"; ".secrets.baseline"]) 60 ;;
            ret tt
          else ret tt) ;;
         baseline <- observe (path_exists P ".secrets.baseline") ;;
         if baseline then
           '(returncode, stdout, stderr) <-
             _run_command (argv ["detect-secrets"; "scan"; "--all-files";
                                 "--baseline"; ".secrets.baseline"]) 60 ;;
           if negb (returncode =? 0)
              || PyStr.contains "secrets" (PyStr.lower stdout) then
             ret (results ++ [mkSub "Secrets" false "Secrets potentiels détectés"
                                    (Some ["Vérifiez le fichier .secrets.baseline"])])%list
           else
             ret (results ++ [mkSub "Secrets" true "Aucun secret détecté" None])%list
         else ret results
       else ret results) ;;
    (* dangerous patterns *)
    dangerous_patterns <- _check_dangerous_patterns ;;
    let results :=
      match dangerous_patterns with
      | _ :: _ => (results ++ [mkSub "Patterns" false "Patterns dangereux détectés"
                                     (Some dangerous_patterns)])%list
      | [] => (results ++ [mkSub "Patterns" true "Aucun pattern dangereux" None])%list
      end in
    (* aggregation *)
    let failed := filter (fun r => negb (sub_ok r)) results in
    match failed with
    | _ :: _ =>
        ret (result_d "Sécurité" false "Problèmes de sécurité détectés"
                      (failed_details failed))
    | [] => ret (result "Sécurité" true "Aucun problème de sécurité détecté")
    end.

(** the loop of [check_files] over [forbidden_files]; [Path(file)]
    refuses what is not a string *)
Fixpoint scan_forbidden (files : list json) (found : list string)
  : M (list string) :=
  match files with
  | [] => ret found
  | JStr file :: rest =>
      present <- observe (path_exists P file) ;;
      if present then
        '(returncode, _, _) <-
          _run_command (argv ["git"; "ls-files"; "--error-unmatch"; file]) 60 ;;
        if returncode =? 0 then
          scan_forbidden rest (List.app found [file ++ " (suivi par git - DANGER!)"])
        else
          scan_forbidden rest (List.app found [file ++ " (non suivi - OK)"])
      else scan_forbidden rest found
  | v :: _ =>
      raise (TypeError ("expected str, bytes or os.PathLike object, not "
                        ++ Py.type_name v))
  end.

Definition required_ignores : list string :=
  [".env"; "db.sqlite3"; "__pycache__/"; "*.pyc"].

(** [check_files] *)
Definition check_files : M CheckResult :=
  enabled <- entry_field "files" "enabled" ;;
  if negb (Py.truthy enabled) then
    ret (result "Fichiers" true "Désactivé")
  else
    forbidden_files <- entry_field "files" "forbidden_files" ;;
    files <- lift (Py.iter forbidden_files) ;;
    found <- scan_forbidden files [] ;;
    let dangerous := filter (PyStr.contains "DANGER") found in
    match dangerous with
    | _ :: _ =>
        ret (result_d "Fichiers" false "Fichiers sensibles commités!" dangerous)
    | [] =>
        check_gitignore <- entry_get "files" "check_gitignore" (JBool true) ;;
        if Py.truthy check_gitignore then
          present <- observe (path_exists P ".gitignore") ;;
          if negb present then
            ret (result "Fichiers" false "Fichier .gitignore manquant")
          else
            text <- observe (read_text P ".gitignore") ;;
            match text with
            | None => raise (FileError ".gitignore")
            | Some gitignore_content =>
                let missing :=
                  filter (fun item => negb (PyStr.contains item gitignore_content))
                         required_ignores in
                match missing with
                | _ :: _ =>
                    ret (result_d "Fichiers" false ".gitignore incomplet"
                                  ["Manquant: " ++ PyStr.join ", " missing])
                | [] => ret (result "Fichiers" true "Aucun fichier sensible détecté")
                end
            end
        else ret (result "Fichiers" true "Aucun fichier sensible détecté")
    end.

Definition default_allowed_types : json :=
  JArr (map JStr ["feat"; "fix"; "docs"; "style"; "refactor"; "test"; "chore"]).

(** [r'^(' + '|'.join(allowed_types) + r')(\(.+\))?: .+'] *)
Definition commit_pattern (allowed_types : json) : Res string :=
  alternatives <-- Py.join "|" allowed_types ;;;
  Ok ("^(" ++ alternatives ++ ")(\(.+\))?: .+").

(** the warning of [check_git] *)
Definition convention_warning (last_message : string) (allowed_types : json)
  : Res string :=
  listed <-- Py.join ", " allowed_types ;;;
  Ok ("Le dernier commit ne suit pas la convention: '"
      ++ PyStr.take 50 last_message ++ "...'" ++ PyStr.newline
      ++ "Format attendu: type: description" ++ PyStr.newline
      ++ "Types autorisés: " ++ listed).

(** the second half of [check_git]: the last commit message against the
    convention *)
Definition check_convention : M unit :=
  conventional <- entry_get "git" "conventional_commits" (JBool true) ;;
  if Py.truthy conventional then
    '(returncode, stdout, _) <-
      _run_command (argv ["git"; "log"; "-1"; "--pretty=%B"]) 60 ;;
    let last_message := if PyStr.nonempty stdout then PyStr.strip stdout else "" in
    allowed_types <- entry_get "git" "allowed_types" default_allowed_types ;;
    pattern <- lift (commit_pattern allowed_types) ;;
    if PyStr.nonempty last_message then
      match re_match_i P pattern last_message with
      | None => raise (ReError pattern)
      | Some true => ret tt
      | Some false =>
          warning <- lift (convention_warning last_message allowed_types) ;;
          modify (add_warning warning)
      end
    else ret tt
  else ret tt.

(** the first half of [check_git]: is anything staged?  ([True] when the
    staged-files test is switched off) *)
Definition staged_files_present : M bool :=
  check_staged <- entry_get "git" "check_staged_files" (JBool true) ;;
  if Py.truthy check_staged then
    '(returncode, stdout, _) <-
      _run_command (argv ["git"; "diff"; "--cached"; "--name-only"]) 60 ;;
    let staged_files := if PyStr.nonempty stdout
                        then PyStr.split_nl (PyStr.strip stdout) else [] in
    match staged_files with
    | [] => ret false
    | [EmptyString] => ret false
    | _ => ret true
    end
  else ret true.

(** [check_git] *)
Definition check_git : M CheckResult :=
  enabled <- entry_field "git" "enabled" ;;
  if negb (Py.truthy enabled) then
    ret (result "Git" true "Désactivé")
  else
    staged <- staged_files_present ;;
    if negb staged then
      ret (result_d "Git" false "Aucun fichier staged"
                    ["Utilisez 'git add' avant de committer"])
    else
      check_convention ;;
      ret (result "Git" true "Git OK").

(* ===================================================================== *)
(** ** run_all_checks *)
(* ===================================================================== *)

(** An element of the list [checks]: [(name, check_func, fix_func)]. *)
Definition CheckEntry : Type := string * M CheckResult * option (M bool).

(** the table [checks] of [run_all_checks] *)
Definition checks : list CheckEntry :=
  [ ("Linter", check_linter, Some fix_linter);
    ("Tests", check_tests, None);
    ("Django", check_django, None);
    ("Sécurité", check_security, None);
    ("Fichiers", check_files, None);
    ("Git", check_git, None) ].

(** How one turn of the loop leaves the check: the loop goes on to the
    next one (the check passed, or was repaired and [continue] was
    reached), or the check stays failed with the message of its last
    result. *)
Inductive Verdict : Type :=
| Continue
| Failed (msg : string).

(** The body of the [for] loop up to the strict-mode test: evaluation,
    and the attempt at a correction. *)
Definition attempt (entry : CheckEntry) : M Verdict :=
  let '(name, check_func, fix_func) := entry in
  log (EvCheck name) ;;
  result <- check_func ;;
  if passed result then ret Continue
  else
    autofix <- gets auto_fix ;;
    match fix_func with
    | Some fix_func =>
        if can_fix result && Py.truthy autofix then
          ok <- _confirm "   Corriger automatiquement ?" ;;
          if ok then
            log (EvFix name) ;;
            fixed <- fix_func ;;
            if fixed then
              log (EvCheck name) ;;
              result <- check_func ;;
              if passed result then
                modify (add_fix name) ;;
                ret Continue
              else ret (Failed (message result))
            else ret (Failed (message result))
          else ret (Failed (message result))
        else ret (Failed (message result))
    | None => ret (Failed (message result))
    end.

(** The [for] loop over the remaining checks, with the local variable
    [all_passed], and the two lines after the loop. *)
Fixpoint run_checks (remaining : list CheckEntry) (all_passed : bool) : M bool :=
  match remaining with
  | [] =>
      _print_summary all_passed ;;
      ret all_passed
  | entry :: rest =>
      verdict <- attempt entry ;;
      match verdict with
      | Continue => run_checks rest all_passed
      | Failed msg =>
          strict <- gets strict_mode ;;
          if Py.truthy strict then
            _print_summary false ;;
            ret false
          else
            modify (add_error (fst (fst entry) ++ ": " ++ msg)) ;;
            run_checks rest false
      end
  end.

(** [run_all_checks] *)
Definition run_all_checks : M bool := run_checks checks true.

End PreCommitChecker.

(* ===================================================================== *)
(** * main *)
(* ===================================================================== *)

(** The namespace returned by [parser.parse_args()]. *)
Record Args : Type := mkArgs {
  arg_config : string;
  arg_fix : bool;
  arg_yes : bool;
  arg_from_hook : bool;
  arg_only : option string;
  arg_verbose : bool
}.

Definition default_args : Args :=
  mkArgs "scripts/pre-commit-config.json" false false false None false.

Section Main.

Variable P : Platform.

(** "Appliquer les arguments" *)
Definition apply_args (args : Args) (checker : Checker) : Checker :=
  let checker := if arg_fix args then set_auto_fix (JBool true) checker
                 else checker in
  if arg_yes args || arg_from_hook args
  then set_auto_fix (JBool true) (set_interactive (JBool false) checker)
  else checker.

(** The [try] block of [main]: the exit status of the process, given how
    [run_all_checks] ended. *)
Definition exit_status (r : Res bool) : Z :=
  match r with
  | Ok success => if success then 0 else 1
  | Raise KeyboardInterrupt => 130
  | Raise (SystemExit code) => code
  | Raise _ => 1
  end.

(** [main], after [parse_args]: the exit status and, when the checker
    could be built, the state in which the run ended. *)
Definition main (args : Args) (w : World P) : Z * option (St P) :=
  match init P (arg_config args) w with
  | Raise (SystemExit code) => (code, None)
  | Raise _ => (1, None)
  | Ok checker =>
      let '(r, s) := run_all_checks P (mkSt w (apply_args args checker) []) in
      (exit_status r, Some s)
  end.

End Main.

(* ===================================================================== *)
(** * A scripted platform, to run the pipeline on concrete scenarios *)
(* ===================================================================== *)

Module Sim.

(** The world is a script: for each command prefix the outcomes of its
    successive runs (the last one repeats), the lines waiting on the
    keyboard, the files of the tree and the configuration file. *)
Record world : Type := mkWorld {
  procs : list (list string * list ProcOutcome);
  keyboard : list InputOutcome;
  files : list (string * string);
  py_files : list string;
  config_file : ConfigFile
}.

Fixpoint is_prefix (p l : list string) : bool :=
  match p, l with
  | [], _ => true
  | x :: p', y :: l' => String.eqb x y && is_prefix p' l'
  | _ :: _, [] => false
  end.

Definition not_found : ProcOutcome :=
  LaunchFailed "[Errno 2] No such file or directory".

Fixpoint run_script (rules : list (list string * list ProcOutcome))
                    (args : list string)
  : ProcOutcome * list (list string * list ProcOutcome) :=
  match rules with
  | [] => (not_found, [])
  | (key, queue) :: rest =>
      if is_prefix key args then
        match queue with
        | [] => (not_found, rules)
        | [o] => (o, rules)
        | o :: later => (o, (key, later) :: rest)
        end
      else
        let (o, rest') := run_script rest args in
        (o, (key, queue) :: rest')
  end.

Definition launch (args : list string) (timeout : Z) (w : world)
  : ProcOutcome * world :=
  let (o, rules) := run_script (procs w) args in
  (o, mkWorld rules (keyboard w) (files w) (py_files w) (config_file w)).

Definition next_line (prompt : string) (w : world) : InputOutcome * world :=
  match keyboard w with
  | [] => (EndOfInput, w)
  | o :: later =>
      (o, mkWorld (procs w) later (files w) (py_files w) (config_file w))
  end.

Fixpoint file_lookup (p : string) (fs : list (string * string)) : option string :=
  match fs with
  | [] => None
  | (q, text) :: r => if String.eqb p q then Some text else file_lookup p r
  end.

Definition has_file (p : string) (w : world) : bool :=
  match file_lookup p (files w) with Some _ => true | None => false end.

Definition file_text (p : string) (w : world) : option string :=
  file_lookup p (files w).

(** ** The commit-message pattern, for literal type names

    [^(t1|...|tn)(\(.+\))?: .+] matched at the start of the text,
    ignoring case: one of the types, an optional non-empty scope in
    parentheses, a colon, a space and at least one character; [.] is any
    character but a newline. *)

Fixpoint strip_prefix (p s : string) : option string :=
  match p, s with
  | EmptyString, _ => Some s
  | String a p', String b s' => if Ascii.eqb a b then strip_prefix p' s' else None
  | String _ _, EmptyString => None
  end.

Definition is_dot (c : ascii) : bool := negb (Ascii.eqb c PyStr.nl).

(** [: .+] *)
Definition colon_description (s : string) : bool :=
  match s with
  | String c1 (String c2 (String c3 _)) =>
      Ascii.eqb c1 ":" && Ascii.eqb c2 " " && is_dot c3
  | _ => false
  end.

(** [.+\)] then [: .+], after the opening parenthesis; [seen] tells
    whether [.+] has consumed a character already *)
Fixpoint scope_then_description (seen : bool) (s : string) : bool :=
  match s with
  | EmptyString => false
  | String c r =>
      is_dot c &&
      ((seen && Ascii.eqb c ")" && colon_description r)
       || scope_then_description true r)
  end.

Definition after_type (s : string) : bool :=
  colon_description s
  || match s with
     | String c r => Ascii.eqb c "(" && scope_then_description false r
     | EmptyString => false
     end.

Definition conventional (types : list string) (text : string) : bool :=
  existsb (fun t => match strip_prefix (PyStr.lower t) (PyStr.lower text) with
                    | Some rest => after_type rest
                    | None => false
                    end)
          types.

Definition is_alnum (c : ascii) : bool :=
  let n := nat_of_ascii c in
  (((48 <=? n) && (n <=? 57)) || ((65 <=? n) && (n <=? 90))
   || ((97 <=? n) && (n <=? 122)))%nat.

Fixpoint is_word (s : string) : bool :=
  match s with
  | EmptyString => true
  | String c r => is_alnum c && is_word r
  end.

(** [s.split('|')] *)
Fixpoint split_bar (s : string) : list string :=
  match s with
  | EmptyString => [EmptyString]
  | String c r =>
      if Ascii.eqb c "|" then EmptyString :: split_bar r
      else match split_bar r with
           | h :: t => String c h :: t
           | [] => [String c EmptyString]
           end
  end.

Definition pattern_tail : string := ")(\(.+\))?: .+".

(** the type names of a commit pattern whose alternatives are plain
    words; any other pattern is refused *)
Definition pattern_types (pattern : string) : option (list string) :=
  match strip_prefix "^(" pattern with
  | None => None
  | Some rest =>
      match strip_prefix (PyStr.reverse pattern_tail) (PyStr.reverse rest) with
      | None => None
      | Some alternatives_reversed =>
          let types := split_bar (PyStr.reverse alternatives_reversed) in
          if forallb is_word types then Some types else None
      end
  end.

Definition match_commit (pattern text : string) : option bool :=
  match pattern_types pattern with
  | Some types => Some (conventional types text)
  | None => None
  end.

Definition show (v : json) : string :=
  match v with
  | JStr s => s
  | JInt n => PyStr.of_Z n
  | JBool true => "True"
  | JBool false => "False"
  | JNull => "None"
  | _ => "<" ++ Py.type_name v ++ ">"
  end.

Definition parse (text : string) : option json :=
  if String.eqb text "[]" then Some (JArr []) else None.

Definition platform : Platform :=
  {| World := world;
     is_nt := false;
     spawn := launch;
     read_line := next_line;
     path_exists := has_file;
     read_text := file_text;
     rglob_py := py_files;
     load_json := fun _ w => config_file w;
     json_loads := parse;
     re_match_i := match_commit;
     re_search_i := fun _ _ => false;
     py_str := show |}.

Definition exited (rc : Z) (out : string) : list ProcOutcome := [Exited rc out ""].

End Sim.

(* ===================================================================== *)
(** * Scenarios *)
(* ===================================================================== *)

Module Scenario.

Definition disabled : json := JObj [("enabled", JBool false)].

Definition linter_on : json :=
  JObj [("enabled", JBool true);
        ("exclude", JArr [JStr "env"; JStr "migrations"]);
        ("max_line_length", JInt 100)].

Definition git_on : json :=
  JObj [("enabled", JBool true);
        ("allowed_types", JArr [JStr "feat"; JStr "fix"; JStr "docs"])].

Definition settings (strict autofix inter : bool) (entries : list (string * json))
  : json :=
  JObj [("strict_mode", JBool strict); ("auto_fix", JBool autofix);
        ("interactive", JBool inter); ("checks", JObj entries)].

(** only the linter is enabled *)
Definition linter_only : list (string * json) :=
  [("linter", linter_on); ("tests", disabled); ("django", disabled);
   ("security", disabled); ("files", disabled); ("git", disabled)].

(** only the Django check (with [auto_migrate]) and the git check are
    enabled *)
Definition django_and_git : list (string * json) :=
  [("linter", disabled); ("tests", disabled);
   ("django", JObj [("enabled", JBool true); ("auto_migrate", JBool true)]);
   ("security", disabled); ("files", disabled); ("git", git_on)].

(** only the git check is enabled *)
Definition git_only : list (string * json) :=
  [("linter", disabled); ("tests", disabled); ("django", disabled);
   ("security", disabled); ("files", disabled); ("git", git_on)].

Definition style_error : string := "app/views.py:1:80: E501 line too long".

Definition tree (rules : list (list string * list ProcOutcome))
                (keys : list InputOutcome) (cfg : ConfigFile) : Sim.world :=
  Sim.mkWorld rules keys [] [] cfg.

(** flake8 finds a style error until black has run; every tool is
    installed *)
Definition repairable : list (list string * list ProcOutcome) :=
  [ (["which"], Sim.exited 0 "/usr/bin/tool");
    (["flake8"], [Exited 1 style_error ""; Exited 0 "" ""]);
    (["black"], Sim.exited 0 "");
    (["isort"], Sim.exited 0 "") ].

(** flake8 finds a style error; black is installed and fails; isort is
    not installed *)
Definition black_fails : list (list string * list ProcOutcome) :=
  [ (["which"; "isort"], Sim.exited 1 "");
    (["pip"; "show"], Sim.exited 1 "");
    (["which"], Sim.exited 0 "/usr/bin/tool");
    (["flake8"], Sim.exited 1 style_error);
    (["black"], Sim.exited 123 "") ].

(** the project checks out, a migration is missing and can be created,
    nothing is staged *)
Definition missing_migration : list (list string * list ProcOutcome) :=
  [ (["python"; "manage.py"; "check"], Sim.exited 0 "");
    (["python"; "manage.py"; "makemigrations"; "--check"], Sim.exited 1 "");
    (["python"; "manage.py"; "makemigrations"], Sim.exited 0 "");
    (["git"; "diff"], Sim.exited 0 "") ].

(** a file is staged and the last commit message is [last] *)
Definition staged (last : string) : list (list string * list ProcOutcome) :=
  [ (["git"; "diff"], Sim.exited 0 ("app/views.py" ++ PyStr.newline));
    (["git"; "log"], Sim.exited 0 last) ].

(** nothing is staged and the last commit message is [last] *)
Definition unstaged (last : string) : list (list string * list ProcOutcome) :=
  [ (["git"; "diff"], Sim.exited 0 "");
    (["git"; "log"], Sim.exited 0 last) ].

(** the test suite does not finish in time *)
Definition slow_tests : list (list string * list ProcOutcome) :=
  [ (["python"; "manage.py"; "test"], [TimedOut]) ].

(** a checker configured by [cfg], before the run *)
Definition fresh (cfg : json) (w : Sim.world) : St Sim.platform :=
  mkSt (W := Sim.world) w
       (mkChecker cfg (JBool true) [] [] []
                  (match Py.get cfg "strict_mode" (JBool true) with
                   | Ok v => v | Raise _ => JBool true end)
                  (match Py.get cfg "auto_fix" (JBool true) with
                   | Ok v => v | Raise _ => JBool true end)
                  (match Py.get cfg "interactive" (JBool true) with
                   | Ok v => v | Raise _ => JBool true end))
       [].

Fixpoint count_event (same : Event -> bool) (t : list Event) : nat :=
  match t with
  | [] => 0%nat
  | ev :: r => ((if same ev then 1 else 0) + count_event same r)%nat
  end.

Definition is_check (n : string) (ev : Event) : bool :=
  match ev with EvCheck m => String.eqb n m | _ => false end.

Definition is_fix (n : string) (ev : Event) : bool :=
  match ev with EvFix m => String.eqb n m | _ => false end.

Definition is_summary (ev : Event) : bool :=
  match ev with EvSummary _ => true | _ => false end.

Definition is_prompt (ev : Event) : bool :=
  match ev with EvPrompt _ => true | _ => false end.

End Scenario.

(* ===================================================================== *)
(** * The vocabulary of the properties *)
(* ===================================================================== *)

Section Terms.

Variable P : Platform.

(** The exceptions of the process runner. *)
Definition proc_exn (e : exn) : bool :=
  match e with
  | TimeoutExpired _ | LaunchError _ => true
  | _ => false
  end.

(** The fields of the checker that only [__init__], [main] and the
    orchestrator write. *)
Definition same_policy (c c' : Checker) : Prop :=
  config c' = config c /\ errors c' = errors c /\
  strict_mode c' = strict_mode c /\ auto_fix c' = auto_fix c /\
  interactive c' = interactive c.

(** [sound m Q]: [m] leaves the policy fields alone, lets no exception of
    the process runner escape, and its value, when it returns, satisfies
    [Q]. *)
Definition sound {A} (m : M P A) (Q : A -> Prop) : Prop :=
  forall s r s', m s = (r, s') ->
    same_policy (self s) (self s') /\
    match r with
    | Ok a => Q a
    | Raise e => proc_exn e = false
    end.

Definition res_safe {A} (r : Res A) : Prop :=
  forall e, r = Raise e -> proc_exn e = false.

(** What [_run_command] returns when [subprocess.run] ends in [o]. *)
Definition outcome_triple (timeout : Z) (o : ProcOutcome) : option (Z * string * string) :=
  match o with
  | Exited rc out err => Some (rc, out, err)
  | TimedOut =>
      Some (-1, "", "Commande expirée après " ++ PyStr.of_Z timeout ++ "s")
  | LaunchFailed msg => Some (-1, "", msg)
  | Interrupted => None
  end.

Definition entry_name (entry : CheckEntry P) : string := fst (fst entry).

(** the state after an event was recorded *)
Definition logged (ev : Event) (s : St P) : St P :=
  mkSt (world s) (self s) (trace s ++ [ev]).

(** the state after [_print_summary] *)
Definition summarised (success : bool) (s : St P) : St P :=
  logged (EvSummary success) s.

(** the state after [self.fixes_applied.append(name)] *)
Definition with_fix (name : string) (s : St P) : St P :=
  mkSt (world s) (add_fix name (self s)) (trace s).

(** the state after [self.errors.append(line)] *)
Definition with_error (line : string) (s : St P) : St P :=
  mkSt (world s) (add_error line (self s)) (trace s).

Definition confirm_fix : string := "   Corriger automatiquement ?".

(** what the confirmer makes of the keyboard *)
Definition answer (o : InputOutcome) : bool :=
  match o with
  | Line l => affirmative (PyStr.lower (PyStr.strip l))
  | EndOfInput | Interrupt => false
  end.

(** A check and its fixer leave the policy fields alone and let no
    exception of the process runner escape. *)
Definition entry_sound (entry : CheckEntry P) : Prop :=
  sound (snd (fst entry)) (fun _ => True) /\
  forall f, snd entry = Some f -> sound f (fun _ => True).

(** How a run ends. *)
Inductive Ending : Type :=
| Aborted (checkName : string)
| Completed (success : bool).

Definition verdict (fin : Ending) : bool :=
  match fin with
  | Aborted _ => false
  | Completed success => success
  end.

Definition error_line (name msg : string) : string := name ++ ": " ++ msg.

(** [Run remaining all_passed s turns fin s']: from [s], with the local
    variable at [all_passed], the loop takes the [turns] listed (the name
    of each check attempted and how its turn ended), ends in [fin] and
    leaves the state [s']. *)
Inductive Run : list (CheckEntry P) -> bool -> St P ->
                list (string * Verdict) -> Ending -> St P -> Prop :=
| Run_done all_passed s :
    Run [] all_passed s [] (Completed all_passed) (summarised all_passed s)
| Run_continue entry rest all_passed s s1 turns fin s' :
    attempt P entry s = (Ok Continue, s1) ->
    Run rest all_passed s1 turns fin s' ->
    Run (entry :: rest) all_passed s
        ((entry_name entry, Continue) :: turns) fin s'
| Run_abort entry rest all_passed s s1 msg :
    attempt P entry s = (Ok (Failed msg), s1) ->
    Py.truthy (strict_mode (self s1)) = true ->
    Run (entry :: rest) all_passed s
        [(entry_name entry, Failed msg)]
        (Aborted (entry_name entry)) (summarised false s1)
| Run_collect entry rest all_passed s s1 msg turns fin s' :
    attempt P entry s = (Ok (Failed msg), s1) ->
    Py.truthy (strict_mode (self s1)) = false ->
    Run rest false (with_error (error_line (entry_name entry) msg) s1)
        turns fin s' ->
    Run (entry :: rest) all_passed s
        ((entry_name entry, Failed msg) :: turns) fin s'.

(** the turns that ended in failure, as the lines they add to [errors] *)
Fixpoint error_lines (turns : list (string * Verdict)) : list string :=
  match turns with
  | [] => []
  | (_, Continue) :: rest => error_lines rest
  | (n, Failed msg) :: rest => error_line n msg :: error_lines rest
  end.

(** every check before the failing one passed or was repaired *)
Inductive Passes : list (CheckEntry P) -> St P -> St P -> Prop :=
| Passes_nil s : Passes [] s s
| Passes_cons entry rest s s1 s' :
    attempt P entry s = (Ok Continue, s1) ->
    Passes rest s1 s' ->
    Passes (entry :: rest) s s'.

End Terms.

Arguments sound {P A} m Q.
Arguments Run {P}.
Arguments Passes {P}.
Arguments logged {P}.
Arguments summarised {P}.
Arguments with_fix {P}.
Arguments with_error {P}.
Arguments entry_name {P}.
Arguments entry_sound {P}.

(** The keys of the [checks] map in the configuration file, in the order
    of the table of [run_all_checks]. *)
Definition config_keys : list string :=
  ["linter"; "tests"; "django"; "security"; "files"; "git"].

(** [cfg["checks"][key]] *)
Definition cfg_entry (cfg : json) (key : string) : Res json :=
  checks <-- Py.subscript cfg "checks" ;;;
  Py.subscript checks key.

(** [cfg["checks"][key][field]] *)
Definition cfg_field (cfg : json) (key field : string) : Res json :=
  entry <-- cfg_entry cfg key ;;;
  Py.subscript entry field.

(** [cfg["checks"][key].get(field, default)] *)
Definition cfg_get (cfg : json) (key field : string) (default : json) : Res json :=
  entry <-- cfg_entry cfg key ;;;
  Py.get entry field default.

(** The invariant of the specification: whenever a check of the table
    returns a result with [can_fix = True], the table holds a fixer for
    it. *)
Definition fixable_has_fixer (P : Platform) : Prop :=
  forall n chk fx (s : St P) r s',
    In (n, chk, fx) (checks P) ->
    chk s = (Ok r, s') -> can_fix r = true -> fx <> None.

Definition django_only : list (string * json) :=
  [("linter", Scenario.disabled); ("tests", Scenario.disabled);
   ("django", JObj [("enabled", JBool true)]);
   ("security", Scenario.disabled); ("files", Scenario.disabled);
   ("git", Scenario.disabled)].

Definition migrations_missing : CheckResult :=
  mkResult "Django" false "Migrations manquantes" true ""
           ["Exécutez: python manage.py makemigrations"].

Definition passed_turn (entry_n : string) : string * Verdict := (entry_n, Continue).

(** a configuration in which the Django and the git checks are enabled
    and the others are not *)
Definition django_git (strict : bool) : json :=
  Scenario.settings strict true true
    [("linter", Scenario.disabled); ("tests", Scenario.disabled);
     ("django", JObj [("enabled", JBool true)]);
     ("security", Scenario.disabled); ("files", Scenario.disabled);
     ("git", Scenario.git_on)].

Definition two_failures (strict : bool) : St Sim.platform :=
  Scenario.fresh (django_git strict)
                 (Scenario.tree Scenario.missing_migration [] NotFound).

Definition is_failed (turn : string * Verdict) : bool :=
  match snd turn with
  | Failed _ => true
  | Continue => false
  end.

(** the number of evaluations of check [n] a trace records *)
Definition evaluations (n : string) (t : list Event) : nat :=
  Scenario.count_event (Scenario.is_check n) t.

(** the number of calls of the fixer of check [n] a trace records *)
Definition corrections (n : string) (t : list Event) : nat :=
  Scenario.count_event (Scenario.is_fix n) t.

Definition linter_entry : CheckEntry Sim.platform :=
  ("Linter", check_linter Sim.platform, Some (fix_linter Sim.platform)).

Definition style_failure : CheckResult :=
  mkResult "Linter" false "1 erreurs de style" true "black ."
           ["1 erreur(s) de style détectée(s)"; "Exemples d'erreurs :";
            Scenario.style_error].

Definition test_command : list json :=
  argv ["python"; "manage.py"; "test"; "--verbosity=1"].

Definition with_only (only : option string) (args : Args) : Args :=
  mkArgs (arg_config args) (arg_fix args) (arg_yes args) (arg_from_hook args)
         only (arg_verbose args).

Definition git_log : list json := argv ["git"; "log"; "-1"; "--pretty=%B"].

Definition feat_fix_docs : json := JArr [JStr "feat"; JStr "fix"; JStr "docs"].

(* ===================================================================== *)
(** * The runs of the witnesses *)
(* ===================================================================== *)

Module DisabledRun.

(** every check but the linter is disabled *)
Definition s : St Sim.platform :=
  Scenario.fresh (Scenario.settings true true true Scenario.linter_only)
                 (Scenario.tree [] [] NotFound).

End DisabledRun.

Module OmittedRun.

(** a configuration file whose [checks] map is empty *)
Definition cfg : json := JObj [("checks", JObj [])].
Definition w : Sim.world := Scenario.tree [] [] (Loaded cfg).

(** a configuration whose [checks] map has the entry of the linter only *)
Definition linter_alone : St Sim.platform :=
  Scenario.fresh (JObj [("checks", JObj [("linter", Scenario.linter_on)])])
                 (Scenario.tree [] [] NotFound).

End OmittedRun.

Module MigrationRun.

(** only the Django check is enabled and a migration is missing: the
    states before the turn of the Django check and after its evaluation *)
Definition s0 : St Sim.platform :=
  Scenario.fresh (Scenario.settings true true true django_only)
                 (Scenario.tree Scenario.missing_migration [] NotFound).
Definition s' : St Sim.platform :=
  snd (check_django Sim.platform (logged (EvCheck "Django") s0)).

End MigrationRun.

Module StrictRun.

(** strict mode, a missing migration, nothing staged: the states at the
    start, after the turns of the two disabled checks and after the turn
    of the Django check *)
Definition s : St Sim.platform := two_failures true.
Definition s1 : St Sim.platform :=
  logged (EvCheck "Tests") (logged (EvCheck "Linter") s).
Definition s2 : St Sim.platform :=
  snd (attempt Sim.platform ("Django", check_django Sim.platform, None) s1).

End StrictRun.

Module TimeoutRun.

(** the tests check is enabled and the test suite does not finish in
    time *)
Definition s : St Sim.platform :=
  Scenario.fresh (Scenario.settings true true true
                    [("tests", JObj [("enabled", JBool true)])])
                 (Scenario.tree Scenario.slow_tests [] NotFound).

End TimeoutRun.

Module RepairRun.

(** a style error that black repairs, auto-fix on, the correction
    confirmed: the states after the first evaluation, the confirmation,
    the fixer and the second evaluation *)
Definition s : St Sim.platform :=
  Scenario.fresh (Scenario.settings true true true Scenario.linter_only)
                 (Scenario.tree Scenario.repairable [Line "o"] NotFound).
Definition s1 : St Sim.platform :=
  snd (check_linter Sim.platform (logged (EvCheck "Linter") s)).
Definition s2 : St Sim.platform :=
  snd (_confirm Sim.platform confirm_fix s1).
Definition s3 : St Sim.platform :=
  snd (fix_linter Sim.platform (logged (EvFix "Linter") s2)).
Definition s4 : St Sim.platform :=
  snd (check_linter Sim.platform (logged (EvCheck "Linter") s3)).

(** the same tree with auto-fix off *)
Definition t : St Sim.platform :=
  Scenario.fresh (Scenario.settings true false true Scenario.linter_only)
                 (Scenario.tree Scenario.repairable [Line "o"] NotFound).
Definition t1 : St Sim.platform :=
  snd (check_linter Sim.platform (logged (EvCheck "Linter") t)).

End RepairRun.

Module InterruptedRun.

(** a style error black could repair, auto-fix on, the operator
    interrupts the question: the states before and after the first
    evaluation, and after the question *)
Definition s0 : St Sim.platform :=
  Scenario.fresh (Scenario.settings true true true Scenario.linter_only)
                 (Scenario.tree Scenario.repairable [Interrupt] NotFound).
Definition s : St Sim.platform :=
  snd (check_linter Sim.platform (logged (EvCheck "Linter") s0)).
Definition w : Sim.world :=
  snd (Sim.next_line (confirm_fix ++ " [O/n] : ") (world s)).
Definition s' : St Sim.platform :=
  mkSt w (self s) (trace s ++ [EvPrompt (confirm_fix ++ " [O/n] : ")]).

End InterruptedRun.

Module ConventionRun.

(** a file is staged and the last commit message is "update stuff", with
    the allow-list [feat, fix, docs]: the states before the check, after
    the staged-files test and after [git log] *)
Definition s : St Sim.platform :=
  Scenario.fresh (Scenario.settings true true true Scenario.git_only)
                 (Scenario.tree (Scenario.staged "update stuff") [] NotFound).
Definition s1 : St Sim.platform := snd (staged_files_present Sim.platform s).
Definition s2 : St Sim.platform := snd (_run_command Sim.platform git_log 60 s1).

Definition warning : string :=
  "Le dernier commit ne suit pas la convention: 'update stuff...'"
  ++ PyStr.newline ++ "Format attendu: type: description"
  ++ PyStr.newline ++ "Types autorisés: feat, fix, docs".

End ConventionRun.

(* ===================================================================== *)
(** * The vocabulary of the discipline of a run *)
(* ===================================================================== *)

(** The exceptions that can leave a method of the checker: a
    configuration of the wrong shape, an unreadable file, a pattern that
    does not compile, an interrupt. *)
Definition may_escape (e : exn) : bool :=
  match e with
  | KeyError _ | TypeError _ | AttributeError _ | FileError _ | ReError _
  | KeyboardInterrupt => true
  | _ => false
  end.

(** a pure expression that raises only what may escape *)
Definition res_escapes {A} (r : Res A) : Prop :=
  forall e, r = Raise e -> may_escape e = true.

(** The settings of a run: what [__init__] and [main] fix before
    [run_all_checks] starts. *)
Definition same_flags (c c' : Checker) : Prop :=
  config c' = config c /\ strict_mode c' = strict_mode c /\
  auto_fix c' = auto_fix c /\ interactive c' = interactive c.

(** [command] starts with the words [p] *)
Fixpoint starts_with (p : list string) (command : list json) : bool :=
  match p, command with
  | [], _ => true
  | w :: p', v :: command' => Py.is_str w v && starts_with p' command'
  | _ :: _, [] => false
  end.

(** The commands by which the script installs a tool, reformats the
    code or creates migrations: [pip install], [black], [isort] and
    [manage.py makemigrations] without [--check]. *)
Definition mutating (command : list json) : bool :=
  starts_with ["pip"; "install"] command
  || starts_with ["black"] command
  || starts_with ["isort"] command
  || (starts_with ["python"; "manage.py"; "makemigrations"] command
      && (length command =? 3)%nat).

(** Somebody can have agreed to a change: the operator at the keyboard,
    or the configuration through [auto_fix]. *)
Definition consented (c : Checker) : bool :=
  Py.truthy (interactive c) || Py.truthy (auto_fix c).

(** What a check may do under the settings [c]: ask only in interactive
    mode, run a mutating command only with consent, and leave the events
    of the orchestrator alone. *)
Definition permitted (c : Checker) (ev : Event) : bool :=
  match ev with
  | EvPrompt _ => Py.truthy (interactive c)
  | EvRun command _ => negb (mutating command) || consented c
  | EvCheck _ | EvFix _ | EvSummary _ => false
  end.

(** What a fixer may do: as a check, and any command. *)
Definition permitted_fix (c : Checker) (ev : Event) : bool :=
  match ev with
  | EvPrompt _ => Py.truthy (interactive c)
  | EvRun _ _ => true
  | EvCheck _ | EvFix _ | EvSummary _ => false
  end.

(** What a turn of the loop may do: evaluate checks, call a fixer only
    when [auto_fix] is on, and what a check may do; it prints no
    summary. *)
Definition permitted_turn (c : Checker) (ev : Event) : bool :=
  match ev with
  | EvCheck _ => true
  | EvFix _ => Py.truthy (auto_fix c)
  | EvSummary _ => false
  | EvPrompt _ | EvRun _ _ => permitted c ev
  end.

Section DisciplineTerms.

Variable P : Platform.

(** [disciplined c allow m Q]: started under the settings [c], the
    computation [m] keeps the settings, records only events that [allow]
    accepts, lets only the exceptions of [may_escape] out, and returns a
    value that satisfies [Q]. *)
Definition disciplined (c : Checker) (allow : Event -> bool)
           {A} (m : M P A) (Q : A -> Prop) : Prop :=
  forall s r s',
    same_flags c (self s) ->
    m s = (r, s') ->
    same_flags c (self s')
    /\ (exists t, trace s' = (trace s ++ t)%list
                  /\ forallb allow t = true)
    /\ match r with
       | Ok a => Q a
       | Raise e => may_escape e = true
       end.

(** a check and its fixer keep the discipline *)
Definition entry_disciplined (c : Checker) (entry : CheckEntry P) : Prop :=
  disciplined c (permitted c) (snd (fst entry)) (fun _ => True) /\
  forall f, snd entry = Some f ->
            disciplined c (permitted_fix c) f (fun _ => True).

End DisciplineTerms.

Arguments disciplined {P} c allow {A} m Q.
Arguments entry_disciplined {P} c entry.

Definition is_run (ev : Event) : bool :=
  match ev with EvRun _ _ => true | _ => false end.

(** the commands a trace records *)
Fixpoint commands (t : list Event) : list (list json) :=
  match t with
  | [] => []
  | EvRun command _ :: r => command :: commands r
  | _ :: r => commands r
  end.

(** the number of questions a trace records *)
Definition prompts (t : list Event) : nat :=
  Scenario.count_event Scenario.is_prompt t.

(** the number of summaries a trace records *)
Definition summaries (t : list Event) : nat :=
  Scenario.count_event Scenario.is_summary t.

(** the number of calls of a fixer a trace records *)
Definition fixer_calls (t : list Event) : nat :=
  Scenario.count_event (fun ev => match ev with EvFix _ => true | _ => false end) t.

(* ===================================================================== *)
(** * The vocabulary of the results, the commands and the reports *)
(* ===================================================================== *)

(** A result is bare when it carries no detail line and offers no
    correction. *)
Definition bare (r : CheckResult) : Prop :=
  can_fix r = false /\ fix_command r = "" /\ details r = [].

(** what a result returned under the name [n] looks like: it names its
    check, and when it passes it is bare *)
Definition well_formed (n : string) (r : CheckResult) : Prop :=
  name r = n /\ (passed r = true -> bare r).

(** the number of detail lines a sub-scan of the security check
    contributes when it fails *)
Definition scan_weight (r : SubScan) : nat :=
  S (length (match sub_extra r with Some extra => extra | None => [] end)).

(** the number of detail lines the failed sub-scans contribute *)
Definition total_weight (results : list SubScan) : nat :=
  list_sum (map scan_weight results).

(** the command lines of black, of the staged-files test and of the
    test of a tracked file *)
Definition black_command : list json :=
  argv ["black"; "."; "--exclude";
        "/(env|venv|__pycache__|migrations|scripts|logs)/"].

Definition git_diff : list json :=
  argv ["git"; "diff"; "--cached"; "--name-only"].

Definition ls_files (file : string) : list json :=
  argv ["git"; "ls-files"; "--error-unmatch"; file].

(** how [check_files] lists a forbidden file that git tracks *)
Definition tracked_label (file : string) : string :=
  file ++ " (suivi par git - DANGER!)".

(** the result of [check_git] when nothing is staged *)
Definition nothing_staged : CheckResult :=
  result_d "Git" false "Aucun fichier staged"
           ["Utilisez 'git add' avant de committer"].

(** the files check, with its list of forbidden files; the other checks
    are disabled *)
Definition files_only (forbidden : list string) : list (string * json) :=
  [("linter", Scenario.disabled); ("tests", Scenario.disabled);
   ("django", Scenario.disabled); ("security", Scenario.disabled);
   ("files", JObj [("enabled", JBool true);
                   ("forbidden_files", JArr (map JStr forbidden))]);
   ("git", Scenario.disabled)].

(** the command line of [check_tests] *)
Definition tests_command (test_module : json) : list json :=
  if Py.truthy test_module
  then [JStr "python"; JStr "manage.py"; JStr "test"; test_module;
        JStr "--verbosity=1"]
  else argv ["python"; "manage.py"; "test"; "--verbosity=1"].

(** a line of the test report that opens a failure *)
Definition opens_failure (line : string) : bool :=
  PyStr.startswith "FAIL:" line || PyStr.startswith "ERROR:" line.

(** [d] is a line of [lines] that opens a failure, or the line after
    one *)
Definition failure_line (lines : list string) (d : string) : Prop :=
  exists before opening after,
    lines = (before ++ opening :: after)%list
    /\ opens_failure opening = true
    /\ (d = opening \/ exists later, after = d :: later).

(** a command that starts with [words] was launched during [t] *)
Definition launched (words : list string) (t : list Event) : Prop :=
  exists command timeout,
    In (EvRun command timeout) t /\ starts_with words command = true.

(** the configuration key of a check, the check, and the first words of
    the command line of the tool it relies on *)
Definition tool_of_check (P : Platform)
  : list (string * M P CheckResult * list string) :=
  [ ("linter", check_linter P, ["flake8"; "."]);
    ("tests", check_tests P, ["python"; "manage.py"; "test"]);
    ("django", check_django P, ["python"; "manage.py"; "check"]) ].

(** The documents from which [__init__] builds a checker: no file at all
    (the built-in configuration is used), or a JSON object whose
    ["colors"] entry, if any, is an object. *)
Definition builds (doc : ConfigFile) : bool :=
  match doc with
  | NotFound => true
  | Loaded (JObj items) =>
      match Py.lookup "colors" items with
      | None | Some (JObj _) => true
      | Some _ => false
      end
  | _ => false
  end.

(** the configuration [__init__] keeps *)
Definition document (doc : ConfigFile) : json :=
  match doc with
  | Loaded v => v
  | _ => _default_config
  end.

(* ===================================================================== *)
(** * More runs of the witnesses *)
(* ===================================================================== *)

Module HookRun.

(** the commit hook calls the script with [--from-hook] on a tree with a
    style error that black repairs; the configuration file asks for an
    interactive run and somebody is at the keyboard *)
Definition args : Args := mkArgs "scripts/pre-commit-config.json" false false true None false.
Definition w : Sim.world :=
  Scenario.tree Scenario.repairable [Line "n"]
                (Loaded (Scenario.settings true false true Scenario.linter_only)).

End HookRun.

Module UnattendedRun.

(** neither interactive nor auto-fix, on a tree with a style error that
    black could repair and a missing migration that [auto_migrate] could
    create *)
Definition entries : list (string * json) :=
  [("linter", Scenario.linter_on); ("tests", Scenario.disabled);
   ("django", JObj [("enabled", JBool true); ("auto_migrate", JBool true)]);
   ("security", Scenario.disabled); ("files", Scenario.disabled);
   ("git", Scenario.disabled)].
Definition rules : list (list string * list ProcOutcome) :=
  (Scenario.repairable ++ Scenario.missing_migration)%list.
Definition s : St Sim.platform :=
  Scenario.fresh (Scenario.settings false false false entries)
                 (Scenario.tree rules [Line "o"] NotFound).

End UnattendedRun.

Module FormatRun.

(** black is installed and succeeds; isort is installed and fails *)
Definition rules : list (list string * list ProcOutcome) :=
  [ (["which"], Sim.exited 0 "/usr/bin/tool");
    (["black"], Sim.exited 0 "");
    (["isort"], Sim.exited 1 "") ].
Definition s : St Sim.platform :=
  Scenario.fresh (Scenario.settings true true true Scenario.linter_only)
                 (Scenario.tree rules [] NotFound).
Definition s1 : St Sim.platform :=
  snd (check_tool_installed Sim.platform "black" s).
Definition s2 : St Sim.platform :=
  snd (_run_command Sim.platform black_command 60 s1).

End FormatRun.

Module DefaultRun.

(** no configuration file; every tool is installed *)
Definition w : Sim.world := Scenario.tree Scenario.repairable [] NotFound.

End DefaultRun.

Module OutsideRepositoryRun.

(** the directory is not a git repository: [git diff] fails and prints
    nothing on its standard output *)
Definition rules : list (list string * list ProcOutcome) :=
  [ (["git"; "diff"], [Exited 128 "" "fatal: not a git repository"]) ].
Definition s : St Sim.platform :=
  Scenario.fresh (Scenario.settings true false false Scenario.git_only)
                 (Scenario.tree rules [] NotFound).
Definition s1 : St Sim.platform :=
  snd (_run_command Sim.platform git_diff 60 s).

End OutsideRepositoryRun.

Module TrackedRun.

(** [.env] exists and is not tracked, [db.sqlite3] exists and is
    tracked *)
Definition rules : list (list string * list ProcOutcome) :=
  [ (["git"; "ls-files"; "--error-unmatch"; ".env"], Sim.exited 1 "");
    (["git"; "ls-files"], Sim.exited 0 "db.sqlite3") ].
Definition w : Sim.world :=
  Sim.mkWorld rules [] [(".env", "KEY=1"); ("db.sqlite3", "")] [] NotFound.
Definition s : St Sim.platform :=
  Scenario.fresh (Scenario.settings true false false
                    (files_only [".env"; "db.sqlite3"])) w.
Definition s1 : St Sim.platform :=
  snd (scan_forbidden Sim.platform [JStr ".env"] [] s).
Definition s2 : St Sim.platform :=
  snd (_run_command Sim.platform (ls_files "db.sqlite3") 60 s1).

End TrackedRun.

Module IgnoreRun.

(** no forbidden file is present and [.gitignore] is complete *)
Definition w : Sim.world :=
  Sim.mkWorld [] []
    [(".gitignore",
      ".env" ++ PyStr.newline ++ "db.sqlite3" ++ PyStr.newline
      ++ "__pycache__/" ++ PyStr.newline ++ "*.pyc" ++ PyStr.newline)]
    [] NotFound.
Definition s : St Sim.platform :=
  Scenario.fresh (Scenario.settings true false false (files_only [".env"])) w.

End IgnoreRun.

Module FailingTestsRun.

Definition report : string :=
  "test_index (app.tests.ViewTests) ... ok" ++ PyStr.newline
  ++ "FAIL: test_login (app.tests.ViewTests)" ++ PyStr.newline
  ++ "AssertionError: 302 != 200" ++ PyStr.newline
  ++ "FAILED (failures=1)".

Definition entries : list (string * json) :=
  [("linter", Scenario.disabled);
   ("tests", JObj [("enabled", JBool true); ("test_module", JStr "app")]);
   ("django", Scenario.disabled); ("security", Scenario.disabled);
   ("files", Scenario.disabled); ("git", Scenario.disabled)].
Definition rules : list (list string * list ProcOutcome) :=
  [ (["python"; "manage.py"; "test"; "app"], Sim.exited 1 report) ].
Definition s : St Sim.platform :=
  Scenario.fresh (Scenario.settings true false false entries)
                 (Scenario.tree rules [] NotFound).
Definition s1 : St Sim.platform :=
  snd (_run_command Sim.platform (tests_command (JStr "app")) 120 s).

End FailingTestsRun.

Module CleanRun.

(** the security check without any tool, on a tree of one harmless
    file *)
Definition entries : list (string * json) :=
  [("linter", Scenario.disabled); ("tests", Scenario.disabled);
   ("django", Scenario.disabled);
   ("security", JObj [("enabled", JBool true); ("tools", JArr []);
                      ("check_secrets", JBool false)]);
   ("files", Scenario.disabled); ("git", Scenario.disabled)].
Definition w : Sim.world :=
  Sim.mkWorld [] [] [("app/views.py", "x = 1")] ["app/views.py"] NotFound.
Definition s : St Sim.platform :=
  Scenario.fresh (Scenario.settings true false false entries) w.

End CleanRun.

Module PassingTestsRun.

Definition rules : list (list string * list ProcOutcome) :=
  [ (["python"; "manage.py"; "test"], Sim.exited 0 "test_index ... ok") ].
Definition entries : list (string * json) :=
  [("linter", Scenario.disabled);
   ("tests", JObj [("enabled", JBool true)]);
   ("django", Scenario.disabled); ("security", Scenario.disabled);
   ("files", Scenario.disabled); ("git", Scenario.disabled)].
Definition s : St Sim.platform :=
  Scenario.fresh (Scenario.settings true false false entries)
                 (Scenario.tree rules [] NotFound).
Definition s1 : St Sim.platform := snd (check_tests Sim.platform s).

End PassingTestsRun.

(* ===================================================================== *)
(** * scripts/install-hook.py *)
(* ===================================================================== *)

(** The installer of the git hook works on the files under [.git/hooks]
    and asks one question.  It is embedded over an abstract file system,
    in a monad of state and exceptions like the one of the checker; the
    state is the tree and the record of what was done to it. *)
Module InstallHook.

(** A [pathlib.Path], by its components. *)
Definition Path : Type := list string.

(** What a call that changes the tree can do: succeed, or raise an
    [OSError]. *)
Inductive FsOutcome : Type :=
| FsDone
| FsFailed (msg : string).

(** What [Path.exists()] can do. *)
Inductive Probe : Type :=
| Present
| Absent
| ProbeFailed (msg : string).        (* an OSError it does not swallow *)

Record Files : Type := {
  Tree : Type;
  os_is_nt : bool;                                    (* os.name == 'nt' *)
  fs_exists : Path -> Tree -> Probe;
  fs_mkdir : Path -> Tree -> FsOutcome * Tree;        (* mkdir(exist_ok=True) *)
  fs_rename : Path -> Path -> Tree -> FsOutcome * Tree;
  fs_write_text : Path -> string -> Tree -> FsOutcome * Tree;
  fs_add_exec : Path -> Tree -> FsOutcome * Tree;     (* chmod(stat().st_mode | S_IX...) *)
  fs_unlink : Path -> Tree -> FsOutcome * Tree;
  fs_read_line : string -> Tree -> InputOutcome * Tree  (* input(prompt) *)
}.

(** Ghost events: the calls that change the tree, and the question with
    what came back. *)
Inductive FsEvent : Type :=
| EvMkdir (p : Path)
| EvRename (src dst : Path)
| EvWrite (p : Path) (text : string)
| EvChmod (p : Path)
| EvUnlink (p : Path)
| EvAsk (prompt : string) (answer : InputOutcome).

Record HState (T : Type) : Type := mkH {
  tree : T;
  events : list FsEvent
}.
Arguments mkH {T} tree events.
Arguments tree {T} h.
Arguments events {T} h.

(** [HOOK_CONTENT] *)
Definition HOOK_CONTENT : string :=
  let q := PyStr.dquote in
  String.concat PyStr.newline
    [ "#!/bin/bash";
      "# Hook pre-commit automatique pour Gestion CCSA";
      "# Généré automatiquement par scripts/install-hook.py";
      "";
      "echo " ++ q ++ "🔍 Exécution du vérificateur pré-commit..." ++ q;
      "echo " ++ q ++ q;
      "";
      "# Exécuter le script Python";
      "python scripts/pre_commit_check.py --from-hook";
      "";
      "# Récupérer le code de retour";
      "EXIT_CODE=$?";
      "";
      "if [ $EXIT_CODE -eq 0 ]; then";
      "    echo " ++ q ++ q;
      "    echo " ++ q ++ "✅ Vérifications passées - Commit autorisé" ++ q;
      "    exit 0";
      "else";
      "    echo " ++ q ++ q;
      "    echo " ++ q ++ "❌ Vérifications échouées - Commit bloqué" ++ q;
      "    echo " ++ q ++ q;
      "    echo " ++ q ++ "Pour bypass en cas d'urgence (déconseillé):" ++ q;
      "    echo " ++ q ++ "  git commit --no-verify" ++ q;
      "    exit 1";
      "fi";
      "" ].

Definition git_dir : Path := [".git"].
Definition hooks_dir : Path := [".git"; "hooks"].
Definition hook_path : Path := [".git"; "hooks"; "pre-commit"].
Definition backup_path : Path := [".git"; "hooks"; "pre-commit.backup"].

Definition replace_question : string := "   Le remplacer ? [o/N] : ".

(** [response in ('o', 'oui', 'y', 'yes')] *)
Definition accepted (response : string) : bool :=
  existsb (String.eqb response) ["o"; "oui"; "y"; "yes"].

(** [sys.argv[1] in ('--uninstall', '-u', 'remove', 'uninstall')] *)
Definition asks_removal (word : string) : bool :=
  existsb (String.eqb word) ["--uninstall"; "-u"; "remove"; "uninstall"].

Section Hook.

Variable F : Files.

Definition H (A : Type) : Type := HState (Tree F) -> Res A * HState (Tree F).

Definition hret {A} (a : A) : H A := fun s => (Ok a, s).

Definition hbind {A B} (m : H A) (f : A -> H B) : H B :=
  fun s => match m s with
           | (Ok a, s') => f a s'
           | (Raise e, s') => (Raise e, s')
           end.

(** [try: m  except Exception as e: ... return False] *)
Definition except_Exception (m : H bool) : H bool :=
  fun s => match m s with
           | (Ok a, s') => (Ok a, s')
           | (Raise e, s') =>
               if is_Exception e then (Ok false, s') else (Raise e, s')
           end.

(** [p.exists()] *)
Definition probe (p : Path) : H bool :=
  fun s => match fs_exists F p (tree s) with
           | Present => (Ok true, s)
           | Absent => (Ok false, s)
           | ProbeFailed msg => (Raise (FileError msg), s)
           end.

(** a call that changes the tree *)
Definition fs_call (ev : FsEvent) (op : Tree F -> FsOutcome * Tree F) : H unit :=
  fun s =>
    let (o, t) := op (tree s) in
    let s' := mkH t (events s ++ [ev]) in
    match o with
    | FsDone => (Ok tt, s')
    | FsFailed msg => (Raise (FileError msg), s')
    end.

Definition mkdir (p : Path) : H unit := fs_call (EvMkdir p) (fs_mkdir F p).
Definition rename (src dst : Path) : H unit :=
  fs_call (EvRename src dst) (fs_rename F src dst).
Definition write_text (p : Path) (text : string) : H unit :=
  fs_call (EvWrite p text) (fs_write_text F p text).
Definition add_exec (p : Path) : H unit := fs_call (EvChmod p) (fs_add_exec F p).
Definition unlink (p : Path) : H unit := fs_call (EvUnlink p) (fs_unlink F p).

(** [input(prompt)] *)
Definition ask (prompt : string) : H string :=
  fun s =>
    let (o, t) := fs_read_line F prompt (tree s) in
    let s' := mkH t (events s ++ [EvAsk prompt o]) in
    match o with
    | Line l => (Ok l, s')
    | EndOfInput => (Raise EOFError, s')
    | Interrupt => (Raise KeyboardInterrupt, s')
    end.

(** [install_hook]; [go_on] is false where the source returns [False]
    from inside the test of an existing hook. *)
Definition install_hook : H bool :=
  hbind (probe git_dir) (fun git =>
  if negb git then hret false
  else
    hbind (mkdir hooks_dir) (fun _ =>
    hbind (probe hook_path) (fun present =>
    hbind (if present then
             hbind (ask replace_question) (fun line =>
             let response := PyStr.lower (PyStr.strip line) in
             if negb (accepted response) then hret false
             else hbind (rename hook_path backup_path) (fun _ => hret true))
           else hret true) (fun go_on =>
    if negb go_on then hret false
    else
      except_Exception
        (hbind (write_text hook_path HOOK_CONTENT) (fun _ =>
         hbind (if negb (os_is_nt F) then add_exec hook_path else hret tt) (fun _ =>
         hret true))))))).

(** [uninstall_hook] *)
Definition uninstall_hook : H bool :=
  hbind (probe hook_path) (fun present =>
  if negb present then hret true
  else
    except_Exception
      (hbind (unlink hook_path) (fun _ =>
       hbind (probe backup_path) (fun backup =>
       hbind (if backup then rename backup_path hook_path else hret tt) (fun _ =>
       hret true))))).

(** [main]: the values returned by the two functions are dropped *)
Definition main (argv : list string) : H unit :=
  match argv with
  | _ :: word :: _ =>
      if asks_removal word then hbind uninstall_hook (fun _ => hret tt)
      else hbind install_hook (fun _ => hret tt)
  | _ => hbind install_hook (fun _ => hret tt)
  end.

End Hook.

Arguments hret {F A} a.
Arguments hbind {F A B} m f.

(** ** A file system to run the installer on

    Files with their text, directories and the lines waiting on the
    keyboard.  [rename] moves a file onto a free name; on a taken one it
    replaces the target, as POSIX does. *)
Module SimFs.

Record tree_ : Type := mkTree {
  dirs : list Path;
  files : list (Path * string);
  keyboard : list InputOutcome
}.

Fixpoint path_eqb (p q : Path) : bool :=
  match p, q with
  | [], [] => true
  | a :: p', b :: q' => String.eqb a b && path_eqb p' q'
  | _, _ => false
  end.

Fixpoint lookup (p : Path) (fs : list (Path * string)) : option string :=
  match fs with
  | [] => None
  | (q, text) :: r => if path_eqb p q then Some text else lookup p r
  end.

Definition remove (p : Path) (fs : list (Path * string)) : list (Path * string) :=
  filter (fun e => negb (path_eqb p (fst e))) fs.

Definition set (p : Path) (text : string) (fs : list (Path * string))
  : list (Path * string) :=
  (p, text) :: remove p fs.

Definition is_dir (p : Path) (t : tree_) : bool := existsb (path_eqb p) (dirs t).

Definition exists_ (p : Path) (t : tree_) : Probe :=
  match lookup p (files t) with
  | Some _ => Present
  | None => if is_dir p t then Present else Absent
  end.

Definition mkdir_ (p : Path) (t : tree_) : FsOutcome * tree_ :=
  match lookup p (files t) with
  | Some _ => (FsFailed "[Errno 17] File exists", t)
  | None =>
      (FsDone, if is_dir p t then t
               else mkTree (p :: dirs t) (files t) (keyboard t))
  end.

Definition rename_ (src dst : Path) (t : tree_) : FsOutcome * tree_ :=
  match lookup src (files t) with
  | Some text =>
      (FsDone, mkTree (dirs t) (set dst text (remove src (files t))) (keyboard t))
  | None => (FsFailed "[Errno 2] No such file or directory", t)
  end.

Definition write_text_ (p : Path) (text : string) (t : tree_)
  : FsOutcome * tree_ :=
  if is_dir p t then (FsFailed "[Errno 21] Is a directory", t)
  else (FsDone, mkTree (dirs t) (set p text (files t)) (keyboard t)).

Definition add_exec_ (p : Path) (t : tree_) : FsOutcome * tree_ :=
  match exists_ p t with
  | Present => (FsDone, t)
  | _ => (FsFailed "[Errno 2] No such file or directory", t)
  end.

Definition unlink_ (p : Path) (t : tree_) : FsOutcome * tree_ :=
  match lookup p (files t) with
  | Some _ => (FsDone, mkTree (dirs t) (remove p (files t)) (keyboard t))
  | None => (FsFailed "[Errno 2] No such file or directory", t)
  end.

Definition read_line_ (prompt : string) (t : tree_) : InputOutcome * tree_ :=
  match keyboard t with
  | [] => (EndOfInput, t)
  | o :: later => (o, mkTree (dirs t) (files t) later)
  end.

Definition posix : Files :=
  {| Tree := tree_;
     os_is_nt := false;
     fs_exists := exists_;
     fs_mkdir := mkdir_;
     fs_rename := rename_;
     fs_write_text := write_text_;
     fs_add_exec := add_exec_;
     fs_unlink := unlink_;
     fs_read_line := read_line_ |}.

(** a repository with an earlier hook [old], the operator typing
    [answer] *)
Definition with_hook (old answer : string) : HState tree_ :=
  mkH (mkTree [git_dir; hooks_dir] [(hook_path, old)] [Line answer]) [].

(** a repository without hook *)
Definition bare_repository : HState tree_ :=
  mkH (mkTree [git_dir] [] []) [].

(** the states after an installation in the bare repository, after an
    installation over the hook [#!/bin/sh] agreed to with "O", and after
    the removal that follows it *)
Definition installed : HState tree_ := snd (install_hook posix bare_repository).
Definition replaced : HState tree_ :=
  snd (install_hook posix (with_hook "#!/bin/sh" "O")).
Definition removed : HState tree_ := snd (uninstall_hook posix replaced).

End SimFs.

(** ** What the properties speak of *)

Definition is_write (ev : FsEvent) : bool :=
  match ev with EvWrite _ _ => true | _ => false end.

Definition is_removal (ev : FsEvent) : bool :=
  match ev with EvUnlink _ => true | _ => false end.

(** the answer to the question is one of "o", "oui", "y", "yes", up to
    case and surrounding blanks *)
Definition agreed (answer : InputOutcome) : bool :=
  match answer with
  | Line l => accepted (PyStr.lower (PyStr.strip l))
  | _ => false
  end.

(** the traces of [install_hook] that write the hook *)
Definition fresh_install (nt : bool) : list FsEvent :=
  EvMkdir hooks_dir :: EvWrite hook_path HOOK_CONTENT
  :: (if nt then [] else [EvChmod hook_path]).

Definition replacing_install (nt : bool) (answer : InputOutcome) : list FsEvent :=
  EvMkdir hooks_dir :: EvAsk replace_question answer
  :: EvRename hook_path backup_path :: EvWrite hook_path HOOK_CONTENT
  :: (if nt then [] else [EvChmod hook_path]).

End InstallHook.

(* ===================================================================== *)
(** * Reasoning about scripts *)
(* ===================================================================== *)

Section Reasoning.

Variable P : Platform.
Local Abbreviation sound := (@sound P _) (only parsing).

Lemma bind_ok {A B} (m : M P A) (f : A -> M P B) s a s' :
  m s = (Ok a, s') -> bind m f s = f a s'.
Proof. intros H. unfold bind. now rewrite H. Qed.

Lemma bind_raise {A B} (m : M P A) (f : A -> M P B) s e s' :
  m s = (Raise e, s') -> bind m f s = (Raise e, s').
Proof. intros H. unfold bind. now rewrite H. Qed.

Lemma bind_inv {A B} (m : M P A) (f : A -> M P B) s r s' :
  bind m f s = (r, s') ->
  (exists a s1, m s = (Ok a, s1) /\ f a s1 = (r, s'))
  \/ (exists e, m s = (Raise e, s') /\ r = Raise e).
Proof.
  unfold bind. destruct (m s) as [[a|e] s1]; intros H.
  - left. eauto.
  - right. inversion H; subst. eauto.
Qed.

Lemma same_policy_refl c : same_policy c c.
Proof. repeat split. Qed.

Lemma same_policy_trans c1 c2 c3 :
  same_policy c1 c2 -> same_policy c2 c3 -> same_policy c1 c3.
Proof.
  intros (H1 & H2 & H3 & H4 & H5) (K1 & K2 & K3 & K4 & K5).
  repeat split; congruence.
Qed.

Lemma sound_ret {A} (a : A) (Q : A -> Prop) : Q a -> sound (ret a) Q.
Proof.
  intros H s r s' E. inversion E; subst. split; [apply same_policy_refl | exact H].
Qed.

Lemma sound_raise {A} e (Q : A -> Prop) :
  proc_exn e = false -> sound (raise e) Q.
Proof.
  intros H s r s' E. inversion E; subst. split; [apply same_policy_refl | exact H].
Qed.

Lemma sound_bind {A B} (m : M P A) (f : A -> M P B) Q1 Q :
  sound m Q1 -> (forall a, Q1 a -> sound (f a) Q) -> sound (bind m f) Q.
Proof.
  intros Hm Hf s r s' E.
  destruct (bind_inv _ _ _ _ _ E) as [(a & s1 & E1 & E2) | (e & E1 & ->)].
  - destruct (Hm _ _ _ E1) as [I1 Qa].
    destruct (Hf a Qa _ _ _ E2) as [I2 Qr].
    split; [eapply same_policy_trans; eassumption | exact Qr].
  - exact (Hm _ _ _ E1).
Qed.

Lemma sound_bind_any {A B} (m : M P A) (f : A -> M P B) Q :
  sound m (fun _ => True) -> (forall a, sound (f a) Q) -> sound (bind m f) Q.
Proof. intros Hm Hf. eapply sound_bind; [exact Hm | intros a _; apply Hf]. Qed.

Lemma sound_weaken {A} (m : M P A) (Q Q' : A -> Prop) :
  sound m Q -> (forall a, Q a -> Q' a) -> sound m Q'.
Proof.
  intros Hm HQ s r s' E. destruct (Hm _ _ _ E) as [I R]. split; [exact I|].
  destruct r; auto.
Qed.

Lemma sound_any {A} (m : M P A) Q : sound m Q -> sound m (fun _ => True).
Proof. intros H. eapply sound_weaken; [exact H | auto]. Qed.

Lemma sound_lift {A} (r : Res A) :
  res_safe r -> sound (lift r) (fun _ => True).
Proof.
  intros H s r' s' E. inversion E; subst. split; [apply same_policy_refl|].
  destruct r'; auto.
Qed.

Lemma sound_gets {A} (f : Checker -> A) : sound (gets f) (fun _ => True).
Proof. intros s r s' E. inversion E; subst. split; [apply same_policy_refl | exact I]. Qed.

Lemma sound_observe {A} (f : World P -> A) : sound (observe f) (fun _ => True).
Proof. intros s r s' E. inversion E; subst. split; [apply same_policy_refl | exact I]. Qed.

Lemma sound_log ev : sound (log ev) (fun _ => True).
Proof. intros s r s' E. inversion E; subst. split; [apply same_policy_refl | exact I]. Qed.

Lemma sound_modify (f : Checker -> Checker) :
  (forall c, same_policy c (f c)) -> sound (modify f) (fun _ => True).
Proof. intros H s r s' E. inversion E; subst. split; [apply H | exact I]. Qed.

Lemma add_fix_policy f c : same_policy c (add_fix f c).
Proof. repeat split. Qed.

Lemma add_warning_policy w c : same_policy c (add_warning w c).
Proof. repeat split. Qed.

(** ** The pure operations raise nothing of the process runner *)

Lemma subscript_safe v k : res_safe (Py.subscript v k).
Proof.
  intros e. destruct v; simpl; try (intros H; inversion H; reflexivity).
  destruct (Py.lookup k items); intros H; inversion H; reflexivity.
Qed.

Lemma get_safe v k d : res_safe (Py.get v k d).
Proof.
  intros e. destruct v; simpl; try (intros H; inversion H; reflexivity).
  destruct (Py.lookup k items); intros H; inversion H.
Qed.

Lemma iter_safe v : res_safe (Py.iter v).
Proof. intros e. destruct v; simpl; intros H; inversion H; reflexivity. Qed.

Lemma join_safe sep v : res_safe (Py.join sep v).
Proof.
  intros e. unfold Py.join. destruct (Py.iter v); [|intros H; inversion H; reflexivity].
  destruct (Py.all_str a); intros H; inversion H; reflexivity.
Qed.

Lemma str_in_safe s v : res_safe (Py.str_in s v).
Proof. intros e. destruct v; simpl; intros H; inversion H; reflexivity. Qed.

Lemma res_bind_safe {A B} (r : Res A) (f : A -> Res B) :
  res_safe r -> (forall a, res_safe (f a)) -> res_safe (res_bind r f).
Proof.
  intros Hr Hf e. destruct r as [a|e0]; simpl; [apply Hf |].
  intros H. inversion H; subst. apply (Hr e). reflexivity.
Qed.

Lemma ok_safe {A} (a : A) : res_safe (Ok a).
Proof. intros e H. inversion H. Qed.

Lemma commit_pattern_safe v : res_safe (commit_pattern v).
Proof.
  apply res_bind_safe; [apply join_safe | intros; apply ok_safe].
Qed.

Lemma convention_warning_safe m v : res_safe (convention_warning m v).
Proof.
  apply res_bind_safe; [apply join_safe | intros; apply ok_safe].
Qed.

(** ** The process runner and the confirmer *)

Lemma run_command_spawned command args timeout s :
  Py.all_str command = Some args ->
  _run_command P command timeout s =
  let (o, w) := spawn P args timeout (world s) in
  let s' := mkSt w (self s) (trace s ++ [EvRun command timeout]) in
  match outcome_triple timeout o with
  | Some t => (Ok t, s')
  | None => (Raise KeyboardInterrupt, s')
  end.
Proof.
  intros H. unfold _run_command, try_except, subprocess_run, bind, log. simpl.
  rewrite H. simpl. destruct (spawn P args timeout (world s)) as [o w].
  destruct o; reflexivity.
Qed.

Lemma run_command_refused command timeout s :
  Py.all_str command = None ->
  exists msg,
    _run_command P command timeout s =
    (Ok (-1, "", msg), mkSt (world s) (self s) (trace s ++ [EvRun command timeout])).
Proof.
  intros H. unfold _run_command, try_except, subprocess_run, bind, log. simpl.
  rewrite H. simpl. eexists. reflexivity.
Qed.

Lemma run_command_sound command timeout :
  sound (_run_command P command timeout) (fun _ => True).
Proof.
  intros s r s' E. destruct (Py.all_str command) as [args|] eqn:H.
  - rewrite (run_command_spawned _ _ _ _ H) in E.
    destruct (spawn P args timeout (world s)) as [o w].
    destruct (outcome_triple timeout o); inversion E; subst; simpl;
      (split; [apply same_policy_refl | auto]).
  - destruct (run_command_refused _ timeout s H) as [msg E'].
    rewrite E' in E. inversion E; subst. simpl.
    split; [apply same_policy_refl | auto].
Qed.

Lemma input_sound prompt : sound (input P prompt) (fun _ => True).
Proof.
  intros s r s' E. unfold input, bind, log in E. simpl in E.
  destruct (read_line P prompt (world s)) as [o w].
  destruct o; inversion E; subst; simpl; (split; [apply same_policy_refl | auto]).
Qed.

Lemma sound_try_except {A} (m : M P A) h (Q : A -> Prop) :
  sound m Q ->
  (forall e k, h e = Some k -> sound k Q) ->
  sound (try_except m h) Q.
Proof.
  intros Hm Hh s r s' E. unfold try_except in E.
  destruct (m s) as [[a|e] s1] eqn:Em.
  - inversion E; subst. exact (Hm _ _ _ Em).
  - destruct (Hm _ _ _ Em) as [I1 R1].
    destruct (h e) as [k|] eqn:Eh.
    + destruct (Hh _ _ Eh _ _ _ E) as [I2 R].
      split; [eapply same_policy_trans; eassumption | exact R].
    + inversion E; subst. split; [exact I1 | exact R1].
Qed.

End Reasoning.


Create HintDb sound.
#[export] Hint Resolve sound_gets sound_observe sound_log run_command_sound
  input_sound subscript_safe get_safe iter_safe join_safe str_in_safe
  commit_pattern_safe convention_warning_safe add_fix_policy
  add_warning_policy : sound.

(** One step through a script, for goals of the form [sound m Q]. *)
Ltac sound_leaf :=
  simpl; try exact I; try reflexivity; try tauto;
  try (intros; discriminate); auto.

Ltac sound_step :=
  cbv beta zeta;
  lazymatch goal with
  | |- sound (bind _ _) _ => apply sound_bind_any; [ | intro ]
  | |- sound (ret _) _ => apply sound_ret; sound_leaf
  | |- sound (raise _) _ => apply sound_raise; reflexivity
  | |- sound (lift _) _ => apply sound_lift; auto with sound
  | |- sound (modify _) _ => apply sound_modify; auto with sound
  | |- sound (if ?b then _ else _) _ => destruct b
  | |- sound (match ?x with _ => _ end) _ => destruct x
  | |- sound _ _ => solve [auto with sound]
  end.

Ltac sound_script := repeat sound_step.

(* ===================================================================== *)
(** * What every method of the checker guarantees *)
(* ===================================================================== *)

Section Methods.

Variable P : Platform.

Lemma confirm_sound message : sound (_confirm P message) (fun _ => True).
Proof.
  unfold _confirm. apply sound_bind_any; [sound_script | intro i].
  destruct (negb (Py.truthy i)).
  - sound_script.
  - apply sound_try_except.
    + sound_script.
    + intros e k H. destruct e; inversion H; subst; sound_script.
Qed.

Hint Resolve confirm_sound : sound.

Lemma check_tool_installed_sound tool :
  sound (check_tool_installed P tool) (fun _ => True).
Proof. unfold check_tool_installed. sound_script. Qed.

Hint Resolve check_tool_installed_sound : sound.

Lemma install_tool_sound tool : sound (install_tool P tool) (fun _ => True).
Proof. unfold install_tool. sound_script. Qed.

Hint Resolve install_tool_sound : sound.

Lemma checks_entry_sound key : sound (checks_entry P key) (fun _ => True).
Proof. unfold checks_entry. sound_script. Qed.

Hint Resolve checks_entry_sound : sound.

Lemma entry_field_sound key field : sound (entry_field P key field) (fun _ => True).
Proof. unfold entry_field. sound_script. Qed.

Lemma entry_get_sound key field d : sound (entry_get P key field d) (fun _ => True).
Proof. unfold entry_get. sound_script. Qed.

Hint Resolve entry_field_sound entry_get_sound : sound.

(** The linter check names itself "Linter". *)
Lemma check_linter_sound :
  sound (check_linter P) (fun r => name r = "Linter").
Proof. unfold check_linter. sound_script. Qed.

Lemma fix_linter_sound : sound (fix_linter P) (fun _ => True).
Proof. unfold fix_linter. sound_script. Qed.

(** The tests check never claims to be fixable. *)
Lemma check_tests_sound :
  sound (check_tests P) (fun r => can_fix r = false).
Proof. unfold check_tests. sound_script. Qed.

(** The only fixable result of the Django check is the failure on
    missing migrations. *)
Lemma check_django_sound :
  sound (check_django P)
        (fun r => can_fix r = true ->
                  passed r = false /\ message r = "Migrations manquantes").
Proof.
  unfold check_django.
  apply sound_bind_any; [sound_script | intro enabled].
  destruct (negb (Py.truthy enabled)); [sound_script |].
  apply sound_bind_any; [sound_script | intros [[returncode stdout] stderr]].
  destruct (negb (returncode =? 0)); [sound_script |].
  apply sound_bind_any; [sound_script | intro check_deploy].
  apply sound_bind with (Q1 := fun d => forall c, d = Some c -> can_fix c = false).
  - sound_script; intros c H; inversion H; reflexivity.
  - intros [failure|] Hd.
    + apply sound_ret. rewrite (Hd failure eq_refl). discriminate.
    + sound_script.
Qed.

Lemma check_dangerous_patterns_sound :
  sound (_check_dangerous_patterns P) (fun _ => True).
Proof. unfold _check_dangerous_patterns. sound_script. Qed.

Hint Resolve check_dangerous_patterns_sound : sound.

Lemma check_security_sound :
  sound (check_security P) (fun r => can_fix r = false).
Proof. unfold check_security. sound_script. Qed.

Lemma scan_forbidden_sound files found :
  sound (scan_forbidden P files found) (fun _ => True).
Proof.
  revert found. induction files as [|v rest IH]; intros found; simpl.
  - sound_script.
  - destruct v; try (apply sound_raise; reflexivity).
    sound_script; apply IH.
Qed.

Hint Resolve scan_forbidden_sound : sound.

Lemma check_files_sound :
  sound (check_files P) (fun r => can_fix r = false).
Proof. unfold check_files. sound_script. Qed.

Lemma check_convention_sound : sound (check_convention P) (fun _ => True).
Proof. unfold check_convention. sound_script. Qed.

Hint Resolve check_convention_sound : sound.

Lemma staged_files_present_sound :
  sound (staged_files_present P) (fun _ => True).
Proof. unfold staged_files_present. sound_script. Qed.

Hint Resolve staged_files_present_sound : sound.

Lemma check_git_sound :
  sound (check_git P) (fun r => can_fix r = false).
Proof. unfold check_git. sound_script. Qed.

End Methods.

(* ===================================================================== *)
(** * The orchestrator, turn by turn *)
(* ===================================================================== *)

Section Orchestrator.

Variable P : Platform.

(** ** One turn of the loop *)

Lemma attempt_passed n chk fx s r s1 :
  chk (logged (EvCheck n) s) = (Ok r, s1) -> passed r = true ->
  attempt P (n, chk, fx) s = (Ok Continue, s1).
Proof.
  intros E Hp. unfold attempt, bind, log; simpl. fold (logged (EvCheck n) s).
  rewrite E, Hp. reflexivity.
Qed.

Lemma attempt_raised n chk fx s e s1 :
  chk (logged (EvCheck n) s) = (Raise e, s1) ->
  attempt P (n, chk, fx) s = (Raise e, s1).
Proof.
  intros E. unfold attempt, bind, log; simpl. fold (logged (EvCheck n) s).
  rewrite E. reflexivity.
Qed.

Lemma attempt_no_fixer n chk s r s1 :
  chk (logged (EvCheck n) s) = (Ok r, s1) -> passed r = false ->
  attempt P (n, chk, None) s = (Ok (Failed (message r)), s1).
Proof.
  intros E Hp. unfold attempt, bind, log, gets; simpl. fold (logged (EvCheck n) s).
  rewrite E, Hp. reflexivity.
Qed.

Lemma attempt_not_offered n chk fx s r s1 :
  chk (logged (EvCheck n) s) = (Ok r, s1) -> passed r = false ->
  can_fix r && Py.truthy (auto_fix (self s1)) = false ->
  attempt P (n, chk, fx) s = (Ok (Failed (message r)), s1).
Proof.
  intros E Hp Hc. destruct fx as [f|]; [|eapply attempt_no_fixer; eassumption].
  unfold attempt, bind, log, gets; simpl. fold (logged (EvCheck n) s).
  rewrite E, Hp. simpl. rewrite Hc. reflexivity.
Qed.

(** the part of a turn that follows a failed, fixable evaluation when
    auto-fix is on *)
Lemma attempt_offered n chk f s r s1 :
  chk (logged (EvCheck n) s) = (Ok r, s1) -> passed r = false ->
  can_fix r = true -> Py.truthy (auto_fix (self s1)) = true ->
  attempt P (n, chk, Some f) s =
  match _confirm P confirm_fix s1 with
  | (Ok true, s2) =>
      match f (logged (EvFix n) s2) with
      | (Ok true, s3) =>
          match chk (logged (EvCheck n) s3) with
          | (Ok r2, s4) =>
              if passed r2 then (Ok Continue, with_fix n s4)
              else (Ok (Failed (message r2)), s4)
          | (Raise e, s4) => (Raise e, s4)
          end
      | (Ok false, s3) => (Ok (Failed (message r)), s3)
      | (Raise e, s3) => (Raise e, s3)
      end
  | (Ok false, s2) => (Ok (Failed (message r)), s2)
  | (Raise e, s2) => (Raise e, s2)
  end.
Proof.
  intros E Hp Hc Ha. unfold attempt, bind, log, gets; simpl.
  fold (logged (EvCheck n) s). rewrite E, Hp. simpl. rewrite Hc, Ha. simpl.
  fold confirm_fix.
  destruct (_confirm P confirm_fix s1) as [[[|]|e] s2]; try reflexivity.
  fold (logged (EvFix n) s2).
  destruct (f (logged (EvFix n) s2)) as [[[|]|e] s3]; try reflexivity.
  fold (logged (EvCheck n) s3).
  destruct (chk (logged (EvCheck n) s3)) as [[r2|e] s4]; try reflexivity.
  unfold modify, ret, with_fix. destruct (passed r2); reflexivity.
Qed.

(** ** The confirmer always answers *)

Lemma confirm_batch message s :
  Py.truthy (interactive (self s)) = false ->
  _confirm P message s = (Ok (Py.truthy (auto_fix (self s))), s).
Proof.
  intros H. unfold _confirm, bind, gets, ret. simpl. rewrite H. reflexivity.
Qed.

Lemma confirm_interactive message s :
  Py.truthy (interactive (self s)) = true ->
  _confirm P message s =
  let (o, w) := read_line P (message ++ " [O/n] : ") (world s) in
  (Ok (answer o),
   mkSt w (self s) (trace s ++ [EvPrompt (message ++ " [O/n] : ")])).
Proof.
  intros H. unfold _confirm, input. unfold bind, gets, ret, try_except, log.
  simpl. rewrite H. simpl.
  destruct (read_line P (message ++ " [O/n] : ") (world s)) as [o w].
  destruct o; reflexivity.
Qed.

Lemma confirm_total message s :
  exists ok s', _confirm P message s = (Ok ok, s').
Proof.
  destruct (Py.truthy (interactive (self s))) eqn:H.
  - rewrite (confirm_interactive _ _ H).
    destruct (read_line P (message ++ " [O/n] : ") (world s)). eauto.
  - rewrite (confirm_batch _ _ H). eauto.
Qed.

(** ** Entries that respect the policy *)

Lemma attempt_sound entry :
  entry_sound entry -> sound (attempt P entry) (fun _ => True).
Proof.
  destruct entry as [[n chk] fx]. intros [Hc Hf]. simpl in *.
  unfold attempt.
  apply sound_bind_any; [sound_script | intros _].
  apply sound_bind_any; [exact Hc | intro r].
  destruct (passed r); [sound_script |].
  apply sound_bind_any; [sound_script | intro autofix].
  destruct fx as [f|]; [| sound_script].
  specialize (Hf f eq_refl).
  destruct (can_fix r && Py.truthy autofix); [| sound_script].
  apply sound_bind_any; [apply confirm_sound | intros [|]]; [| sound_script].
  apply sound_bind_any; [sound_script | intros _].
  apply sound_bind_any; [exact Hf | intros [|]]; [| sound_script].
  apply sound_bind_any; [sound_script | intros _].
  apply sound_bind_any; [exact Hc | intro r2].
  sound_script.
Qed.

Lemma checks_sound : Forall entry_sound (checks P).
Proof.
  unfold checks. repeat apply Forall_cons; try apply Forall_nil;
    (split; simpl; [| intros f H; inversion H; subst]).
  - exact (sound_any _ _ _ (check_linter_sound P)).
  - apply fix_linter_sound.
  - exact (sound_any _ _ _ (check_tests_sound P)).
  - exact (sound_any _ _ _ (check_django_sound P)).
  - exact (sound_any _ _ _ (check_security_sound P)).
  - exact (sound_any _ _ _ (check_files_sound P)).
  - exact (sound_any _ _ _ (check_git_sound P)).
Qed.

(** ** No exception of the process runner leaves the loop *)

Lemma run_checks_safe remaining :
  Forall entry_sound remaining ->
  forall all_passed s e s',
    run_checks P remaining all_passed s = (Raise e, s') -> proc_exn e = false.
Proof.
  induction 1 as [|entry rest He Hrest IH]; intros ap s e s' E; simpl in E.
  - unfold bind, _print_summary, log, ret in E. inversion E.
  - destruct (bind_inv _ _ _ _ _ _ E) as [(v & s1 & E1 & E2) | (e' & E1 & Er)].
    + destruct v as [|msg]; [eapply IH; exact E2 |].
      unfold bind, gets in E2. simpl in E2.
      destruct (Py.truthy (strict_mode (self s1))).
      * inversion E2.
      * eapply IH. exact E2.
    + inversion Er; subst.
      exact (proj2 (attempt_sound entry He _ _ _ E1)).
Qed.

(** ** The run as a sequence of turns *)

Lemma run_checks_of_Run remaining all_passed s turns fin s' :
  Run remaining all_passed s turns fin s' ->
  run_checks P remaining all_passed s = (Ok (verdict fin), s').
Proof.
  induction 1; simpl.
  - reflexivity.
  - rewrite (bind_ok _ _ _ _ _ _ H). exact IHRun.
  - rewrite (bind_ok _ _ _ _ _ _ H). unfold bind, gets. simpl. rewrite H0.
    reflexivity.
  - rewrite (bind_ok _ _ _ _ _ _ H). unfold bind at 1, gets. simpl. rewrite H0.
    exact IHRun.
Qed.

Lemma Run_of_run_checks remaining :
  forall all_passed s b s',
    run_checks P remaining all_passed s = (Ok b, s') ->
    exists turns fin, Run remaining all_passed s turns fin s' /\ verdict fin = b.
Proof.
  induction remaining as [|entry rest IH]; intros ap s b s' E; simpl in E.
  - inversion E; subst. exists [], (Completed b). split; [constructor | reflexivity].
  - destruct (bind_inv _ _ _ _ _ _ E) as [(v & s1 & E1 & E2) | (e' & _ & Er)];
      [| discriminate].
    destruct v as [|msg].
    + destruct (IH _ _ _ _ E2) as (turns & fin & HR & Hv).
      exists ((entry_name entry, Continue) :: turns), fin.
      split; [econstructor; eassumption | exact Hv].
    + unfold bind at 1, gets in E2. simpl in E2.
      destruct (Py.truthy (strict_mode (self s1))) eqn:Hs.
      * inversion E2; subst.
        exists [(entry_name entry, Failed msg)], (Aborted (entry_name entry)).
        split; [eapply Run_abort; eassumption | reflexivity].
      * destruct (IH _ _ _ _ E2) as (turns & fin & HR & Hv).
        exists ((entry_name entry, Failed msg) :: turns), fin.
        split; [eapply Run_collect; eassumption | exact Hv].
Qed.

End Orchestrator.


(* ===================================================================== *)
(** * Properties: configuration *)
(* ===================================================================== *)

Section Configuration.

Variable P : Platform.

Lemma checks_entry_pure key (s : St P) :
  checks_entry P key s = (cfg_entry (config (self s)) key, s).
Proof.
  unfold checks_entry, cfg_entry, bind, gets, lift, res_bind.
  destruct (Py.subscript (config (self s)) "checks"); reflexivity.
Qed.

Lemma entry_field_pure key field (s : St P) :
  entry_field P key field s = (cfg_field (config (self s)) key field, s).
Proof.
  unfold entry_field, cfg_field, bind. rewrite checks_entry_pure.
  unfold lift, res_bind. destruct (cfg_entry (config (self s)) key); reflexivity.
Qed.

Lemma entry_get_pure key field d (s : St P) :
  entry_get P key field d s = (cfg_get (config (self s)) key field d, s).
Proof.
  unfold entry_get, cfg_get, bind. rewrite checks_entry_pure.
  unfold lift, res_bind. destruct (cfg_entry (config (self s)) key); reflexivity.
Qed.

(** a check starts by reading its [enabled] flag *)
Lemma check_reads_enabled key entry :
  In (key, entry) (combine config_keys (checks P)) ->
  exists k, snd (fst entry) = bind (entry_field P key "enabled") k
            /\ forall v, Py.truthy v = false ->
                 exists r, k v = ret r /\ passed r = true
                           /\ name r = entry_name entry.
Proof.
  simpl. intros H.
  repeat (destruct H as [H|H]; [inversion H; subst; clear H|]);
    try contradiction; simpl;
    (eexists; split; [reflexivity|]; intros v Hv; simpl; rewrite Hv; simpl;
     eexists; split; [reflexivity | split; reflexivity]).
Qed.

End Configuration.

(** C10.  A check whose configuration entry sets [enabled] to false (or to
    any value Python takes for false) returns a result with [passed = True]
    under its own name, without touching the state: nothing is spawned,
    nothing is asked, nothing is recorded.  The turn of the orchestrator
    for it goes on to the next check, so it causes neither a failure, nor
    an abort, nor an entry of [errors]. *)
Theorem disabled_check_passes (P : Platform) key entry (s : St P) v :
  In (key, entry) (combine config_keys (checks P)) ->
  cfg_field (config (self s)) key "enabled" = Ok v ->
  Py.truthy v = false ->
  exists r,
    snd (fst entry) s = (Ok r, s) /\
    passed r = true /\ name r = entry_name entry /\
    attempt P entry s = (Ok Continue, logged (EvCheck (entry_name entry)) s).
Proof.
  intros Hin Hcfg Hv.
  destruct (check_reads_enabled P key entry Hin) as (k & Hk & Hdis).
  destruct (Hdis v Hv) as (r & Hr & Hp & Hn).
  assert (E : forall s0 : St P, config (self s0) = config (self s) ->
                                snd (fst entry) s0 = (Ok r, s0)).
  { intros s0 Hc. rewrite Hk. unfold bind. rewrite entry_field_pure, Hc, Hcfg, Hr.
    reflexivity. }
  exists r. repeat split; auto.
  destruct entry as [[n chk] fx]. simpl in *.
  apply attempt_passed with (r := r); [apply E; reflexivity | exact Hp].
Qed.

(** Witness for C10: the tests check of a configuration that disables
    every check but the linter. *)
Lemma disabled_check_passes_witness :
  exists r, check_tests Sim.platform DisabledRun.s = (Ok r, DisabledRun.s)
            /\ passed r = true /\ name r = "Tests"
            /\ attempt Sim.platform ("Tests", check_tests Sim.platform, None)
                       DisabledRun.s
               = (Ok Continue, logged (EvCheck "Tests") DisabledRun.s).
Proof.
  apply (disabled_check_passes Sim.platform "tests"
           ("Tests", check_tests Sim.platform, None) DisabledRun.s (JBool false)).
  - simpl. right. left. reflexivity.
  - reflexivity.
  - reflexivity.
Defined.

(** C6 (as stated) fails: a configuration file that is present and merely
    omits the entry of the linter makes [check_linter] raise
    [KeyError('linter')] instead of falling back to a default, and [main]
    ends with exit status 1. *)
Lemma omitted_entry_is_not_defaulted :
  init Sim.platform "scripts/pre-commit-config.json" OmittedRun.w
    = Ok (mkChecker OmittedRun.cfg (JBool true) [] [] []
                    (JBool true) (JBool true) (JBool true))
  /\ fst (check_linter Sim.platform (Scenario.fresh OmittedRun.cfg OmittedRun.w))
     = Raise (KeyError "linter")
  /\ fst (main Sim.platform default_args OmittedRun.w) = 1.
Proof. repeat split. Qed.

(** C6 (amended).  A missing configuration file yields the built-in
    defaults: every check enabled, strict mode on.  A configuration file
    that is present is used as it is: when its [checks] map omits the
    entry of a check, evaluating that check raises [KeyError] for the
    missing key and leaves the state untouched. *)
Theorem defaults_only_for_a_missing_file (P : Platform) :
  (forall path w,
      load_json P path w = NotFound ->
      exists c, init P path w = Ok c
                /\ config c = _default_config
                /\ Py.truthy (strict_mode c) = true
                /\ forall key, In key config_keys ->
                     cfg_field (config c) key "enabled" = Ok (JBool true))
  /\
  (forall key entry (s : St P) m,
      In (key, entry) (combine config_keys (checks P)) ->
      Py.subscript (config (self s)) "checks" = Ok (JObj m) ->
      Py.lookup key m = None ->
      snd (fst entry) s = (Raise (KeyError key), s)).
Proof.
  split.
  - intros path w H. eexists. unfold init, _load_config. rewrite H. simpl.
    split; [reflexivity|]. split; [reflexivity|]. split; [reflexivity|].
    intros key Hk. simpl in Hk.
    repeat (destruct Hk as [<-|Hk]; [reflexivity|]). contradiction.
  - intros key entry s m Hin Hc Hm.
    destruct (check_reads_enabled P key entry Hin) as (k & Hk & _).
    rewrite Hk. unfold bind. rewrite entry_field_pure.
    unfold cfg_field, cfg_entry. rewrite Hc. simpl. rewrite Hm. reflexivity.
Qed.

(** Witness for C6 (amended): no configuration file, and a configuration
    file without the entry of the security check. *)
Lemma defaults_only_for_a_missing_file_witness :
  (exists c, init Sim.platform "scripts/pre-commit-config.json"
                  (Scenario.tree [] [] NotFound) = Ok c
             /\ config c = _default_config)
  /\ check_security Sim.platform OmittedRun.linter_alone
     = (Raise (KeyError "security"), OmittedRun.linter_alone).
Proof.
  destruct (defaults_only_for_a_missing_file Sim.platform) as [Hmissing Homitted].
  split.
  - destruct (Hmissing "scripts/pre-commit-config.json"
                       (Scenario.tree [] [] NotFound) eq_refl)
      as (c & Hc & Hd & _).
    exists c. split; assumption.
  - apply (Homitted "security"
                    ("Sécurité", check_security Sim.platform, None)
                    _ [("linter", Scenario.linter_on)]).
    + simpl. do 3 right. left. reflexivity.
    + reflexivity.
    + reflexivity.
Defined.

(* ===================================================================== *)
(** * Properties: fixable results and fixers *)
(* ===================================================================== *)

(** C1 (as stated) fails: on a tree with a missing migration the Django
    check returns [can_fix = True], and the table of [run_all_checks] has
    no fixer for it. *)
Lemma django_is_fixable_without_fixer : ~ fixable_has_fixer Sim.platform.
Proof.
  intros H.
  pose (s := Scenario.fresh (Scenario.settings true true true django_only)
                            (Scenario.tree Scenario.missing_migration [] NotFound)).
  apply (H "Django" (check_django Sim.platform) None s migrations_missing
           (snd (check_django Sim.platform s))).
  - simpl. do 2 right. left. reflexivity.
  - reflexivity.
  - reflexivity.
  - reflexivity.
Qed.

(** C1 (amended).  A result with [can_fix = True] comes from the linter,
    for which the table holds the fixer [fix_linter], or is the
    "Migrations manquantes" failure of the Django check, for which the
    table holds no fixer; in the latter case the orchestrator attempts no
    correction and the check stays failed. *)
Theorem fixable_results (P : Platform) n chk fx (s : St P) r s' :
  In (n, chk, fx) (checks P) ->
  chk s = (Ok r, s') ->
  can_fix r = true ->
  (n = "Linter" /\ fx = Some (fix_linter P))
  \/ (n = "Django" /\ fx = None /\ passed r = false
      /\ message r = "Migrations manquantes"
      /\ forall s0, s = logged (EvCheck n) s0 ->
           attempt P (n, chk, fx) s0 = (Ok (Failed "Migrations manquantes"), s')).
Proof.
  intros Hin E Hc. simpl in Hin.
  destruct Hin as [H|[H|[H|[H|[H|[H|[]]]]]]]; inversion H; subst; clear H.
  - left. split; reflexivity.
  - destruct (check_tests_sound P _ _ _ E) as [_ Q]. simpl in Q. congruence.
  - destruct (check_django_sound P _ _ _ E) as [_ Q]. simpl in Q.
    destruct (Q Hc) as [Hp Hm].
    right. repeat split; auto.
    intros s0 ->. rewrite <- Hm. apply attempt_no_fixer; assumption.
  - destruct (check_security_sound P _ _ _ E) as [_ Q]. simpl in Q. congruence.
  - destruct (check_files_sound P _ _ _ E) as [_ Q]. simpl in Q. congruence.
  - destruct (check_git_sound P _ _ _ E) as [_ Q]. simpl in Q. congruence.
Qed.

(** Witness for C1 (amended): the Django check on a tree with a missing
    migration. *)
Lemma fixable_results_witness :
  check_django Sim.platform (logged (EvCheck "Django") MigrationRun.s0)
  = (Ok migrations_missing, MigrationRun.s')
  /\ attempt Sim.platform ("Django", check_django Sim.platform, None) MigrationRun.s0
     = (Ok (Failed "Migrations manquantes"), MigrationRun.s').
Proof.
  split; [reflexivity|].
  destruct (fixable_results Sim.platform "Django" (check_django Sim.platform) None
                            (logged (EvCheck "Django") MigrationRun.s0)
                            migrations_missing MigrationRun.s')
    as [[H _] | (_ & _ & _ & _ & H)].
  - simpl. do 2 right. left. reflexivity.
  - reflexivity.
  - reflexivity.
  - discriminate H.
  - apply H. reflexivity.
Defined.

(* ===================================================================== *)
(** * Properties: the strict-mode policy *)
(* ===================================================================== *)

(** C2.  In strict mode (the flag is read when the failure is handled;
    no check of the table changes it), when the checks before check [i]
    pass (or are repaired) and check [i] stays failed, the run consists of
    the turns of these checks only: it ends in [Aborted] naming check
    [i], in the state reached at the end of the turn of check [i] (plus
    the summary), whatever the checks after [i] are; the verdict is
    failure and the exit status is 1. *)
Theorem strict_mode_stops_at_first_failure
        (P : Platform) before entry after all_passed (s s1 s2 : St P) msg :
  Passes before s s1 ->
  attempt P entry s1 = (Ok (Failed msg), s2) ->
  Py.truthy (strict_mode (self s2)) = true ->
  Run (before ++ entry :: after) all_passed s
      (map (fun e => passed_turn (entry_name e)) before
       ++ [(entry_name entry, Failed msg)])%list
      (Aborted (entry_name entry)) (summarised false s2)
  /\ run_checks P (before ++ entry :: after) all_passed s
     = (Ok false, summarised false s2)
  /\ exit_status (fst (run_checks P (before ++ entry :: after) all_passed s)) = 1.
Proof.
  intros Hb Ha Hs.
  assert (R : Run (before ++ entry :: after) all_passed s
                  (map (fun e => passed_turn (entry_name e)) before
                   ++ [(entry_name entry, Failed msg)])%list
                  (Aborted (entry_name entry)) (summarised false s2)).
  { induction Hb as [s|e rest s s1' s1 He Hrest IH]; simpl.
    - eapply Run_abort; eassumption.
    - eapply Run_continue; [exact He | apply IH; assumption]. }
  split; [exact R|].
  rewrite (run_checks_of_Run _ _ _ _ _ _ _ R). split; reflexivity.
Qed.

(** Witness for C2: the linter and the tests are disabled, a migration is
    missing; the run stops at the Django check. *)
Lemma strict_mode_stops_at_first_failure_witness :
  run_all_checks Sim.platform StrictRun.s = (Ok false, summarised false StrictRun.s2)
  /\ evaluations "Sécurité" (trace (summarised false StrictRun.s2)) = 0%nat
  /\ evaluations "Fichiers" (trace (summarised false StrictRun.s2)) = 0%nat
  /\ evaluations "Git" (trace (summarised false StrictRun.s2)) = 0%nat.
Proof.
  split; [| repeat split; vm_compute; reflexivity].
  apply (strict_mode_stops_at_first_failure Sim.platform
           [("Linter", check_linter Sim.platform, Some (fix_linter Sim.platform));
            ("Tests", check_tests Sim.platform, None)]
           ("Django", check_django Sim.platform, None)
           [("Sécurité", check_security Sim.platform, None);
            ("Fichiers", check_files Sim.platform, None);
            ("Git", check_git Sim.platform, None)]
           true StrictRun.s StrictRun.s1 StrictRun.s2 "Migrations manquantes").
  - eapply Passes_cons; [reflexivity|].
    eapply Passes_cons; [reflexivity|]. apply Passes_nil.
  - reflexivity.
  - reflexivity.
Defined.

(* ===================================================================== *)
(** * Properties: the collecting policy *)
(* ===================================================================== *)

Lemma error_lines_length turns :
  length (error_lines turns) = length (filter is_failed turns).
Proof.
  induction turns as [|[n [|msg]] rest IH]; simpl; auto.
Qed.

Lemma collecting_run (P : Platform) remaining :
  Forall entry_sound remaining ->
  forall all_passed (s : St P) b s',
    Py.truthy (strict_mode (self s)) = false ->
    run_checks P remaining all_passed s = (Ok b, s') ->
    exists turns,
      Run remaining all_passed s turns (Completed b) s'
      /\ map fst turns = map entry_name remaining
      /\ errors (self s') = (errors (self s) ++ error_lines turns)%list
      /\ b = all_passed && forallb (fun t => negb (is_failed t)) turns.
Proof.
  induction 1 as [|entry rest He Hrest IH]; intros ap s b s' Hs E.
  - simpl in E. inversion E; subst. exists []. simpl.
    rewrite app_nil_r, andb_true_r. repeat split. constructor.
  - simpl in E.
    destruct (bind_inv _ _ _ _ _ _ E) as [(v & s1 & E1 & E2) | (e' & _ & Er)];
      [| discriminate].
    destruct (attempt_sound P entry He _ _ _ E1) as [(_ & Herr & Hstrict & _) _].
    destruct v as [|msg].
    + destruct (IH ap s1 b s') as (turns & HR & Hn & Hl & Hb); auto.
      { rewrite Hstrict. exact Hs. }
      exists ((entry_name entry, Continue) :: turns). simpl.
      split; [econstructor; eassumption|].
      split; [f_equal; exact Hn|].
      split; [rewrite Hl, Herr; reflexivity | exact Hb].
    + unfold bind at 1, gets in E2. simpl in E2.
      assert (Hs1 : Py.truthy (strict_mode (self s1)) = false)
        by (rewrite Hstrict; exact Hs).
      rewrite Hs1 in E2.
      destruct (IH false (with_error (error_line (entry_name entry) msg) s1) b s')
        as (turns & HR & Hn & Hl & Hb); auto.
      exists ((entry_name entry, Failed msg) :: turns). simpl.
      split; [eapply Run_collect; eassumption|].
      split; [f_equal; exact Hn|].
      split.
      * rewrite Hl. simpl. rewrite Herr, <- app_assoc. reflexivity.
      * rewrite Hb. simpl. now rewrite andb_false_r.
Qed.

(** C4.  With strict mode off, a run that returns goes through the whole
    list of checks; each check that stays failed adds exactly one line to
    [errors] (so [errors] has as many lines as there are failed turns:
    two for two failing checks), and the verdict is success exactly when
    [errors] is empty.  The checks are any that leave the policy fields of
    the checker alone, as the six of the table do. *)
Theorem non_strict_collects_every_failure
        (P : Platform) remaining (s : St P) b s' :
  Forall entry_sound remaining ->
  Py.truthy (strict_mode (self s)) = false ->
  errors (self s) = [] ->
  run_checks P remaining true s = (Ok b, s') ->
  exists turns,
    Run remaining true s turns (Completed b) s'
    /\ map fst turns = map entry_name remaining
    /\ errors (self s') = error_lines turns
    /\ length (errors (self s')) = length (filter is_failed turns)
    /\ (b = true <-> errors (self s') = []).
Proof.
  intros Hsound Hs He E.
  destruct (collecting_run P remaining Hsound true s b s' Hs E)
    as (turns & HR & Hn & Hl & Hb).
  rewrite He in Hl. simpl in Hl, Hb.
  exists turns. repeat split; auto.
  - rewrite Hl. apply error_lines_length.
  - intros ->. rewrite Hl. symmetry in Hb.
    clear - Hb. induction turns as [|[n [|msg]] rest IH]; simpl in *; auto.
    discriminate.
  - intros H0. rewrite Hb. rewrite Hl in H0.
    clear - H0. induction turns as [|[n [|msg]] rest IH]; simpl in *; auto.
    discriminate.
Qed.

(** Witness for C4: with strict mode off, a missing migration and nothing
    staged, the Django check and the git check fail and the four others
    are disabled. *)
Lemma non_strict_collects_every_failure_witness :
  errors (self (snd (run_all_checks Sim.platform (two_failures false))))
    = ["Django: Migrations manquantes"; "Git: Aucun fichier staged"]
  /\ exists turns,
       Run (checks Sim.platform) true (two_failures false) turns (Completed false)
           (snd (run_all_checks Sim.platform (two_failures false)))
       /\ map fst turns = map entry_name (checks Sim.platform)
       /\ errors (self (snd (run_all_checks Sim.platform (two_failures false))))
          = error_lines turns
       /\ length (errors (self (snd (run_all_checks Sim.platform (two_failures false)))))
          = length (filter is_failed turns)
       /\ (false = true
           <-> errors (self (snd (run_all_checks Sim.platform (two_failures false))))
               = []).
Proof.
  split; [reflexivity|].
  apply (non_strict_collects_every_failure Sim.platform (checks Sim.platform)
           (two_failures false) false
           (snd (run_all_checks Sim.platform (two_failures false)))).
  - apply checks_sound.
  - reflexivity.
  - reflexivity.
  - reflexivity.
Defined.

(* ===================================================================== *)
(** * Properties: correction and confirmation *)
(* ===================================================================== *)

(** C3 (as stated) fails twice.  (1) With auto-fix on and the correction
    confirmed, the fixer runs but reports failure (black fails, isort is
    absent): the linter is evaluated once, not re-evaluated.  (2) With
    auto-fix off, an interactive run whose Django check is configured with
    [auto_migrate] creates the missing migration on confirmation and
    records it in [fixes_applied]; the git check then fails and the exit
    status is 1. *)
Lemma fixer_failure_and_auto_migrate :
  match main Sim.platform default_args
             (Scenario.tree Scenario.black_fails [Line "o"]
                (Loaded (Scenario.settings true true true Scenario.linter_only)))
  with
  | (code, Some s) =>
      code = 1 /\ corrections "Linter" (trace s) = 1%nat
      /\ evaluations "Linter" (trace s) = 1%nat
  | (_, None) => False
  end
  /\
  match main Sim.platform default_args
             (Scenario.tree Scenario.missing_migration [Line "o"]
                (Loaded (Scenario.settings true false true Scenario.django_and_git)))
  with
  | (code, Some s) =>
      code = 1 /\ Py.truthy (auto_fix (self s)) = false
      /\ fixes_applied (self s) = ["Migrations créées"]
  | (_, None) => False
  end.
Proof. vm_compute. repeat split. Qed.

(** C3 (amended).  Let a check fail with [can_fix = True] and have a fixer.
    With auto-fix on, the confirmer is asked and answers.  On a refusal
    the check stays failed and the fixer does not run.  On a confirmation
    the fixer runs; if it reports failure, the check stays failed and is
    not evaluated again; if it reports success, the check is evaluated
    once more, and when that evaluation passes the name of the check is
    appended to [fixes_applied] and the loop goes on, else the check stays
    failed with the new message.  With auto-fix off (for any failing
    check, fixable or not, with or without fixer) the turn ends right
    after the evaluation: no question, no fixer, nothing appended to
    [fixes_applied] by the orchestrator; in strict mode the run then ends
    with verdict failure and exit status 1. *)
Theorem correction_policy (P : Platform) n chk (s : St P) r s1 :
  chk (logged (EvCheck n) s) = (Ok r, s1) ->
  passed r = false ->
  (forall f,
      can_fix r = true -> Py.truthy (auto_fix (self s1)) = true ->
      exists ok s2,
        _confirm P confirm_fix s1 = (Ok ok, s2)
        /\ (ok = false ->
            attempt P (n, chk, Some f) s = (Ok (Failed (message r)), s2))
        /\ (ok = true ->
            forall fixed s3,
              f (logged (EvFix n) s2) = (Ok fixed, s3) ->
              (fixed = false ->
               attempt P (n, chk, Some f) s = (Ok (Failed (message r)), s3))
              /\ (fixed = true ->
                  forall r2 s4,
                    chk (logged (EvCheck n) s3) = (Ok r2, s4) ->
                    (passed r2 = true ->
                     attempt P (n, chk, Some f) s = (Ok Continue, with_fix n s4))
                    /\ (passed r2 = false ->
                        attempt P (n, chk, Some f) s
                        = (Ok (Failed (message r2)), s4)))))
  /\
  (forall fx,
      Py.truthy (auto_fix (self s1)) = false ->
      attempt P (n, chk, fx) s = (Ok (Failed (message r)), s1)
      /\ (Py.truthy (strict_mode (self s1)) = true ->
          forall rest all_passed,
            run_checks P ((n, chk, fx) :: rest) all_passed s
            = (Ok false, summarised false s1)
            /\ exit_status (fst (run_checks P ((n, chk, fx) :: rest) all_passed s))
               = 1)).
Proof.
  intros E Hp. split.
  - intros f Hc Ha.
    pose proof (attempt_offered P n chk f s r s1 E Hp Hc Ha) as A.
    destruct (confirm_total P confirm_fix s1) as (ok & s2 & C).
    exists ok, s2. rewrite C in A. split; [exact C|]. split.
    + intros ->. exact A.
    + intros ->. intros fixed s3 F. rewrite F in A. split.
      * intros ->. exact A.
      * intros ->. intros r2 s4 E2. rewrite E2 in A.
        split; intros Hp2; rewrite Hp2 in A; exact A.
  - intros fx Ha.
    assert (A : attempt P (n, chk, fx) s = (Ok (Failed (message r)), s1)).
    { apply attempt_not_offered; auto. rewrite Ha. apply andb_false_r. }
    split; [exact A|]. intros Hs rest ap.
    assert (R : run_checks P ((n, chk, fx) :: rest) ap s
                = (Ok false, summarised false s1)).
    { simpl. rewrite (bind_ok _ _ _ _ _ _ A). unfold bind, gets. simpl.
      rewrite Hs. reflexivity. }
    rewrite R. split; reflexivity.
Qed.


(** Witness for C3 (amended): a style error that black repairs, with
    auto-fix on and the correction confirmed; and the same style error
    with auto-fix off. *)
Lemma correction_policy_witness :
  (attempt Sim.platform linter_entry RepairRun.s
   = (Ok Continue, with_fix "Linter" RepairRun.s4)
   /\ fixes_applied (self (with_fix "Linter" RepairRun.s4)) = ["Linter"]
   /\ evaluations "Linter" (trace RepairRun.s4) = 2%nat)
  /\
  (attempt Sim.platform linter_entry RepairRun.t
   = (Ok (Failed "1 erreurs de style"), RepairRun.t1)
   /\ fixes_applied (self RepairRun.t1) = []
   /\ exit_status (fst (run_all_checks Sim.platform RepairRun.t)) = 1).
Proof.
  split.
  - assert (E : check_linter Sim.platform (logged (EvCheck "Linter") RepairRun.s)
                = (Ok style_failure, RepairRun.s1)) by (vm_compute; reflexivity).
    assert (C0 : _confirm Sim.platform confirm_fix RepairRun.s1
                 = (Ok true, RepairRun.s2)) by (vm_compute; reflexivity).
    assert (F : fix_linter Sim.platform (logged (EvFix "Linter") RepairRun.s2)
                = (Ok true, RepairRun.s3)) by (vm_compute; reflexivity).
    assert (E2 : check_linter Sim.platform (logged (EvCheck "Linter") RepairRun.s3)
                 = (Ok (result "Linter" true "Aucune erreur détectée"), RepairRun.s4))
      by (vm_compute; reflexivity).
    assert (Ha : Py.truthy (auto_fix (self RepairRun.s1)) = true)
      by (vm_compute; reflexivity).
    destruct (correction_policy Sim.platform "Linter" (check_linter Sim.platform)
                RepairRun.s style_failure RepairRun.s1 E eq_refl) as [Hon _].
    destruct (Hon (fix_linter Sim.platform) eq_refl Ha)
      as (ok & s2' & C & _ & Hyes).
    rewrite C0 in C. inversion C; subst ok s2'.
    destruct (Hyes eq_refl true RepairRun.s3 F) as [_ Hfixed].
    destruct (Hfixed eq_refl _ RepairRun.s4 E2) as [Hpass _].
    split; [apply Hpass; reflexivity|].
    split; reflexivity.
  - assert (E : check_linter Sim.platform (logged (EvCheck "Linter") RepairRun.t)
                = (Ok style_failure, RepairRun.t1)) by (vm_compute; reflexivity).
    assert (Ha : Py.truthy (auto_fix (self RepairRun.t1)) = false)
      by (vm_compute; reflexivity).
    assert (Hs : Py.truthy (strict_mode (self RepairRun.t1)) = true)
      by (vm_compute; reflexivity).
    destruct (correction_policy Sim.platform "Linter" (check_linter Sim.platform)
                RepairRun.t style_failure RepairRun.t1 E eq_refl) as [_ Hoff].
    destruct (Hoff (Some (fix_linter Sim.platform)) Ha) as [A Hstrict].
    split; [exact A|]. split; [reflexivity|].
    destruct (Hstrict Hs (tl (checks Sim.platform)) true) as [_ Hexit].
    exact Hexit.
Defined.

(** C5 (as stated) fails: in an interactive run, the linter fails with
    [can_fix = True] and the operator interrupts the question (or the
    input is at its end).  The run goes on as after a refusal: the fixer
    is not called, the strict-mode path prints the summary and the exit
    status is 1, not 130. *)
Lemma interrupted_prompt_exits_1 :
  match main Sim.platform default_args
             (Scenario.tree Scenario.black_fails [Interrupt]
                (Loaded (Scenario.settings true true true Scenario.linter_only)))
  with
  | (code, Some s) =>
      code = 1 /\ code <> 130
      /\ Scenario.count_event Scenario.is_prompt (trace s) = 1%nat
      /\ corrections "Linter" (trace s) = 0%nat
      /\ Scenario.count_event Scenario.is_summary (trace s) = 1%nat
  | (_, None) => False
  end
  /\
  match main Sim.platform default_args
             (Scenario.tree Scenario.black_fails []
                (Loaded (Scenario.settings true true true Scenario.linter_only)))
  with
  | (code, Some s) =>
      code = 1
      /\ Scenario.count_event Scenario.is_prompt (trace s) = 1%nat
      /\ Scenario.count_event Scenario.is_summary (trace s) = 1%nat
  | (_, None) => False
  end.
Proof. vm_compute. repeat split; discriminate. Qed.

(** C5 (amended).  In interactive mode, when the question hits the end of
    the input or an interrupt, the confirmer returns false and raises
    nothing.  The orchestrator takes this as a refusal of that one
    correction: the fixer is not called, the check stays failed, and in
    strict mode the run ends through the usual path, summary printed,
    verdict failure, exit status 1.  Exit status 130 is reserved for a
    [KeyboardInterrupt] that escapes [run_all_checks]. *)
Theorem interrupted_prompt_is_a_refusal
        (P : Platform) question (s : St P) o w :
  Py.truthy (interactive (self s)) = true ->
  read_line P (question ++ " [O/n] : ") (world s) = (o, w) ->
  o = EndOfInput \/ o = Interrupt ->
  let s' := mkSt w (self s) (trace s ++ [EvPrompt (question ++ " [O/n] : ")]) in
  _confirm P question s = (Ok false, s')
  /\ (forall n chk f s0 r,
         question = confirm_fix ->
         chk (logged (EvCheck n) s0) = (Ok r, s) ->
         passed r = false -> can_fix r = true ->
         Py.truthy (auto_fix (self s)) = true ->
         attempt P (n, chk, Some f) s0 = (Ok (Failed (message r)), s')
         /\ (Py.truthy (strict_mode (self s)) = true ->
             forall rest all_passed,
               run_checks P ((n, chk, Some f) :: rest) all_passed s0
               = (Ok false, summarised false s')
               /\ exit_status
                    (fst (run_checks P ((n, chk, Some f) :: rest) all_passed s0))
                  = 1))
  /\ (forall r, exit_status r = 130 ->
                r = Raise KeyboardInterrupt \/ r = Raise (SystemExit 130)).
Proof.
  intros Hi Hr Ho s'.
  assert (C : _confirm P question s = (Ok false, s')).
  { rewrite (confirm_interactive P _ _ Hi), Hr.
    destruct Ho as [-> | ->]; reflexivity. }
  split; [exact C|]. split.
  - intros n chk f s0 r -> E Hp Hc Ha.
    pose proof (attempt_offered P n chk f s0 r s E Hp Hc Ha) as A.
    rewrite C in A. split; [exact A|].
    intros Hs rest ap.
    assert (R : run_checks P ((n, chk, Some f) :: rest) ap s0
                = (Ok false, summarised false s')).
    { simpl. rewrite (bind_ok _ _ _ _ _ _ A). unfold bind, gets. simpl.
      rewrite Hs. reflexivity. }
    rewrite R. split; reflexivity.
  - intros [[|]|e] H; simpl in H; try discriminate.
    destruct e; try discriminate; [left; reflexivity | right; congruence].
Qed.

(** Witness for C5 (amended): the operator interrupts the question about
    the correction of the linter. *)
Lemma interrupted_prompt_is_a_refusal_witness :
  _confirm Sim.platform confirm_fix InterruptedRun.s = (Ok false, InterruptedRun.s')
  /\ attempt Sim.platform linter_entry InterruptedRun.s0
     = (Ok (Failed "1 erreurs de style"), InterruptedRun.s')
  /\ exit_status (fst (run_all_checks Sim.platform InterruptedRun.s0)) = 1.
Proof.
  assert (Hr : read_line Sim.platform (confirm_fix ++ " [O/n] : ")
                         (world InterruptedRun.s)
               = (Interrupt, InterruptedRun.w))
    by (vm_compute; reflexivity).
  assert (Hi : Py.truthy (interactive (self InterruptedRun.s)) = true)
    by (vm_compute; reflexivity).
  destruct (interrupted_prompt_is_a_refusal Sim.platform confirm_fix
              InterruptedRun.s Interrupt _ Hi Hr (or_intror eq_refl))
    as (C & A & _).
  split; [exact C|].
  assert (E : check_linter Sim.platform (logged (EvCheck "Linter") InterruptedRun.s0)
              = (Ok style_failure, InterruptedRun.s)) by (vm_compute; reflexivity).
  assert (Ha : Py.truthy (auto_fix (self InterruptedRun.s)) = true)
    by (vm_compute; reflexivity).
  assert (Hs : Py.truthy (strict_mode (self InterruptedRun.s)) = true)
    by (vm_compute; reflexivity).
  destruct (A "Linter" (check_linter Sim.platform) (fix_linter Sim.platform)
              InterruptedRun.s0 style_failure eq_refl E eq_refl eq_refl Ha)
    as [At Hstrict].
  split; [exact At|].
  destruct (Hstrict Hs (tl (checks Sim.platform)) true) as [_ Hexit].
  exact Hexit.
Defined.

(* ===================================================================== *)
(** * Properties: the process runner *)
(* ===================================================================== *)

(** C7.  When [subprocess.run] exceeds its budget, [_run_command] raises
    nothing: it returns the status -1, an empty output and a message that
    carries the budget.  This is the triple it returns for a process that
    exits with the (non-zero) status -1 and that message on its error
    stream, so a check cannot tell the two apart; the tests check, for
    one, reports failure.  No [TimeoutExpired] and no launch error leaves
    [run_all_checks] as an exception. *)
Theorem timeout_is_a_failed_command
        (P : Platform) command args timeout (s : St P) w :
  Py.all_str command = Some args ->
  spawn P args timeout (world s) = (TimedOut, w) ->
  let budget := "Commande expirée après " ++ PyStr.of_Z timeout ++ "s" in
  _run_command P command timeout s
  = (Ok (-1, "", budget), mkSt w (self s) (trace s ++ [EvRun command timeout]))
  /\ -1 <> 0
  /\ (forall (s2 : St P) w2,
         spawn P args timeout (world s2) = (Exited (-1) "" budget, w2) ->
         _run_command P command timeout s2
         = (Ok (-1, "", budget),
            mkSt w2 (self s2) (trace s2 ++ [EvRun command timeout])))
  /\ (forall (s0 : St P) w0 enabled test_module,
         cfg_field (config (self s0)) "tests" "enabled" = Ok enabled ->
         Py.truthy enabled = true ->
         cfg_get (config (self s0)) "tests" "test_module" (JStr "") = Ok test_module ->
         Py.truthy test_module = false ->
         spawn P ["python"; "manage.py"; "test"; "--verbosity=1"] 120 (world s0)
         = (TimedOut, w0) ->
         check_tests P s0
         = (Ok (result_d "Tests" false "Certains tests ont échoué" []),
            mkSt w0 (self s0) (trace s0 ++ [EvRun test_command 120])))
  /\ (forall (s0 : St P) e s1,
         run_all_checks P s0 = (Raise e, s1) ->
         forall t msg, e <> TimeoutExpired t /\ e <> LaunchError msg).
Proof.
  intros Ha Hs budget.
  split.
  { rewrite (run_command_spawned P _ _ _ _ Ha), Hs. reflexivity. }
  split; [discriminate|]. split.
  { intros s2 w2 H2. rewrite (run_command_spawned P _ _ _ _ Ha), H2. reflexivity. }
  split.
  - intros s0 w0 enabled test_module He Ht Hm Hf Hsp.
    unfold check_tests. unfold bind at 1. rewrite entry_field_pure, He, Ht.
    cbn [negb]. unfold bind at 1. rewrite entry_get_pure, Hm, Hf.
    unfold bind. fold test_command.
    rewrite (run_command_spawned P test_command
               ["python"; "manage.py"; "test"; "--verbosity=1"] 120 s0 eq_refl), Hsp.
    reflexivity.
  - intros s0 e s1 H t msg.
    pose proof (run_checks_safe P _ (checks_sound P) _ _ _ _ H) as Hp.
    split; intros ->; discriminate.
Qed.

(** Witness for C7: the test suite runs out of its 120 seconds. *)
Lemma timeout_is_a_failed_command_witness :
  _run_command Sim.platform test_command 120 TimeoutRun.s
  = (Ok (-1, "", "Commande expirée après 120s"),
     mkSt (world TimeoutRun.s) (self TimeoutRun.s)
          (trace TimeoutRun.s ++ [EvRun test_command 120]))
  /\ check_tests Sim.platform TimeoutRun.s
     = (Ok (result_d "Tests" false "Certains tests ont échoué" []),
        mkSt (world TimeoutRun.s) (self TimeoutRun.s)
             (trace TimeoutRun.s ++ [EvRun test_command 120])).
Proof.
  destruct (timeout_is_a_failed_command Sim.platform test_command
              ["python"; "manage.py"; "test"; "--verbosity=1"] 120
              TimeoutRun.s (world TimeoutRun.s) eq_refl eq_refl)
    as (Hrun & _ & _ & Htests & _).
  split; [exact Hrun|].
  apply (Htests TimeoutRun.s (world TimeoutRun.s) (JBool true) (JStr ""));
    reflexivity.
Defined.

(* ===================================================================== *)
(** * Properties: the command line *)
(* ===================================================================== *)

(** C9 does not hold of the code: [main] parses [--only] and never reads
    it.  The run is the same with and without the flag; with
    [--only=tests] on a tree with a style error, the linter is evaluated
    (the tests are not even reached) and its failure blocks the commit. *)
Theorem only_flag_is_ignored :
  (forall (P : Platform) only args w,
      main P (with_only only args) w = main P args w)
  /\ match main Sim.platform (with_only (Some "tests") default_args)
                (Scenario.tree Scenario.black_fails []
                   (Loaded (Scenario.settings true false false Scenario.linter_only)))
     with
     | (code, Some s) =>
         code = 1 /\ evaluations "Linter" (trace s) = 1%nat
         /\ evaluations "Tests" (trace s) = 0%nat
     | (_, None) => False
     end.
Proof.
  split.
  - intros P only args w. reflexivity.
  - vm_compute. repeat split.
Qed.

(* ===================================================================== *)
(** * Properties: the commit-message convention *)
(* ===================================================================== *)

(** C8 (as stated) fails on two messages that do not match the pattern of
    the allow-list [feat, fix, docs].  With a file staged and an empty
    last message (a repository without commits) the git check passes and
    appends no warning.  With nothing staged and the message
    "update stuff" the git check fails. *)
Lemma mismatch_without_warning_or_pass :
  (exists pattern,
      commit_pattern feat_fix_docs = Ok pattern
      /\ re_match_i Sim.platform pattern "" = Some false
      /\ re_match_i Sim.platform pattern "update stuff" = Some false)
  /\ match check_git Sim.platform
             (Scenario.fresh (Scenario.settings true true true Scenario.git_only)
                (Scenario.tree (Scenario.staged "") [] NotFound))
     with
     | (Ok r, s') => passed r = true /\ warnings (self s') = []
     | (Raise _, _) => False
     end
  /\ match check_git Sim.platform
             (Scenario.fresh (Scenario.settings true true true Scenario.git_only)
                (Scenario.tree (Scenario.unstaged "update stuff") [] NotFound))
     with
     | (Ok r, s') => passed r = false /\ warnings (self s') = []
     | (Raise _, _) => False
     end.
Proof.
  split; [eexists; repeat split | vm_compute; repeat split].
Qed.

Lemma strip_empty_output out :
  PyStr.strip out <> "" -> PyStr.nonempty out = true.
Proof.
  destruct out; [intros H; exfalso; apply H; reflexivity | reflexivity].
Qed.

Lemma run_command_self (P : Platform) command timeout (s : St P) r s' :
  _run_command P command timeout s = (r, s') -> self s' = self s.
Proof.
  destruct (Py.all_str command) as [args|] eqn:H.
  - rewrite (run_command_spawned P _ _ _ _ H).
    destruct (spawn P args timeout (world s)) as [o w].
    destruct (outcome_triple timeout o); intros E; inversion E; reflexivity.
  - destruct (run_command_refused P _ timeout s H) as [msg ->].
    intros E; inversion E; reflexivity.
Qed.

Lemma staged_files_present_self (P : Platform) (s : St P) r s' :
  staged_files_present P s = (r, s') -> self s' = self s.
Proof.
  unfold staged_files_present. unfold bind at 1. rewrite entry_get_pure.
  destruct (cfg_get (config (self s)) "git" "check_staged_files" (JBool true))
    as [v|e]; [| intros E; inversion E; reflexivity].
  destruct (Py.truthy v); [| intros E; inversion E; reflexivity].
  intros E.
  destruct (bind_inv _ _ _ _ _ _ E) as [([[rc out] err] & s1 & E1 & E2) | (e & E1 & _)].
  - rewrite <- (run_command_self _ _ _ _ _ _ E1).
    destruct (if PyStr.nonempty out then PyStr.split_nl (PyStr.strip out) else [])
      as [|[|c x] [|y l]]; inversion E2; reflexivity.
  - exact (run_command_self _ _ _ _ _ _ E1).
Qed.

Lemma convention_warning_format last allowed warning :
  convention_warning last allowed = Ok warning ->
  exists listed,
    Py.join ", " allowed = Ok listed
    /\ warning = "Le dernier commit ne suit pas la convention: '"
                 ++ PyStr.take 50 last ++ "...'" ++ PyStr.newline
                 ++ "Format attendu: type: description" ++ PyStr.newline
                 ++ "Types autorisés: " ++ listed.
Proof.
  unfold convention_warning, res_bind.
  destruct (Py.join ", " allowed) as [listed|e]; intros H; inversion H.
  exists listed. split; reflexivity.
Qed.

(** C8 (amended).  Let the git check be enabled and reach the convention
    test (something is staged, or the staged-files test is off; the
    convention test is on), and let the last commit message, stripped, be
    non-empty and not match the pattern built from the allow-list.  Then
    the check returns [passed = True] ("Git OK") and appends to
    [warnings] exactly one string, which names the expected format
    ("Format attendu: type: description") and the allowed types. *)
Theorem convention_mismatch_is_a_warning
        (P : Platform) (s s1 s2 : St P) enabled conventional allowed pattern
        returncode stdout stderr :
  cfg_field (config (self s)) "git" "enabled" = Ok enabled ->
  Py.truthy enabled = true ->
  staged_files_present P s = (Ok true, s1) ->
  cfg_get (config (self s)) "git" "conventional_commits" (JBool true)
  = Ok conventional ->
  Py.truthy conventional = true ->
  _run_command P git_log 60 s1 = (Ok (returncode, stdout, stderr), s2) ->
  PyStr.strip stdout <> "" ->
  cfg_get (config (self s)) "git" "allowed_types" default_allowed_types
  = Ok allowed ->
  commit_pattern allowed = Ok pattern ->
  re_match_i P pattern (PyStr.strip stdout) = Some false ->
  exists listed,
    Py.join ", " allowed = Ok listed
    /\ let warning :=
         "Le dernier commit ne suit pas la convention: '"
         ++ PyStr.take 50 (PyStr.strip stdout) ++ "...'" ++ PyStr.newline
         ++ "Format attendu: type: description" ++ PyStr.newline
         ++ "Types autorisés: " ++ listed in
       check_git P s
       = (Ok (result "Git" true "Git OK"),
          mkSt (world s2) (add_warning warning (self s2)) (trace s2))
       /\ warnings (add_warning warning (self s2))
          = (warnings (self s) ++ [warning])%list.
Proof.
  intros He Ht Hst Hc Hct Hrun Hne Hal Hpat Hre.
  pose proof (staged_files_present_self P _ _ _ Hst) as Hself1.
  pose proof (run_command_self P _ _ _ _ _ Hrun) as Hself2.
  assert (Hcfg1 : config (self s1) = config (self s)) by congruence.
  assert (Hcfg2 : config (self s2) = config (self s)) by congruence.
  assert (Hw : exists warning, convention_warning (PyStr.strip stdout) allowed
                               = Ok warning).
  { unfold commit_pattern, res_bind in Hpat. unfold convention_warning, res_bind.
    unfold Py.join in *. destruct (Py.iter allowed); [|discriminate].
    destruct (Py.all_str a); [|discriminate]. eauto. }
  destruct Hw as [warning Hw].
  destruct (convention_warning_format _ _ _ Hw) as (listed & Hj & Hwarning).
  exists listed. split; [exact Hj|]. cbv zeta. rewrite <- Hwarning.
  assert (Hconv : check_convention P s1
                  = (Ok tt, mkSt (world s2) (add_warning warning (self s2)) (trace s2))).
  { unfold check_convention. unfold bind at 1.
    rewrite entry_get_pure, Hcfg1, Hc, Hct.
    fold git_log. rewrite (bind_ok _ _ _ _ _ _ Hrun).
    rewrite (strip_empty_output _ Hne).
    unfold bind at 1. rewrite entry_get_pure, Hcfg2, Hal.
    unfold bind at 1. unfold lift at 1. rewrite Hpat.
    destruct (PyStr.strip stdout) eqn:Hs; [exfalso; apply Hne; reflexivity|].
    cbn [PyStr.nonempty]. rewrite Hre.
    unfold bind, lift. rewrite Hw. reflexivity. }
  split.
  - unfold check_git. unfold bind at 1. rewrite entry_field_pure, He, Ht.
    cbn [negb]. rewrite (bind_ok _ _ _ _ _ _ Hst). cbn [negb].
    rewrite (bind_ok _ _ _ _ _ _ Hconv). reflexivity.
  - simpl. rewrite Hself2, Hself1. reflexivity.
Qed.


(** Witness for C8 (amended): the last commit message "update stuff"
    against the allow-list [feat, fix, docs]. *)
Lemma convention_mismatch_is_a_warning_witness :
  check_git Sim.platform ConventionRun.s
  = (Ok (result "Git" true "Git OK"),
     mkSt (world ConventionRun.s2)
          (add_warning ConventionRun.warning (self ConventionRun.s2))
          (trace ConventionRun.s2))
  /\ warnings (add_warning ConventionRun.warning (self ConventionRun.s2))
     = [ConventionRun.warning]
  /\ PyStr.contains "Format attendu: type: description" ConventionRun.warning = true.
Proof.
  assert (Hst : staged_files_present Sim.platform ConventionRun.s
                = (Ok true, ConventionRun.s1)) by (vm_compute; reflexivity).
  assert (Hrun : _run_command Sim.platform git_log 60 ConventionRun.s1
                 = (Ok (0, "update stuff", ""), ConventionRun.s2))
    by (vm_compute; reflexivity).
  assert (Hne : PyStr.strip "update stuff" <> "") by (vm_compute; discriminate).
  assert (Hre : re_match_i Sim.platform "^(feat|fix|docs)(\(.+\))?: .+"
                           (PyStr.strip "update stuff") = Some false)
    by (vm_compute; reflexivity).
  destruct (convention_mismatch_is_a_warning Sim.platform
              ConventionRun.s ConventionRun.s1 ConventionRun.s2
              (JBool true) (JBool true) feat_fix_docs
              "^(feat|fix|docs)(\(.+\))?: .+" 0 "update stuff" ""
              eq_refl eq_refl Hst eq_refl eq_refl Hrun Hne eq_refl eq_refl Hre)
    as (listed & Hj & Hcheck & Hwarn).
  assert (Hl : listed = "feat, fix, docs") by (vm_compute in Hj; congruence).
  subst listed. split; [exact Hcheck|]. split; [exact Hwarn|].
  vm_compute. reflexivity.
Defined.

(* ===================================================================== *)
(** * The discipline of the methods *)
(* ===================================================================== *)

Section Discipline.

Variable P : Platform.
Variable c0 : Checker.

Local Abbreviation disciplined := (@disciplined P c0) (only parsing).

Lemma same_flags_refl c : same_flags c c.
Proof. repeat split. Qed.

Lemma forallb_nil_true {A} (f : A -> bool) : forallb f [] = true.
Proof. reflexivity. Qed.

Lemma quiet_step (s : St P) :
  exists t, trace s = (trace s ++ t)%list /\ forallb (permitted c0) t = true.
Proof. exists []. split; [now rewrite app_nil_r | reflexivity]. Qed.

Lemma disc_ret allow {A} (a : A) (Q : A -> Prop) :
  Q a -> disciplined allow (ret a) Q.
Proof.
  intros H s r s' F E. inversion E; subst. split; [exact F|]. split; [|exact H].
  exists []. split; [now rewrite app_nil_r | reflexivity].
Qed.

Lemma disc_raise allow {A} e (Q : A -> Prop) :
  may_escape e = true -> disciplined allow (raise e) Q.
Proof.
  intros H s r s' F E. inversion E; subst. split; [exact F|]. split; [|exact H].
  exists []. split; [now rewrite app_nil_r | reflexivity].
Qed.

Lemma disc_bind allow {A B} (m : M P A) (f : A -> M P B) Q1 Q :
  disciplined allow m Q1 -> (forall a, Q1 a -> disciplined allow (f a) Q) ->
  disciplined allow (bind m f) Q.
Proof.
  intros Hm Hf s r s' F E.
  destruct (bind_inv _ _ _ _ _ _ E) as [(a & s1 & E1 & E2) | (e & E1 & ->)].
  - destruct (Hm _ _ _ F E1) as (F1 & (t1 & T1 & A1) & Qa).
    destruct (Hf a Qa _ _ _ F1 E2) as (F2 & (t2 & T2 & A2) & Qr).
    split; [exact F2|]. split; [|exact Qr].
    exists (t1 ++ t2)%list. split.
    + rewrite T2, T1, app_assoc. reflexivity.
    + rewrite forallb_app, A1, A2. reflexivity.
  - exact (Hm _ _ _ F E1).
Qed.

Lemma disc_bind_any allow {A B} (m : M P A) (f : A -> M P B) Q :
  disciplined allow m (fun _ => True) -> (forall a, disciplined allow (f a) Q) ->
  disciplined allow (bind m f) Q.
Proof. intros Hm Hf. eapply disc_bind; [exact Hm | intros a _; apply Hf]. Qed.

Lemma disc_weaken allow {A} (m : M P A) (Q Q' : A -> Prop) :
  disciplined allow m Q -> (forall a, Q a -> Q' a) -> disciplined allow m Q'.
Proof.
  intros Hm HQ s r s' F E. destruct (Hm _ _ _ F E) as (F1 & T & R).
  split; [exact F1|]. split; [exact T|]. destruct r; auto.
Qed.

Lemma disc_any allow {A} (m : M P A) Q :
  disciplined allow m Q -> disciplined allow m (fun _ => True).
Proof. intros H. eapply disc_weaken; [exact H | auto]. Qed.

Lemma disc_mono (allow allow' : Event -> bool) {A} (m : M P A) Q :
  (forall ev, allow ev = true -> allow' ev = true) ->
  disciplined allow m Q -> disciplined allow' m Q.
Proof.
  intros Hsub Hm s r s' F E. destruct (Hm _ _ _ F E) as (F1 & (t & T & A1) & R).
  split; [exact F1|]. split; [|exact R]. exists t. split; [exact T|].
  rewrite forallb_forall in *. intros ev Hin. apply Hsub, A1, Hin.
Qed.

Lemma disc_lift allow {A} (r : Res A) :
  res_escapes r -> disciplined allow (lift r) (fun _ => True).
Proof.
  intros H s r' s' F E. inversion E; subst. split; [exact F|]. split.
  - exists []. split; [now rewrite app_nil_r | reflexivity].
  - destruct r'; auto.
Qed.

Lemma disc_gets allow {A} (f : Checker -> A) :
  disciplined allow (gets f) (fun _ => True).
Proof.
  intros s r s' F E. inversion E; subst. split; [exact F|]. split; [|exact I].
  exists []. split; [now rewrite app_nil_r | reflexivity].
Qed.

Lemma disc_gets_auto_fix allow :
  disciplined allow (gets auto_fix) (fun a => a = auto_fix c0).
Proof.
  intros s r s' F E. inversion E; subst. split; [exact F|]. split.
  - exists []. split; [now rewrite app_nil_r | reflexivity].
  - destruct F as (_ & _ & Ha & _). exact Ha.
Qed.

Lemma disc_gets_strict allow :
  disciplined allow (gets strict_mode) (fun a => a = strict_mode c0).
Proof.
  intros s r s' F E. inversion E; subst. split; [exact F|]. split.
  - exists []. split; [now rewrite app_nil_r | reflexivity].
  - destruct F as (_ & Hs & _). exact Hs.
Qed.

Lemma disc_observe allow {A} (f : World P -> A) :
  disciplined allow (observe f) (fun _ => True).
Proof.
  intros s r s' F E. inversion E; subst. split; [exact F|]. split; [|exact I].
  exists []. split; [now rewrite app_nil_r | reflexivity].
Qed.

Lemma disc_log allow ev :
  allow ev = true -> disciplined allow (log ev) (fun _ => True).
Proof.
  intros H s r s' F E. inversion E; subst. split; [exact F|]. split; [|exact I].
  exists [ev]. split; [reflexivity | simpl; now rewrite H].
Qed.

Lemma disc_modify allow (f : Checker -> Checker) :
  (forall c, same_flags c (f c)) -> disciplined allow (modify f) (fun _ => True).
Proof.
  intros H s r s' F E. inversion E; subst. simpl. split.
  - destruct F as (F1 & F2 & F3 & F4). destruct (H (self s)) as (H1 & H2 & H3 & H4).
    repeat split; congruence.
  - split; [|exact I]. exists []. split; [now rewrite app_nil_r | reflexivity].
Qed.

Lemma add_fix_flags f c : same_flags c (add_fix f c).
Proof. repeat split. Qed.

Lemma add_warning_flags w c : same_flags c (add_warning w c).
Proof. repeat split. Qed.

Lemma add_error_flags e c : same_flags c (add_error e c).
Proof. repeat split. Qed.

(** ** The pure operations *)

Lemma subscript_escapes v k : res_escapes (Py.subscript v k).
Proof.
  intros e. destruct v; simpl; try (intros H; inversion H; reflexivity).
  destruct (Py.lookup k items); intros H; inversion H; reflexivity.
Qed.

Lemma get_escapes v k d : res_escapes (Py.get v k d).
Proof.
  intros e. destruct v; simpl; try (intros H; inversion H; reflexivity).
  destruct (Py.lookup k items); intros H; inversion H.
Qed.

Lemma iter_escapes v : res_escapes (Py.iter v).
Proof. intros e. destruct v; simpl; intros H; inversion H; reflexivity. Qed.

Lemma join_escapes sep v : res_escapes (Py.join sep v).
Proof.
  intros e. unfold Py.join. destruct (Py.iter v); [|intros H; inversion H; reflexivity].
  destruct (Py.all_str a); intros H; inversion H; reflexivity.
Qed.

Lemma str_in_escapes s v : res_escapes (Py.str_in s v).
Proof. intros e. destruct v; simpl; intros H; inversion H; reflexivity. Qed.

Lemma commit_pattern_escapes v : res_escapes (commit_pattern v).
Proof.
  intros e. unfold commit_pattern, res_bind.
  destruct (Py.join "|" v) eqn:J; intros H; inversion H; subst.
  exact (join_escapes _ _ _ J).
Qed.

Lemma convention_warning_escapes m v : res_escapes (convention_warning m v).
Proof.
  intros e. unfold convention_warning, res_bind.
  destruct (Py.join ", " v) eqn:J; intros H; inversion H; subst.
  exact (join_escapes _ _ _ J).
Qed.

(** ** The process runner and the confirmer *)

Lemma run_command_disc allow command timeout :
  allow (EvRun command timeout) = true ->
  disciplined allow (_run_command P command timeout) (fun _ => True).
Proof.
  intros Hal s r s' F E.
  assert (T : exists t, (trace s ++ [EvRun command timeout])%list = (trace s ++ t)%list
                        /\ forallb allow t = true).
  { exists [EvRun command timeout]. split; [reflexivity | simpl; now rewrite Hal]. }
  destruct (Py.all_str command) as [args|] eqn:H.
  - rewrite (run_command_spawned P _ _ _ _ H) in E.
    destruct (spawn P args timeout (world s)) as [o w].
    destruct (outcome_triple timeout o); inversion E; subst; simpl;
      (split; [exact F | split; [exact T | auto]]).
  - destruct (run_command_refused P _ timeout s H) as [msg E'].
    rewrite E' in E. inversion E; subst. simpl.
    split; [exact F | split; [exact T | auto]].
Qed.

Lemma run_command_quiet command timeout :
  mutating command = false ->
  disciplined (permitted c0) (_run_command P command timeout) (fun _ => True).
Proof. intros H. apply run_command_disc. simpl. now rewrite H. Qed.

(** The confirmer asks only in interactive mode, and an agreement means
    consent. *)
Lemma confirm_disc message :
  disciplined (permitted c0) (_confirm P message)
              (fun ok => ok = true -> consented c0 = true).
Proof.
  intros s r s' F E. destruct F as (Fc & Fs & Fa & Fi).
  assert (F : same_flags c0 (self s)) by (repeat split; assumption).
  destruct (Py.truthy (interactive (self s))) eqn:Hi.
  - rewrite (confirm_interactive P _ _ Hi) in E.
    destruct (read_line P (message ++ " [O/n] : ") (world s)) as [o w].
    inversion E; subst. simpl. split; [exact F|]. split.
    + eexists. split; [reflexivity|]. simpl. rewrite <- Fi, Hi. reflexivity.
    + intros _. unfold consented. rewrite <- Fi, Hi. reflexivity.
  - rewrite (confirm_batch P _ _ Hi) in E. inversion E; subst.
    split; [exact F|]. split.
    + exists []. split; [now rewrite app_nil_r | reflexivity].
    + intros H. unfold consented. rewrite <- Fa, H. apply orb_true_r.
Qed.

End Discipline.

Create HintDb disc.
#[export] Hint Resolve disc_gets disc_observe subscript_escapes get_escapes
  iter_escapes join_escapes str_in_escapes commit_pattern_escapes
  convention_warning_escapes add_fix_flags add_warning_flags : disc.
#[export] Hint Extern 1 (disciplined _ _ (_run_command _ _ _) _) =>
  apply run_command_quiet; reflexivity : disc.
#[export] Hint Extern 2 (disciplined _ _ (_confirm _ _) (fun _ => True)) =>
  eapply disc_any; apply confirm_disc : disc.

(** One step through a script, for goals of the form
    [disciplined c allow m Q]. *)
Ltac disc_leaf :=
  simpl; try exact I; try reflexivity; try tauto;
  try (intros; discriminate); auto.

Ltac disc_step :=
  cbv beta zeta;
  lazymatch goal with
  | |- disciplined _ _ (bind _ _) _ => apply disc_bind_any; [ | intro ]
  | |- disciplined _ _ (ret _) _ => apply disc_ret; disc_leaf
  | |- disciplined _ _ (raise _) _ => apply disc_raise; reflexivity
  | |- disciplined _ _ (lift _) _ => apply disc_lift; auto with disc
  | |- disciplined _ _ (modify _) _ => apply disc_modify; auto with disc
  | |- disciplined _ _ (if ?b then _ else _) _ => destruct b
  | |- disciplined _ _ (match ?x with _ => _ end) _ => destruct x
  | |- disciplined _ _ _ _ => solve [auto with disc]
  end.

Ltac disc_script := repeat disc_step.

Section MethodDiscipline.

Variable P : Platform.
Variable c0 : Checker.

Local Abbreviation quiet := (@disciplined P c0 (permitted c0) _) (only parsing).

Lemma check_tool_installed_disc tool :
  quiet (check_tool_installed P tool) (fun _ => True).
Proof. unfold check_tool_installed. destruct (is_nt P); disc_script. Qed.

Hint Resolve check_tool_installed_disc : disc.

Lemma install_tool_disc tool : quiet (install_tool P tool) (fun _ => True).
Proof.
  unfold install_tool.
  eapply disc_bind; [apply confirm_disc | intros [|] Hok]; [| disc_script].
  apply disc_bind_any; [| intros [[rc out] err]; disc_script].
  apply run_command_disc. simpl. rewrite (Hok eq_refl). reflexivity.
Qed.

Hint Resolve install_tool_disc : disc.

Lemma checks_entry_disc key : quiet (checks_entry P key) (fun _ => True).
Proof. unfold checks_entry. disc_script. Qed.

Hint Resolve checks_entry_disc : disc.

Lemma entry_field_disc key field : quiet (entry_field P key field) (fun _ => True).
Proof. unfold entry_field. disc_script. Qed.

Lemma entry_get_disc key field d : quiet (entry_get P key field d) (fun _ => True).
Proof. unfold entry_get. disc_script. Qed.

Hint Resolve entry_field_disc entry_get_disc : disc.

Lemma check_linter_disc : quiet (check_linter P) (fun _ => True).
Proof. unfold check_linter. disc_script. Qed.

Lemma check_tests_disc : quiet (check_tests P) (fun _ => True).
Proof.
  unfold check_tests.
  apply disc_bind_any; [disc_script | intro enabled].
  destruct (negb (Py.truthy enabled)); [disc_script |].
  apply disc_bind_any; [disc_script | intro test_module].
  cbv zeta. destruct (Py.truthy test_module); disc_script.
Qed.

Lemma check_django_disc : quiet (check_django P) (fun _ => True).
Proof.
  unfold check_django.
  apply disc_bind_any; [disc_script | intro enabled].
  destruct (negb (Py.truthy enabled)); [disc_script |].
  apply disc_bind_any; [disc_script | intros [[returncode stdout] stderr]].
  destruct (negb (returncode =? 0)); [disc_script |].
  apply disc_bind_any; [disc_script | intro check_deploy].
  apply disc_bind_any; [disc_script | intros [failure|]]; [disc_script |].
  apply disc_bind_any; [disc_script | intro check_migrations].
  destruct (Py.truthy check_migrations); [| disc_script].
  apply disc_bind_any; [disc_script | intros [[rc out] err]].
  cbv beta zeta. destruct (negb (rc =? 0)); [| disc_script].
  apply disc_bind_any; [disc_script | intro auto_migrate].
  destruct (Py.truthy auto_migrate); [| disc_script].
  eapply disc_bind; [apply confirm_disc | intros [|] Hok]; [| disc_script].
  apply disc_bind_any; [| intros [[rc2 out2] err2]; disc_script].
  apply run_command_disc. simpl. rewrite (Hok eq_refl). reflexivity.
Qed.

Lemma check_dangerous_patterns_disc :
  quiet (_check_dangerous_patterns P) (fun _ => True).
Proof. unfold _check_dangerous_patterns. disc_script. Qed.

Hint Resolve check_dangerous_patterns_disc : disc.

Lemma check_security_disc : quiet (check_security P) (fun _ => True).
Proof. unfold check_security. disc_script. Qed.

Lemma scan_forbidden_disc files found :
  quiet (scan_forbidden P files found) (fun _ => True).
Proof.
  revert found. induction files as [|v rest IH]; intros found; simpl.
  - disc_script.
  - destruct v; try (apply disc_raise; reflexivity).
    disc_script; apply IH.
Qed.

Hint Resolve scan_forbidden_disc : disc.

Lemma check_files_disc : quiet (check_files P) (fun _ => True).
Proof. unfold check_files. disc_script. Qed.

Lemma check_convention_disc : quiet (check_convention P) (fun _ => True).
Proof. unfold check_convention. disc_script. Qed.

Lemma staged_files_present_disc : quiet (staged_files_present P) (fun _ => True).
Proof. unfold staged_files_present. disc_script. Qed.

Hint Resolve check_convention_disc staged_files_present_disc : disc.

Lemma check_git_disc : quiet (check_git P) (fun _ => True).
Proof. unfold check_git. disc_script. Qed.

Lemma permitted_fix_extends ev :
  permitted c0 ev = true -> permitted_fix c0 ev = true.
Proof. destruct ev; simpl; auto. Qed.

Lemma fix_linter_disc :
  disciplined c0 (permitted_fix c0) (fix_linter P) (fun _ => True).
Proof.
  assert (T : forall tool, disciplined c0 (permitted_fix c0)
                             (check_tool_installed P tool) (fun _ => True)).
  { intros tool. eapply disc_mono; [apply permitted_fix_extends |].
    apply check_tool_installed_disc. }
  assert (R : forall command timeout,
             disciplined c0 (permitted_fix c0)
                         (_run_command P command timeout) (fun _ => True)).
  { intros. apply run_command_disc. reflexivity. }
  unfold fix_linter.
  apply disc_bind_any; [apply T | intros [|]].
  - apply disc_bind_any.
    + apply disc_bind_any; [apply R | intros [[rc out] err]]. disc_script.
    + intros fixed. apply disc_bind_any; [apply T | intros [|]].
      * apply disc_bind_any; [| intro; disc_script].
        apply disc_bind_any; [apply R | intros [[rc out] err]]. disc_script.
      * disc_script.
  - apply disc_bind_any; [disc_script | intros fixed].
    apply disc_bind_any; [apply T | intros [|]].
    + apply disc_bind_any; [| intro; disc_script].
      apply disc_bind_any; [apply R | intros [[rc out] err]]. disc_script.
    + disc_script.
Qed.

Lemma checks_disciplined : Forall (entry_disciplined c0) (checks P).
Proof.
  unfold checks. repeat apply Forall_cons; try apply Forall_nil;
    (split; simpl; [| intros f H; inversion H; subst]).
  - apply check_linter_disc.
  - apply fix_linter_disc.
  - apply check_tests_disc.
  - apply check_django_disc.
  - apply check_security_disc.
  - apply check_files_disc.
  - apply check_git_disc.
Qed.

End MethodDiscipline.

(* ===================================================================== *)
(** * The discipline of a run *)
(* ===================================================================== *)

Section RunDiscipline.

Variable P : Platform.
Variable c0 : Checker.

Lemma permitted_turn_extends ev :
  permitted c0 ev = true -> permitted_turn c0 ev = true.
Proof. destruct ev; simpl; auto; discriminate. Qed.

Lemma permitted_fix_turn ev :
  Py.truthy (auto_fix c0) = true ->
  permitted_fix c0 ev = true -> permitted_turn c0 ev = true.
Proof.
  intros Ha. destruct ev; simpl; auto; try discriminate.
  intros _. unfold consented. rewrite Ha. now rewrite !orb_true_r.
Qed.

Lemma attempt_disc entry :
  entry_disciplined c0 entry ->
  disciplined c0 (permitted_turn c0) (attempt P entry) (fun _ => True).
Proof.
  destruct entry as [[n chk] fx]. intros [Hc Hf]. simpl in *.
  assert (Hc' : disciplined c0 (permitted_turn c0) chk (fun _ => True))
    by (eapply disc_mono; [apply permitted_turn_extends | exact Hc]).
  unfold attempt.
  apply disc_bind_any; [apply disc_log; reflexivity | intros _].
  apply disc_bind_any; [exact Hc' | intro r].
  destruct (passed r); [disc_script |].
  eapply disc_bind; [apply disc_gets_auto_fix | intros autofix ->].
  destruct fx as [f|]; [| disc_script].
  specialize (Hf f eq_refl).
  destruct (can_fix r); simpl; [| disc_script].
  destruct (Py.truthy (auto_fix c0)) eqn:Ha; [| disc_script].
  apply disc_bind_any.
  { eapply disc_mono; [apply permitted_turn_extends |].
    eapply disc_any. apply confirm_disc. }
  intros [|]; [| disc_script].
  apply disc_bind_any; [apply disc_log; exact Ha | intros _].
  apply disc_bind_any.
  { eapply disc_mono; [intros ev; apply permitted_fix_turn; exact Ha | exact Hf]. }
  intros [|]; [| disc_script].
  apply disc_bind_any; [apply disc_log; reflexivity | intros _].
  apply disc_bind_any; [exact Hc' | intro r2].
  disc_script.
Qed.

(** The shape of the trace of a run: the events of the turns, then, when
    the loop returns, the summary of its verdict and nothing else. *)
Lemma run_checks_shape remaining :
  Forall (entry_disciplined c0) remaining ->
  forall all_passed (s : St P) r s',
    same_flags c0 (self s) ->
    run_checks P remaining all_passed s = (r, s') ->
    same_flags c0 (self s')
    /\ exists t,
         forallb (permitted_turn c0) t = true
         /\ match r with
            | Ok b => trace s' = (trace s ++ t ++ [EvSummary b])%list
            | Raise e => trace s' = (trace s ++ t)%list /\ may_escape e = true
            end.
Proof.
  induction 1 as [|entry rest He Hrest IH]; intros ap s r s' F E; simpl in E.
  - inversion E; subst. split; [exact F|]. exists []. split; reflexivity.
  - destruct (bind_inv _ _ _ _ _ _ E) as [(v & s1 & E1 & E2) | (e' & E1 & ->)].
    + destruct (attempt_disc entry He _ _ _ F E1) as (F1 & (t1 & T1 & A1) & _).
      assert (K : forall ap' s1', same_flags c0 (self s1') ->
                    trace s1' = trace s1 ->
                    run_checks P rest ap' s1' = (r, s') ->
                    same_flags c0 (self s')
                    /\ exists t,
                         forallb (permitted_turn c0) t = true
                         /\ match r with
                            | Ok b => trace s' = (trace s ++ t ++ [EvSummary b])%list
                            | Raise e => trace s' = (trace s ++ t)%list
                                         /\ may_escape e = true
                            end).
      { intros ap' s1' F1' Ht E'.
        destruct (IH _ _ _ _ F1' E') as (F2 & t2 & A2 & S2).
        split; [exact F2|]. exists (t1 ++ t2)%list.
        split; [rewrite forallb_app, A1, A2; reflexivity|].
        rewrite Ht, T1 in S2.
        destruct r as [b|e]; rewrite <- !app_assoc in *; exact S2. }
      destruct v as [|msg]; [apply (K ap s1 F1 eq_refl E2)|].
      unfold bind at 1, gets in E2. simpl in E2.
      destruct (Py.truthy (strict_mode (self s1))).
      * inversion E2; subst. simpl. split; [exact F1|].
        exists t1. split; [exact A1|]. rewrite T1, <- app_assoc. reflexivity.
      * apply (K false (with_error (error_line (entry_name entry) msg) s1)).
        -- destruct F1 as (F11 & F12 & F13 & F14). repeat split; assumption.
        -- reflexivity.
        -- exact E2.
    + destruct (attempt_disc entry He _ _ _ F E1) as (F1 & (t1 & T1 & A1) & R).
      split; [exact F1|]. exists t1. split; [exact A1|]. split; assumption.
Qed.

Lemma run_all_checks_shape (s : St P) r s' :
  same_flags c0 (self s) ->
  run_all_checks P s = (r, s') ->
  same_flags c0 (self s')
  /\ exists t,
       forallb (permitted_turn c0) t = true
       /\ match r with
          | Ok b => trace s' = (trace s ++ t ++ [EvSummary b])%list
          | Raise e => trace s' = (trace s ++ t)%list /\ may_escape e = true
          end.
Proof. apply run_checks_shape, checks_disciplined. Qed.

(** ** Reading a trace of turns *)

Lemma turns_have_no_summary t :
  forallb (permitted_turn c0) t = true -> summaries t = 0%nat.
Proof.
  induction t as [|ev t IH]; simpl; [reflexivity|].
  intros H. apply andb_prop in H. destruct H as [H1 H2].
  unfold summaries in *. simpl. rewrite (IH H2).
  destruct ev; simpl in *; auto; discriminate.
Qed.

Lemma turns_without_keyboard t :
  Py.truthy (interactive c0) = false ->
  forallb (permitted_turn c0) t = true -> prompts t = 0%nat.
Proof.
  intros Hi. induction t as [|ev t IH]; simpl; [reflexivity|].
  intros H. apply andb_prop in H. destruct H as [H1 H2].
  unfold prompts in *. simpl. rewrite (IH H2).
  destruct ev; simpl in *; auto. congruence.
Qed.

Lemma turns_without_consent t :
  consented c0 = false ->
  forallb (permitted_turn c0) t = true ->
  forallb (fun command => negb (mutating command)) (commands t) = true
  /\ fixer_calls t = 0%nat /\ prompts t = 0%nat.
Proof.
  intros Hc.
  assert (Hi : Py.truthy (interactive c0) = false)
    by (unfold consented in Hc; apply orb_false_elim in Hc; tauto).
  assert (Ha : Py.truthy (auto_fix c0) = false)
    by (unfold consented in Hc; apply orb_false_elim in Hc; tauto).
  induction t as [|ev t IH]; simpl; [repeat split|].
  intros H. apply andb_prop in H. destruct H as [H1 H2].
  destruct (IH H2) as (I1 & I2 & I3).
  unfold fixer_calls, prompts in *.
  destruct ev; simpl in *; rewrite ?I1, ?I2, ?I3; try congruence; auto.
  rewrite Hc, orb_false_r in H1. rewrite H1. auto.
Qed.

End RunDiscipline.

(* ===================================================================== *)
(** * Properties of a whole run *)
(* ===================================================================== *)

Lemma count_event_app same t1 t2 :
  Scenario.count_event same (t1 ++ t2)
  = (Scenario.count_event same t1 + Scenario.count_event same t2)%nat.
Proof.
  induction t1 as [|ev t1 IH]; simpl; [reflexivity|]. rewrite IH. lia.
Qed.

Lemma commands_app t1 t2 : commands (t1 ++ t2) = (commands t1 ++ commands t2)%list.
Proof.
  induction t1 as [|ev t1 IH]; simpl; [reflexivity|].
  destruct ev; simpl; rewrite IH; reflexivity.
Qed.

Lemma apply_args_hook args checker :
  arg_yes args || arg_from_hook args = true ->
  interactive (apply_args args checker) = JBool false
  /\ auto_fix (apply_args args checker) = JBool true.
Proof. intros H. unfold apply_args. rewrite H. split; reflexivity. Qed.

(** X1.  Called with [--yes] or [--from-hook], the script never reads the
    keyboard, whatever the configuration file says about [interactive]:
    no question is asked during the whole run. *)
Theorem hook_mode_never_asks (P : Platform) args w :
  arg_yes args || arg_from_hook args = true ->
  match main P args w with
  | (_, Some s) => prompts (trace s) = 0%nat
  | (_, None) => True
  end.
Proof.
  intros H. unfold main.
  destruct (init P (arg_config args) w) as [checker|e];
    [| destruct e; exact I].
  destruct (run_all_checks P (mkSt w (apply_args args checker) []))
    as [r s] eqn:E.
  destruct (run_all_checks_shape P (apply_args args checker)
              (mkSt w (apply_args args checker) []) r s
              (same_flags_refl _) E) as (_ & t & A & S).
  assert (Hi : Py.truthy (interactive (apply_args args checker)) = false)
    by (rewrite (proj1 (apply_args_hook args checker H)); reflexivity).
  pose proof (turns_without_keyboard _ _ Hi A) as Hp.
  unfold prompts in *. simpl in S.
  destruct r as [b|e].
  - rewrite S, count_event_app, Hp. reflexivity.
  - destruct S as [S _]. rewrite S. exact Hp.
Qed.

(** Witness for X1: the hook on a tree that needs a repair, with somebody
    at the keyboard. *)
Lemma hook_mode_never_asks_witness :
  match main Sim.platform HookRun.args HookRun.w with
  | (_, Some s) => prompts (trace s) = 0%nat
  | (_, None) => True
  end.
Proof.
  apply (hook_mode_never_asks Sim.platform HookRun.args HookRun.w).
  reflexivity.
Defined.

Lemma init_exit (P : Platform) path w e :
  init P path w = Raise e ->
  match e with
  | SystemExit code => code = 1
  | _ => True
  end.
Proof.
  unfold init, _load_config, res_bind.
  destruct (load_json P path w) as [v| | |msg]; simpl.
  - destruct (Py.get v "colors" (JObj [])) as [colors|e1] eqn:G1;
      [| intros H; inversion H; subst;
         destruct v; simpl in G1; try discriminate;
         try (inversion G1; exact I);
         destruct (Py.lookup "colors" items); discriminate].
    destruct (Py.get colors "enabled" (JBool true)) as [en|e2] eqn:G2;
      [| intros H; inversion H; subst;
         destruct colors; simpl in G2; try discriminate;
         try (inversion G2; exact I);
         destruct (Py.lookup "enabled" items); discriminate].
    destruct v; simpl in G1; try discriminate.
    simpl. destruct (Py.lookup "strict_mode" items);
      destruct (Py.lookup "auto_fix" items);
      destruct (Py.lookup "interactive" items); discriminate.
  - discriminate.
  - intros H; inversion H; reflexivity.
  - intros H; inversion H; exact I.
Qed.


(** X3.  A run that returns prints the summary exactly once, as its last
    action and for the verdict it returns; a run that ends in an
    exception prints no summary. *)
Theorem summary_once_and_last (P : Platform) (s : St P) :
  exists t,
    trace (snd (run_all_checks P s)) = (trace s ++ t)%list
    /\ match fst (run_all_checks P s) with
       | Ok b => summaries t = 1%nat /\ exists t0, t = (t0 ++ [EvSummary b])%list
       | Raise _ => summaries t = 0%nat
       end.
Proof.
  destruct (run_all_checks P s) as [r s'] eqn:E. simpl.
  destruct (run_all_checks_shape P (self s) s r s' (same_flags_refl _) E)
    as (_ & t & A & S).
  pose proof (turns_have_no_summary _ _ A) as Hn.
  destruct r as [b|e].
  - exists (t ++ [EvSummary b])%list. split; [exact S|]. split.
    + unfold summaries in *. rewrite count_event_app, Hn. reflexivity.
    + exists t. reflexivity.
  - exists t. split; [exact (proj1 S) | exact Hn].
Qed.

Lemma strict_run_keeps_errors (P : Platform) remaining :
  Forall entry_sound remaining ->
  forall all_passed (s : St P) r s',
    Py.truthy (strict_mode (self s)) = true ->
    run_checks P remaining all_passed s = (r, s') ->
    errors (self s') = errors (self s).
Proof.
  induction 1 as [|entry rest He Hrest IH]; intros ap s r s' Hs E; simpl in E.
  - inversion E; subst. reflexivity.
  - destruct (bind_inv _ _ _ _ _ _ E) as [(v & s1 & E1 & E2) | (e' & E1 & ->)];
      destruct (attempt_sound P entry He _ _ _ E1) as [(_ & Herr & Hstrict & _) _].
    + assert (Hs1 : Py.truthy (strict_mode (self s1)) = true)
        by (rewrite Hstrict; exact Hs).
      destruct v as [|msg].
      * rewrite (IH _ _ _ _ Hs1 E2). exact Herr.
      * unfold bind at 1, gets in E2. simpl in E2. rewrite Hs1 in E2.
        inversion E2; subst. exact Herr.
    + exact Herr.
Qed.

(** X4.  In strict mode the run never writes to [errors]: whatever the
    checks do and however the run ends, [errors] is what it was at the
    start (empty, after [__init__]). *)
Theorem strict_mode_never_fills_errors (P : Platform) (s : St P) :
  Py.truthy (strict_mode (self s)) = true ->
  errors (self (snd (run_all_checks P s))) = errors (self s).
Proof.
  intros Hs. destruct (run_all_checks P s) as [r s'] eqn:E. simpl.
  exact (strict_run_keeps_errors P _ (checks_sound P) _ _ _ _ Hs E).
Qed.

(** Witness for X4: the strict run that stops at the Django check. *)
Lemma strict_mode_never_fills_errors_witness :
  errors (self (snd (run_all_checks Sim.platform StrictRun.s))) = [].
Proof.
  apply (strict_mode_never_fills_errors Sim.platform StrictRun.s).
  reflexivity.
Defined.

(** X5.  A run that is neither interactive nor allowed to fix installs,
    reformats and migrates nothing: it asks no question, calls no fixer,
    and none of the commands it runs is [pip install], [black], [isort]
    or [manage.py makemigrations] (without [--check]). *)
Theorem without_consent_nothing_is_corrected (P : Platform) (s : St P) :
  consented (self s) = false ->
  exists t,
    trace (snd (run_all_checks P s)) = (trace s ++ t)%list
    /\ forallb (fun command => negb (mutating command)) (commands t) = true
    /\ fixer_calls t = 0%nat
    /\ prompts t = 0%nat.
Proof.
  intros Hc. destruct (run_all_checks P s) as [r s'] eqn:E. simpl.
  destruct (run_all_checks_shape P (self s) s r s' (same_flags_refl _) E)
    as (_ & t & A & S).
  destruct (turns_without_consent _ _ Hc A) as (H1 & H2 & H3).
  destruct r as [b|e].
  - exists (t ++ [EvSummary b])%list. split; [exact S|].
    unfold fixer_calls, prompts in *.
    rewrite commands_app, forallb_app, !count_event_app, H1, H2, H3.
    repeat split.
  - exists t. split; [exact (proj1 S)|]. repeat split; assumption.
Qed.

(** Witness for X5: an unattended run on a tree that black and
    [makemigrations] could repair. *)
Lemma without_consent_nothing_is_corrected_witness :
  exists t,
    trace (snd (run_all_checks Sim.platform UnattendedRun.s))
    = (trace UnattendedRun.s ++ t)%list
    /\ forallb (fun command => negb (mutating command)) (commands t) = true
    /\ fixer_calls t = 0%nat
    /\ prompts t = 0%nat.
Proof.
  apply (without_consent_nothing_is_corrected Sim.platform UnattendedRun.s).
  reflexivity.
Defined.

(* ===================================================================== *)
(** * Properties of the results *)
(* ===================================================================== *)

Ltac well_formed_leaf :=
  try (split; [reflexivity
             | let H := fresh "H" in
               intros H; first [discriminate H | repeat split]]).

Section Results.

Variable P : Platform.

Hint Resolve confirm_sound check_tool_installed_sound install_tool_sound
  checks_entry_sound entry_field_sound entry_get_sound
  check_dangerous_patterns_sound scan_forbidden_sound check_convention_sound
  staged_files_present_sound : sound.

Lemma check_linter_well_formed : sound (check_linter P) (well_formed "Linter").
Proof. unfold check_linter. sound_script; well_formed_leaf. Qed.

Lemma check_tests_well_formed : sound (check_tests P) (well_formed "Tests").
Proof. unfold check_tests. sound_script; well_formed_leaf. Qed.

Lemma check_django_well_formed : sound (check_django P) (well_formed "Django").
Proof.
  unfold check_django.
  apply sound_bind_any; [sound_script | intro enabled].
  destruct (negb (Py.truthy enabled)); [sound_script; well_formed_leaf |].
  apply sound_bind_any; [sound_script | intros [[returncode stdout] stderr]].
  destruct (negb (returncode =? 0)); [sound_script; well_formed_leaf |].
  apply sound_bind_any; [sound_script | intro check_deploy].
  apply sound_bind with (Q1 := fun d => forall c, d = Some c -> well_formed "Django" c).
  - sound_script; intros c H; inversion H; subst; well_formed_leaf.
  - intros [failure|] Hd.
    + apply sound_ret. exact (Hd failure eq_refl).
    + sound_script; well_formed_leaf.
Qed.

Lemma check_security_well_formed : sound (check_security P) (well_formed "Sécurité").
Proof. unfold check_security. sound_script; well_formed_leaf. Qed.

Lemma check_files_well_formed : sound (check_files P) (well_formed "Fichiers").
Proof. unfold check_files. sound_script; well_formed_leaf. Qed.

Lemma check_git_well_formed : sound (check_git P) (well_formed "Git").
Proof. unfold check_git. sound_script; well_formed_leaf. Qed.

End Results.

(** X6.  Every result a check of the table returns carries the name under
    which the check is registered, and a result that passes is bare: no
    detail line, no correction offered, no fix command. *)
Theorem results_name_their_check (P : Platform) n chk fx (s : St P) r s' :
  In (n, chk, fx) (checks P) ->
  chk s = (Ok r, s') ->
  name r = n
  /\ (passed r = true -> can_fix r = false /\ fix_command r = "" /\ details r = []).
Proof.
  intros Hin E. simpl in Hin.
  destruct Hin as [H|[H|[H|[H|[H|[H|[]]]]]]]; inversion H; subst; clear H.
  - exact (proj2 (check_linter_well_formed P _ _ _ E)).
  - exact (proj2 (check_tests_well_formed P _ _ _ E)).
  - exact (proj2 (check_django_well_formed P _ _ _ E)).
  - exact (proj2 (check_security_well_formed P _ _ _ E)).
  - exact (proj2 (check_files_well_formed P _ _ _ E)).
  - exact (proj2 (check_git_well_formed P _ _ _ E)).
Qed.

(** Witness for X6: the repaired linter, second evaluation. *)
Lemma results_name_their_check_witness :
  name (result "Linter" true "Aucune erreur détectée") = "Linter"
  /\ (passed (result "Linter" true "Aucune erreur détectée") = true ->
      can_fix (result "Linter" true "Aucune erreur détectée") = false
      /\ fix_command (result "Linter" true "Aucune erreur détectée") = ""
      /\ details (result "Linter" true "Aucune erreur détectée") = []).
Proof.
  apply (results_name_their_check Sim.platform "Linter"
           (check_linter Sim.platform) (Some (fix_linter Sim.platform))
           (logged (EvCheck "Linter") RepairRun.s3) _ RepairRun.s4).
  - simpl. left. reflexivity.
  - vm_compute. reflexivity.
Defined.

(** One step through a script, with a caller-supplied tactic for the
    values returned. *)
Ltac sound_step_with leaf :=
  cbv beta zeta;
  lazymatch goal with
  | |- sound (bind _ _) _ => apply sound_bind_any; [ | intro ]
  | |- sound (ret _) _ => apply sound_ret; leaf
  | |- sound (raise _) _ => apply sound_raise; reflexivity
  | |- sound (lift _) _ => apply sound_lift; auto with sound
  | |- sound (modify _) _ => apply sound_modify; auto with sound
  | |- sound (if ?b then _ else _) _ => destruct b
  | |- sound (match ?x with _ => _ end) _ => destruct x
  | |- sound _ _ => solve [auto with sound]
  end.

Ltac bound_leaf :=
  try exact I;
  unfold result, result_d; cbn [details length];
  try match goal with
      | |- context [firstn ?n ?l] => pose proof (firstn_le_length n l)
      end;
  try lia.

Ltac bound_script := repeat (sound_step_with bound_leaf).

Section Bounds.

Variable P : Platform.

Hint Resolve confirm_sound check_tool_installed_sound install_tool_sound
  checks_entry_sound entry_field_sound entry_get_sound
  scan_forbidden_sound check_convention_sound
  staged_files_present_sound : sound.

Lemma check_linter_bound :
  sound (check_linter P) (fun r => (length (details r) <= 7)%nat).
Proof. unfold check_linter. bound_script. Qed.

Lemma check_tests_bound :
  sound (check_tests P) (fun r => (length (details r) <= 10)%nat).
Proof. unfold check_tests. bound_script. Qed.

Lemma check_django_bound :
  sound (check_django P) (fun r => (length (details r) <= 5)%nat).
Proof.
  unfold check_django.
  apply sound_bind_any; [bound_script | intro enabled].
  destruct (negb (Py.truthy enabled)); [bound_script |].
  apply sound_bind_any; [bound_script | intros [[returncode stdout] stderr]].
  destruct (negb (returncode =? 0)); [bound_script |].
  apply sound_bind_any; [bound_script | intro check_deploy].
  apply sound_bind
    with (Q1 := fun d => match d with
                         | Some c => (length (details c) <= 5)%nat
                         | None => True
                         end).
  - repeat (sound_step_with ltac:(try exact I; cbv beta iota; bound_leaf)).
  - intros [failure|] Hd.
    + apply sound_ret. exact Hd.
    + bound_script.
Qed.

Lemma check_git_bound :
  sound (check_git P) (fun r => (length (details r) <= 1)%nat).
Proof. unfold check_git. bound_script. Qed.

(** ** The security check *)

Lemma safety_lines_length vs d :
  safety_lines P vs = Some d -> length d = length vs.
Proof.
  revert d. induction vs as [|v vs IH]; simpl; intros d H.
  - inversion H. reflexivity.
  - destruct (safety_line P v); [| discriminate].
    destruct (safety_lines P vs) as [xs|]; [| discriminate].
    inversion H; subst. simpl. f_equal. apply IH. reflexivity.
Qed.

Lemma safety_details_bound stdout :
  (length (safety_details P stdout) <= 5)%nat.
Proof.
  unfold safety_details. destruct (PyStr.nonempty stdout); [| simpl; lia].
  destruct (json_loads P stdout) as [v|]; [| simpl; lia].
  destruct v; try (simpl; lia).
  - destruct (PyStr.take 5 s); simpl; lia.
  - destruct (safety_lines P (firstn 5 l)) as [d|] eqn:E; [| simpl; lia].
    rewrite (safety_lines_length _ _ E). apply firstn_le_length.
Qed.

Lemma dangerous_patterns_bound :
  sound (_check_dangerous_patterns P) (fun l => (length l <= 10)%nat).
Proof.
  intros s r s' E. unfold _check_dangerous_patterns, observe in E.
  assert (Hs : s' = s) by congruence.
  assert (Hr : r = Ok (firstn 10 (flat_map (scan_file P (world s))
                                           (rglob_py P (world s)))))
    by congruence.
  subst. split; [apply same_policy_refl | apply firstn_le_length].
Qed.

Lemma total_weight_app a b :
  total_weight (a ++ b) = (total_weight a + total_weight b)%nat.
Proof. unfold total_weight. now rewrite map_app, list_sum_app. Qed.

Lemma failed_details_length l :
  length (failed_details l) = total_weight l.
Proof.
  unfold failed_details, total_weight.
  induction l as [|r l IH]; [reflexivity|].
  cbn [flat_map map list_sum]. rewrite length_app, IH.
  unfold scan_weight. reflexivity.
Qed.

Lemma total_weight_filter f l :
  (total_weight (filter f l) <= total_weight l)%nat.
Proof.
  unfold total_weight. induction l as [|r l IH]; simpl; [lia|].
  destruct (f r); simpl; lia.
Qed.

Ltac weight_leaf k :=
  try exact I;
  rewrite ?total_weight_app; unfold total_weight, scan_weight in *;
  simpl;
  try match goal with
      | |- context [safety_details P ?out] =>
          pose proof (safety_details_bound out)
      end;
  try lia.

Lemma check_security_bound :
  sound (check_security P) (fun r => (length (details r) <= 20)%nat).
Proof.
  unfold check_security.
  apply sound_bind_any; [bound_script | intro enabled].
  destruct (negb (Py.truthy enabled)); [bound_script |].
  cbv zeta.
  apply sound_bind_any; [bound_script | intro tools].
  apply sound_bind_any; [bound_script | intro use_bandit].
  apply sound_bind with (Q1 := fun results => (total_weight results <= 1)%nat).
  { repeat (sound_step_with ltac:(weight_leaf 1)). }
  intros results1 H1.
  apply sound_bind_any; [bound_script | intro tools2].
  apply sound_bind_any; [bound_script | intro use_safety].
  apply sound_bind with (Q1 := fun results => (total_weight results <= 7)%nat).
  { repeat (sound_step_with ltac:(weight_leaf 7)). }
  intros results2 H2.
  apply sound_bind_any; [bound_script | intro check_secrets].
  apply sound_bind with (Q1 := fun results => (total_weight results <= 9)%nat).
  { repeat (sound_step_with ltac:(weight_leaf 9)). }
  intros results3 H3.
  eapply sound_bind; [apply dangerous_patterns_bound | intros patterns Hp].
  cbv beta zeta.
  assert (W : forall results,
             (total_weight results <= 20)%nat ->
             sound (P := P)
               match filter (fun r => negb (sub_ok r)) results with
               | [] => ret (result "Sécurité" true "Aucun problème de sécurité détecté")
               | _ :: _ =>
                   ret (result_d "Sécurité" false "Problèmes de sécurité détectés"
                          (failed_details
                             (filter (fun r => negb (sub_ok r)) results)))
               end
               (fun r => (length (details r) <= 20)%nat)).
  { intros results Hw.
    pose proof (total_weight_filter (fun r => negb (sub_ok r)) results) as Hf.
    destruct (filter (fun r => negb (sub_ok r)) results) as [|x l] eqn:Ef.
    - apply sound_ret. simpl. lia.
    - apply sound_ret. unfold result_d. cbn [details].
      rewrite failed_details_length. lia. }
  destruct patterns as [|p ps]; apply W; rewrite total_weight_app;
    unfold total_weight, scan_weight in *; simpl in *; lia.
Qed.

End Bounds.



(* ===================================================================== *)
(** * Properties of the linter fixer *)
(* ===================================================================== *)

(** X8.  One formatter is enough: when black is found and exits with
    status 0, [fix_linter] does not report failure, whatever happens with
    isort afterwards (absent, failing, timing out). *)
Theorem one_formatter_is_enough (P : Platform) (s s1 s2 : St P) out err :
  check_tool_installed P "black" s = (Ok true, s1) ->
  _run_command P black_command 60 s1 = (Ok (0, out, err), s2) ->
  fst (fix_linter P s) <> Ok false.
Proof.
  intros Hb Hr. unfold fix_linter. cbv zeta.
  rewrite (bind_ok _ _ _ _ _ _ Hb). cbv beta iota.
  fold black_command.
  assert (B : (' (returncode, _, _) <- _run_command P black_command 60 ;;
               (if returncode =? 0 then ret true else ret false)) s1
              = (Ok true, s2)).
  { rewrite (bind_ok _ _ _ _ _ _ Hr). reflexivity. }
  rewrite (bind_ok _ _ _ _ _ _ B). cbv beta.
  unfold bind at 1.
  destruct (check_tool_installed P "isort" s2) as [[[|]|e] s3]; simpl;
    try discriminate.
  - unfold bind at 1. unfold bind at 1.
    destruct (_run_command P _ 60 s3) as [[[[rc o] e]|e] s4]; simpl;
      try discriminate.
    destruct (rc =? 0); simpl; discriminate.
Qed.

(** Witness for X8: black succeeds and isort fails. *)
Lemma one_formatter_is_enough_witness :
  fst (fix_linter Sim.platform FormatRun.s) <> Ok false.
Proof.
  apply (one_formatter_is_enough Sim.platform FormatRun.s FormatRun.s1
           FormatRun.s2 "" "").
  - vm_compute. reflexivity.
  - vm_compute. reflexivity.
Defined.

(* ===================================================================== *)
(** * A run on the built-in configuration *)
(* ===================================================================== *)

Section Defaults.

Variable P : Platform.

(** the built-in configuration enables the linter and gives it no
    [exclude] list: the check fails for want of flake8 or stops at the
    missing key *)
Lemma default_linter_never_passes (s : St P) r s' :
  config (self s) = _default_config ->
  check_linter P s = (Ok r, s') -> passed r = false /\ can_fix r = false.
Proof.
  intros Hc. unfold check_linter. unfold bind at 1.
  rewrite entry_field_pure, Hc.
  replace (cfg_field _default_config "linter" "enabled") with (Ok (JBool true))
    by reflexivity.
  cbn [Py.truthy negb]. intros E.
  destruct (bind_inv _ _ _ _ _ _ E) as [(inst & s1 & E1 & E2) | (e & _ & Habs)];
    [| discriminate].
  destruct (check_tool_installed_sound P "flake8" _ _ _ E1) as [(C1 & _) _].
  destruct (bind_inv _ _ _ _ _ _ E2) as [(got & s2 & E3 & E4) | (e & _ & Habs)];
    [| discriminate].
  assert (C2 : config (self s2) = config (self s1)).
  { destruct inst; simpl in E3.
    - inversion E3; reflexivity.
    - destruct (install_tool_sound P "flake8" _ _ _ E3) as [(C & _) _]. exact C. }
  destruct got; cbn [negb] in E4.
  - exfalso. unfold bind at 1 in E4. rewrite entry_field_pure in E4.
    rewrite C2, C1, Hc in E4.
    replace (cfg_field _default_config "linter" "exclude")
      with (@Raise json (KeyError "exclude")) in E4 by reflexivity.
    discriminate.
  - inversion E4; subst. split; reflexivity.
Qed.

Lemma default_linter_turn (s : St P) v s' :
  config (self s) = _default_config ->
  attempt P ("Linter", check_linter P, Some (fix_linter P)) s = (Ok v, s') ->
  exists msg, v = Failed msg.
Proof.
  intros Hc E. unfold attempt in E.
  unfold bind at 1, log in E. cbv beta iota in E.
  destruct (bind_inv _ _ _ _ _ _ E) as [(r & s1 & E1 & E2) | (e & _ & Habs)];
    [| discriminate].
  destruct ((fun H => default_linter_never_passes _ _ _ H E1) Hc) as [Hp Hf].
  rewrite Hp in E2. unfold bind at 1, gets in E2. cbv beta iota in E2.
  rewrite Hf in E2. cbn [andb] in E2. inversion E2. eauto.
Qed.

Lemma apply_args_keeps args c :
  config (apply_args args c) = config c
  /\ strict_mode (apply_args args c) = strict_mode c.
Proof.
  unfold apply_args.
  destruct (arg_fix args), (arg_yes args || arg_from_hook args); split; reflexivity.
Qed.

Lemma default_run rest (s : St P) r s' :
  config (self s) = _default_config ->
  strict_mode (self s) = JBool true ->
  run_checks P (("Linter", check_linter P, Some (fix_linter P)) :: rest) true s
  = (r, s') ->
  exit_status r <> 0.
Proof.
  intros Kc Ks E. cbn [run_checks] in E.
  assert (D : entry_disciplined (self s)
                ("Linter", check_linter P, Some (fix_linter P))).
  { pose proof (checks_disciplined P (self s)) as H.
    inversion H; assumption. }
  destruct (bind_inv _ _ _ _ _ _ E) as [(v & s1 & E1 & E2) | (e & E1 & ->)].
  - destruct (attempt_disc P _ _ D s _ _ (same_flags_refl _) E1)
      as ((_ & F & _) & _).
    destruct (default_linter_turn _ _ _ Kc E1) as [msg ->].
    unfold bind at 1, gets in E2. cbv beta iota in E2.
    rewrite F, Ks in E2. simpl in E2.
    inversion E2; subst. simpl. discriminate.
  - destruct (attempt_disc P _ _ D s _ _ (same_flags_refl _) E1) as (_ & _ & R).
    destruct e; simpl in R; try discriminate; simpl; discriminate.
Qed.

End Defaults.



(* ===================================================================== *)
(** * The files, git and pattern checks *)
(* ===================================================================== *)

Lemma contains_app_r sub a b :
  PyStr.contains sub b = true -> PyStr.contains sub (a ++ b) = true.
Proof.
  intros H. induction a as [|c a IH]; [exact H|].
  change (String c a ++ b) with (String c (a ++ b)).
  cbn [PyStr.contains]. rewrite IH. apply orb_true_r.
Qed.

Lemma existsb_false_forallb {A} (f : A -> bool) l :
  existsb f l = false -> forallb (fun x => negb (f x)) l = true.
Proof.
  induction l as [|x l IH]; simpl; [reflexivity|].
  intros H. apply orb_false_iff in H. destruct H as [-> H]. simpl. auto.
Qed.

Section Scans.

Variable P : Platform.

(** the accumulator of the loop only grows *)
Lemma scan_forbidden_acc files : forall found (s : St P),
  scan_forbidden P files found s
  = (match fst (scan_forbidden P files [] s) with
     | Ok l => Ok (found ++ l)%list
     | Raise e => Raise e
     end, snd (scan_forbidden P files [] s)).
Proof.
  induction files as [|v rest IH]; intros found s.
  - simpl. unfold ret. simpl. rewrite app_nil_r. reflexivity.
  - destruct v; try reflexivity.
    cbn [scan_forbidden List.app]. unfold bind at 1 3 5, observe. cbv beta iota.
    destruct (path_exists P s0 (world s)).
    + unfold bind.
      destruct (_run_command P _ 60 _) as [[[[rc o] e]|e] s1]; [|reflexivity].
      destruct (rc =? 0).
      * rewrite (IH (found ++ _)%list), (IH [_]). simpl.
        destruct (fst (scan_forbidden P rest [] s1)); [|reflexivity].
        rewrite <- app_assoc. reflexivity.
      * rewrite (IH (found ++ _)%list), (IH [_]). simpl.
        destruct (fst (scan_forbidden P rest [] s1)); [|reflexivity].
        rewrite <- app_assoc. reflexivity.
    + apply IH.
Qed.

(** the loop over a concatenation is the loop over its parts *)
Lemma scan_forbidden_app pre rest : forall found (s : St P),
  scan_forbidden P (pre ++ rest) found s
  = bind (scan_forbidden P pre found) (scan_forbidden P rest) s.
Proof.
  induction pre as [|v pre IH]; intros found s.
  - reflexivity.
  - destruct v; try reflexivity.
    change ((JStr s0 :: pre) ++ rest)%list with (JStr s0 :: (pre ++ rest))%list.
    cbn [scan_forbidden]. unfold bind, observe.
    destruct (path_exists P s0 (world s)).
    + destruct (_run_command P _ 60 _) as [[[[rc o] e]|e] s1]; [|reflexivity].
      destruct (rc =? 0); apply IH.
    + apply IH.
Qed.

(** a forbidden file that exists and that git tracks ends up in the
    list, under its "DANGER" label *)
Lemma tracked_file_is_found pre f rest (s s1 s2 s' : St P) l0 out err found :
  scan_forbidden P pre [] s = (Ok l0, s1) ->
  path_exists P f (world s1) = true ->
  _run_command P (ls_files f) 60 s1 = (Ok (0, out, err), s2) ->
  scan_forbidden P (pre ++ JStr f :: rest) [] s = (Ok found, s') ->
  In (tracked_label f) found.
Proof.
  intros Hpre Hex Hrun E.
  rewrite scan_forbidden_app in E. rewrite (bind_ok _ _ _ _ _ _ Hpre) in E.
  cbn [scan_forbidden] in E. unfold bind at 1, observe in E. cbv beta iota in E.
  rewrite Hex in E. fold (ls_files f) in E.
  rewrite (bind_ok _ _ _ _ _ _ Hrun) in E. cbv beta iota in E.
  change (0 =? 0) with true in E. cbv iota in E.
  rewrite scan_forbidden_acc in E.
  destruct (fst (scan_forbidden P rest [] s2)) as [l|e]; [|discriminate].
  inversion E; subst. apply in_or_app. left. apply in_or_app. right.
  left. reflexivity.
Qed.

End Scans.

(** X10.  When the staged-files test is on and [git diff --cached
    --name-only] prints nothing but blanks, the git check fails with
    "Aucun fichier staged", whatever the exit status of the command (a
    failure of git itself included), and does nothing more: [git log] is
    not run and no warning is recorded. *)
Theorem blank_diff_is_nothing_staged
        (P : Platform) (s s1 : St P) enabled check_staged rc out err :
  cfg_field (config (self s)) "git" "enabled" = Ok enabled ->
  Py.truthy enabled = true ->
  cfg_get (config (self s)) "git" "check_staged_files" (JBool true)
  = Ok check_staged ->
  Py.truthy check_staged = true ->
  _run_command P git_diff 60 s = (Ok (rc, out, err), s1) ->
  PyStr.strip out = "" ->
  check_git P s = (Ok nothing_staged, s1)
  /\ self s1 = self s
  /\ trace s1 = (trace s ++ [EvRun git_diff 60])%list.
Proof.
  intros He Ht Hc Hct Hrun Hblank.
  assert (Hst : staged_files_present P s = (Ok false, s1)).
  { unfold staged_files_present. unfold bind at 1.
    rewrite entry_get_pure, Hc, Hct. fold git_diff.
    rewrite (bind_ok _ _ _ _ _ _ Hrun). rewrite Hblank.
    destruct (PyStr.nonempty out); reflexivity. }
  split; [| split].
  - unfold check_git. unfold bind at 1. rewrite entry_field_pure, He, Ht.
    cbn [negb]. rewrite (bind_ok _ _ _ _ _ _ Hst). reflexivity.
  - exact (run_command_self P _ _ _ _ _ Hrun).
  - assert (Hs : Py.all_str git_diff
                 = Some ["git"; "diff"; "--cached"; "--name-only"])
      by reflexivity.
    rewrite (run_command_spawned P _ _ _ _ Hs) in Hrun.
    destruct (spawn P _ 60 (world s)) as [o w].
    destruct (outcome_triple 60 o); inversion Hrun; reflexivity.
Qed.

(** Witness for X10: outside a git repository [git diff] exits with 128
    and an empty standard output. *)
Lemma blank_diff_is_nothing_staged_witness :
  check_git Sim.platform OutsideRepositoryRun.s
  = (Ok nothing_staged, OutsideRepositoryRun.s1)
  /\ self OutsideRepositoryRun.s1 = self OutsideRepositoryRun.s
  /\ trace OutsideRepositoryRun.s1
     = (trace OutsideRepositoryRun.s ++ [EvRun git_diff 60])%list.
Proof.
  apply (blank_diff_is_nothing_staged Sim.platform OutsideRepositoryRun.s
           OutsideRepositoryRun.s1 (JBool true) (JBool true) 128 ""
           "fatal: not a git repository").
  - reflexivity.
  - reflexivity.
  - reflexivity.
  - reflexivity.
  - vm_compute. reflexivity.
  - reflexivity.
Defined.

(** X11.  A forbidden file that exists and that git tracks makes the
    files check fail with "Fichiers sensibles commités!" and appear in
    the details, wherever it stands in the list and whatever the state of
    the other files. *)
Theorem tracked_file_blocks
        (P : Platform) (s s1 s2 s' : St P) enabled pre f rest l0 out err r :
  cfg_field (config (self s)) "files" "enabled" = Ok enabled ->
  Py.truthy enabled = true ->
  cfg_field (config (self s)) "files" "forbidden_files"
  = Ok (JArr (pre ++ JStr f :: rest)) ->
  scan_forbidden P pre [] s = (Ok l0, s1) ->
  path_exists P f (world s1) = true ->
  _run_command P (ls_files f) 60 s1 = (Ok (0, out, err), s2) ->
  check_files P s = (Ok r, s') ->
  passed r = false
  /\ message r = "Fichiers sensibles commités!"
  /\ In (tracked_label f) (details r).
Proof.
  intros He Ht Hf Hpre Hex Hrun E.
  unfold check_files in E. unfold bind at 1 in E.
  rewrite entry_field_pure, He, Ht in E. cbn [negb] in E.
  unfold bind at 1 in E. rewrite entry_field_pure, Hf in E.
  unfold bind at 1, lift in E. cbn [Py.iter] in E.
  destruct (bind_inv _ _ _ _ _ _ E) as [(found & s3 & E1 & E2) | (e & _ & Habs)];
    [| discriminate].
  pose proof (tracked_file_is_found P _ _ _ _ _ _ _ _ _ _ _ Hpre Hex Hrun E1)
    as Hin.
  assert (Hd : In (tracked_label f) (filter (PyStr.contains "DANGER") found)).
  { apply filter_In. split; [exact Hin|].
    unfold tracked_label. apply contains_app_r. reflexivity. }
  destruct (filter (PyStr.contains "DANGER") found) as [|x l] eqn:F;
    [destruct Hd|].
  inversion E2; subst. simpl. repeat split. exact Hd.
Qed.

(** Witness for X11: [.env] is present and untracked, [db.sqlite3] is
    present and tracked. *)
Lemma tracked_file_blocks_witness :
  passed (result_d "Fichiers" false "Fichiers sensibles commités!"
                   [tracked_label "db.sqlite3"]) = false
  /\ message (result_d "Fichiers" false "Fichiers sensibles commités!"
                       [tracked_label "db.sqlite3"])
     = "Fichiers sensibles commités!"
  /\ In (tracked_label "db.sqlite3")
        (details (result_d "Fichiers" false "Fichiers sensibles commités!"
                           [tracked_label "db.sqlite3"])).
Proof.
  apply (tracked_file_blocks Sim.platform TrackedRun.s TrackedRun.s1
           TrackedRun.s2 TrackedRun.s2 (JBool true) [JStr ".env"] "db.sqlite3"
           [] [".env (non suivi - OK)"] "db.sqlite3" "").
  - reflexivity.
  - reflexivity.
  - reflexivity.
  - vm_compute. reflexivity.
  - reflexivity.
  - vm_compute. reflexivity.
  - vm_compute. reflexivity.
Defined.



(** X13.  The scan for dangerous patterns always returns: it launches no
    command, leaves the state as it is, reports at most ten lines, and
    every line is [file: description] for a Python file of the tree
    whose path contains none of the excluded names, that could be read
    and in which the pattern of the description was found. *)
Theorem dangerous_patterns_report (P : Platform) (s : St P) :
  exists lines,
    _check_dangerous_patterns P s = (Ok lines, s)
    /\ (length lines <= 10)%nat
    /\ forall line, In line lines ->
         exists file pattern description content,
           line = file ++ ": " ++ description
           /\ In file (rglob_py P (world s))
           /\ forallb (fun excluded => negb (PyStr.contains excluded file))
                      exclude_dirs = true
           /\ read_text P file (world s) = Some content
           /\ In (pattern, description) dangerous
           /\ re_search_i P pattern content = true.
Proof.
  eexists. split; [reflexivity|]. split; [apply firstn_le_length|].
  intros line Hin.
  assert (Hall : In line (flat_map (scan_file P (world s)) (rglob_py P (world s)))).
  { rewrite <- (firstn_skipn 10). apply in_or_app. left. exact Hin. }
  apply in_flat_map in Hall. destruct Hall as (file & Hf & Hl).
  unfold scan_file in Hl.
  destruct (existsb _ exclude_dirs) eqn:Hex; [destruct Hl|].
  destruct (read_text P file (world s)) as [content|] eqn:Hr; [|destruct Hl].
  apply in_map_iff in Hl. destruct Hl as ([pattern description] & <- & Hd).
  apply filter_In in Hd. destruct Hd as [Hd Hs].
  exists file, pattern, description, content.
  repeat split; try assumption.
  apply existsb_false_forallb. exact Hex.
Qed.

(* ===================================================================== *)
(** * The report of the tests check *)
(* ===================================================================== *)

Lemma failure_lines_spec lines d :
  In d (failure_lines lines) -> failure_line lines d.
Proof.
  induction lines as [|line rest IH]; simpl; [intros []|].
  intros H. apply in_app_or in H. destruct H as [H|H].
  - fold (opens_failure line) in H.
    destruct (opens_failure line) eqn:Ho; [|destruct H].
    destruct H as [<-|H].
    + exists [], line, rest. repeat split; auto.
    + destruct rest as [|next rest']; [destruct H|].
      destruct H as [<-|[]].
      exists [], line, (next :: rest'). repeat split; eauto.
  - destruct (IH H) as (before & opening & after & -> & Ho & Hd).
    exists (line :: before), opening, after. repeat split; auto.
Qed.

(** X14.  When the test command ends with a status other than 0, the
    tests check fails after that single command, and its details are at
    most ten lines of the standard output, each one a line that starts
    with "FAIL:" or "ERROR:" or the line that follows such a line. *)
Theorem test_details_are_failure_lines
        (P : Platform) (s s1 : St P) enabled test_module rc out err :
  cfg_field (config (self s)) "tests" "enabled" = Ok enabled ->
  Py.truthy enabled = true ->
  cfg_get (config (self s)) "tests" "test_module" (JStr "") = Ok test_module ->
  _run_command P (tests_command test_module) 120 s = (Ok (rc, out, err), s1) ->
  rc <> 0 ->
  exists r,
    check_tests P s = (Ok r, s1)
    /\ passed r = false /\ message r = "Certains tests ont échoué"
    /\ (length (details r) <= 10)%nat
    /\ forall d, In d (details r) -> failure_line (PyStr.split_nl out) d.
Proof.
  intros He Ht Hm Hrun Hrc.
  unfold check_tests. unfold bind at 1. rewrite entry_field_pure, He, Ht.
  cbn [negb]. unfold bind at 1. rewrite entry_get_pure, Hm.
  cbv zeta. fold (tests_command test_module).
  rewrite (bind_ok _ _ _ _ _ _ Hrun).
  apply Z.eqb_neq in Hrc. rewrite Hrc.
  eexists. split; [reflexivity|]. cbn [passed message details result_d].
  split; [reflexivity|]. split; [reflexivity|].
  split; [apply firstn_le_length|].
  intros d Hd.
  assert (Hall : In d (if PyStr.contains "FAIL" out || PyStr.contains "ERROR" out
                       then failure_lines (PyStr.split_nl out) else [])).
  { rewrite <- (firstn_skipn 10). apply in_or_app. left. exact Hd. }
  destruct (PyStr.contains "FAIL" out || PyStr.contains "ERROR" out);
    [| destruct Hall].
  apply failure_lines_spec. exact Hall.
Qed.

(** Witness for X14: one failing test out of two. *)
Lemma test_details_are_failure_lines_witness :
  exists r,
    check_tests Sim.platform FailingTestsRun.s = (Ok r, FailingTestsRun.s1)
    /\ passed r = false /\ message r = "Certains tests ont échoué"
    /\ (length (details r) <= 10)%nat
    /\ forall d, In d (details r) ->
                 failure_line (PyStr.split_nl FailingTestsRun.report) d.
Proof.
  apply (test_details_are_failure_lines Sim.platform FailingTestsRun.s
           FailingTestsRun.s1 (JBool true) (JStr "app") 1
           FailingTestsRun.report "").
  - reflexivity.
  - reflexivity.
  - reflexivity.
  - vm_compute. reflexivity.
  - discriminate.
Defined.

(* ===================================================================== *)
(** * What a passing check has done *)
(* ===================================================================== *)

Lemma flat_map_nil {A B} (f : A -> list B) l x :
  flat_map f l = [] -> In x l -> f x = [].
Proof.
  induction l as [|y l IH]; simpl; [intros _ []|].
  intros H. apply app_eq_nil in H. destruct H as [Hy Hl].
  intros [<-|Hin]; auto.
Qed.

Lemma firstn_10_nil {A} (l : list A) : firstn 10 l = [] -> l = [].
Proof. destruct l; [reflexivity | discriminate]. Qed.

Ltac next_step E v s1 E1 E2 :=
  let e := fresh "e" in
  let Habs := fresh "Habs" in
  destruct (bind_inv _ _ _ _ _ _ E) as [(v & s1 & E1 & E2) | (e & _ & Habs)];
  [clear E | discriminate].



Lemma run_command_trace (P : Platform) command timeout (s : St P) r s' :
  _run_command P command timeout s = (r, s') ->
  trace s' = (trace s ++ [EvRun command timeout])%list.
Proof.
  destruct (Py.all_str command) as [args|] eqn:H.
  - rewrite (run_command_spawned P _ _ _ _ H).
    destruct (spawn P args timeout (world s)) as [o w].
    destruct (outcome_triple timeout o); intros E; inversion E; reflexivity.
  - destruct (run_command_refused P _ timeout s H) as [msg ->].
    intros E; inversion E; reflexivity.
Qed.

(** what a disciplined script does to the trace, whatever the flags *)
Lemma trace_grows (P : Platform) {A} (m : M P A) allow (s : St P) r s' :
  disciplined (self s) allow m (fun _ => True) ->
  m s = (r, s') -> exists t, trace s' = (trace s ++ t)%list.
Proof.
  intros D E. destruct (D s r s' (same_flags_refl _) E) as (_ & (t & T & _) & _).
  eauto.
Qed.

Section Tools.

Variable P : Platform.

#[local] Hint Resolve check_tool_installed_disc install_tool_disc
  entry_field_disc entry_get_disc : disc.

Lemma linter_pass_ran_flake8 (s : St P) enabled r s' :
  cfg_field (config (self s)) "linter" "enabled" = Ok enabled ->
  Py.truthy enabled = true ->
  check_linter P s = (Ok r, s') -> passed r = true ->
  exists t, trace s' = (trace s ++ t)%list /\ launched ["flake8"; "."] t.
Proof.
  intros He Ht E Hp. unfold check_linter in E. unfold bind at 1 in E.
  rewrite entry_field_pure, He, Ht in E. cbn [negb] in E.
  next_step E installed s1 E1 E2.
  destruct (trace_grows P _ _ _ _ _ (check_tool_installed_disc P (self s) "flake8") E1)
    as [t1 T1].
  next_step E2 got s2 E3 E4.
  assert (T2 : exists t2, trace s2 = (trace s1 ++ t2)%list).
  { destruct installed; cbn [negb] in E3.
    - inversion E3; subst. exists []. now rewrite app_nil_r.
    - exact (trace_grows P _ _ _ _ _ (install_tool_disc P (self s1) "flake8") E3). }
  destruct T2 as [t2 T2].
  destruct got; cbn [negb] in E4; [| inversion E4; subst; discriminate].
  next_step E4 exclude_v s3 E5 E6.
  rewrite entry_field_pure in E5. inversion E5; subst s3. clear E5.
  next_step E6 exclude s3 E5 E7.
  unfold lift in E5. inversion E5; subst s3. clear E5.
  next_step E7 max_line_length s3 E5 E8.
  rewrite entry_field_pure in E5. inversion E5; subst s3. clear E5.
  next_step E8 triple s3 E5 E9.
  destruct triple as [[rc out] err].
  pose proof (run_command_trace P _ _ _ _ _ E5) as T3.
  destruct (rc =? 0).
  - inversion E9; subst. eexists. split.
    + rewrite T3, T2, T1, <- !app_assoc. reflexivity.
    + eexists _, _. split.
      * apply in_or_app. right. apply in_or_app. right. left. reflexivity.
      * reflexivity.
  - exfalso. cbv zeta in E9.
    next_step E9 black s4 E10 E11.
    destruct black; inversion E11; subst; discriminate.
Qed.

Lemma tests_ran_the_suite (s : St P) enabled r s' :
  cfg_field (config (self s)) "tests" "enabled" = Ok enabled ->
  Py.truthy enabled = true ->
  check_tests P s = (Ok r, s') ->
  exists t, trace s' = (trace s ++ t)%list
            /\ launched ["python"; "manage.py"; "test"] t.
Proof.
  intros He Ht E. unfold check_tests in E. unfold bind at 1 in E.
  rewrite entry_field_pure, He, Ht in E. cbn [negb] in E.
  next_step E test_module s1 E1 E2.
  rewrite entry_get_pure in E1. inversion E1; subst s1. clear E1.
  cbv zeta in E2. fold (tests_command test_module) in E2.
  next_step E2 triple s1 E1 E3. destruct triple as [[rc out] err].
  pose proof (run_command_trace P _ _ _ _ _ E1) as T.
  assert (Hs : s' = s1) by (destruct (rc =? 0); inversion E3; reflexivity).
  subst s'. eexists. split; [exact T|].
  eexists _, _. split; [left; reflexivity|].
  unfold tests_command. destruct (Py.truthy test_module); reflexivity.
Qed.

Lemma django_ran_the_check (s : St P) enabled r s' :
  cfg_field (config (self s)) "django" "enabled" = Ok enabled ->
  Py.truthy enabled = true ->
  check_django P s = (Ok r, s') ->
  exists t, trace s' = (trace s ++ t)%list
            /\ launched ["python"; "manage.py"; "check"] t.
Proof.
  intros He Ht E. unfold check_django in E. unfold bind at 1 in E.
  rewrite entry_field_pure, He, Ht in E. cbn [negb] in E.
  next_step E triple s1 E1 E2. destruct triple as [[returncode stdout] stderr].
  pose proof (run_command_trace P _ _ _ _ _ E1) as T.
  assert (G : exists t2, trace s' = (trace s1 ++ t2)%list).
  { match type of E2 with
    | ?m _ = _ =>
        assert (D : disciplined (self s1) (permitted (self s1)) m (fun _ => True))
    end.
    { clear E2. destruct (negb (returncode =? 0)); [disc_script |].
      apply disc_bind_any; [disc_script | intro check_deploy].
      apply disc_bind_any; [disc_script | intros [failure|]]; [disc_script |].
      apply disc_bind_any; [disc_script | intro check_migrations].
      destruct (Py.truthy check_migrations); [| disc_script].
      apply disc_bind_any; [disc_script | intros [[rc out] err]].
      cbv beta zeta. destruct (negb (rc =? 0)); [| disc_script].
      apply disc_bind_any; [disc_script | intro auto_migrate].
      destruct (Py.truthy auto_migrate); [| disc_script].
      eapply disc_bind; [apply confirm_disc | intros [|] Hok]; [| disc_script].
      apply disc_bind_any; [| intros [[rc2 out2] err2]; disc_script].
      apply run_command_disc. simpl. rewrite (Hok eq_refl). reflexivity. }
    exact (trace_grows P _ _ _ _ _ D E2). }
  destruct G as [t2 T2]. eexists. split.
  - rewrite T2, T, <- app_assoc. reflexivity.
  - eexists _, _. split; [left; reflexivity | reflexivity].
Qed.

End Tools.

(** X16.  No pass without the tool: when the linter, the tests or the
    Django check is enabled and returns a passing result, the command of
    its tool ([flake8 .], [python manage.py test], [python manage.py
    check]) was launched during the check. *)
Theorem no_pass_without_the_tool
        (P : Platform) key chk words (s : St P) enabled r s' :
  In (key, chk, words) (tool_of_check P) ->
  cfg_field (config (self s)) key "enabled" = Ok enabled ->
  Py.truthy enabled = true ->
  chk s = (Ok r, s') ->
  passed r = true ->
  exists t, trace s' = (trace s ++ t)%list /\ launched words t.
Proof.
  intros Hin He Ht E Hp. simpl in Hin.
  destruct Hin as [H|[H|[H|[]]]]; inversion H; subst; clear H.
  - exact (linter_pass_ran_flake8 P _ _ _ _ He Ht E Hp).
  - exact (tests_ran_the_suite P _ _ _ _ He Ht E).
  - exact (django_ran_the_check P _ _ _ _ He Ht E).
Qed.

(** Witness for X16: the test suite passes. *)
Lemma no_pass_without_the_tool_witness :
  exists t, trace PassingTestsRun.s1 = (trace PassingTestsRun.s ++ t)%list
            /\ launched ["python"; "manage.py"; "test"] t.
Proof.
  apply (no_pass_without_the_tool Sim.platform "tests"
           (check_tests Sim.platform) ["python"; "manage.py"; "test"]
           PassingTestsRun.s (JBool true)
           (result "Tests" true "Tous les tests passent (1 tests)")
           PassingTestsRun.s1).
  - simpl. right. left. reflexivity.
  - reflexivity.
  - reflexivity.
  - vm_compute. reflexivity.
  - reflexivity.
Defined.

(* ===================================================================== *)
(** * The installer of the hook *)
(* ===================================================================== *)

Section HookRuns.

Import InstallHook.

Variable F : Files.

Lemma install_hook_runs (s : HState (Tree F)) r s' :
  install_hook F s = (r, s') ->
  exists t,
    events s' = (events s ++ t)%list
    /\ ((t = [] /\ (r = Ok false \/ exists msg, r = Raise (FileError msg)))
        \/ (t = [EvMkdir hooks_dir] /\ exists msg, r = Raise (FileError msg))
        \/ (exists a,
              t = [EvMkdir hooks_dir; EvAsk replace_question a]
              /\ agreed a = false
              /\ (r = Ok false \/ r = Raise EOFError \/ r = Raise KeyboardInterrupt))
        \/ (exists a msg,
              t = [EvMkdir hooks_dir; EvAsk replace_question a;
                   EvRename hook_path backup_path]
              /\ agreed a = true /\ r = Raise (FileError msg))
        \/ (exists pre,
              (pre = [EvMkdir hooks_dir]
               \/ exists a, agreed a = true
                            /\ pre = [EvMkdir hooks_dir; EvAsk replace_question a;
                                      EvRename hook_path backup_path])
              /\ ((t = (pre ++ [EvWrite hook_path HOOK_CONTENT])%list
                   /\ (r = Ok false \/ (os_is_nt F = true /\ r = Ok true)))
                  \/ (t = (pre ++ [EvWrite hook_path HOOK_CONTENT;
                                   EvChmod hook_path])%list
                      /\ os_is_nt F = false
                      /\ (r = Ok false \/ r = Ok true))))).
Proof.
  intros E. unfold install_hook in E.
  unfold hbind at 1, probe at 1 in E.
  destruct (fs_exists F git_dir (tree s)) as [| |msg].
  2:{ inversion E; subst. exists []. rewrite app_nil_r. split; [reflexivity|].
      left. auto. }
  2:{ inversion E; subst. exists []. rewrite app_nil_r. split; [reflexivity|].
      left. eauto. }
  cbn [negb] in E. unfold hbind at 1, mkdir, fs_call in E.
  destruct (fs_mkdir F hooks_dir (tree s)) as [[|msg] t1].
  2:{ inversion E; subst. exists [EvMkdir hooks_dir]. split; [reflexivity|].
      right. left. eauto. }
  unfold hbind at 1, probe at 1 in E. cbn [tree events] in E.
  destruct (fs_exists F hook_path t1) as [| |msg].
  3:{ inversion E; subst. exists [EvMkdir hooks_dir]. split; [reflexivity|].
      right. left. eauto. }
  - (* an earlier hook *)
    unfold hbind at 1 2, ask in E. cbn [tree events] in E.
    destruct (fs_read_line F replace_question t1) as [a t2].
    assert (T : forall (x : list FsEvent) y z, ((x ++ [y]) ++ z)%list
                                               = (x ++ y :: z)%list)
      by (intros; rewrite <- app_assoc; reflexivity).
    destruct a as [line| |].
    2:{ inversion E; subst. cbn [events]. rewrite T. eexists. split; [reflexivity|].
        right. right. left. exists EndOfInput. auto. }
    2:{ inversion E; subst. cbn [events]. rewrite T. eexists. split; [reflexivity|].
        right. right. left. exists Interrupt. auto. }
    destruct (accepted (PyStr.lower (PyStr.strip line))) eqn:Ha; cbn [negb] in E.
    2:{ inversion E; subst. cbn [events]. rewrite T. eexists. split; [reflexivity|].
        right. right. left. exists (Line line). auto. }
    unfold hbind at 1, rename, fs_call in E. cbn [tree events] in E.
    destruct (fs_rename F hook_path backup_path t2) as [[|msg] t3].
    2:{ inversion E; subst. cbn [events]. rewrite !T. eexists.
        split; [reflexivity|]. right. right. right. left.
        exists (Line line), msg. auto. }
    unfold hret at 1 in E. cbn [negb] in E.
    unfold except_Exception, hbind at 1, write_text, fs_call in E.
    cbn [tree events] in E.
    destruct (fs_write_text F hook_path HOOK_CONTENT t3) as [[|msg] t4].
    2:{ cbn [is_Exception] in E. inversion E; subst. cbn [events]. rewrite !T.
        eexists. split; [reflexivity|]. right. right. right. right.
        eexists. split; [right; exists (Line line); split; [exact Ha|reflexivity]|].
        left. split; [reflexivity | auto]. }
    destruct (os_is_nt F) eqn:Hnt; cbn [negb] in E.
    + unfold hbind, hret in E. inversion E; subst. cbn [events]. rewrite !T.
      eexists. split; [reflexivity|]. right. right. right. right.
      eexists. split; [right; exists (Line line); split; [exact Ha|reflexivity]|].
      left. split; [reflexivity | auto].
    + unfold hbind, hret, add_exec, fs_call in E. cbn [tree events] in E.
      destruct (fs_add_exec F hook_path t4) as [[|msg] t5];
        cbn [is_Exception] in E; inversion E; subst; cbn [events]; rewrite !T;
        (eexists; split; [reflexivity|]; right; right; right; right;
         eexists; split; [right; exists (Line line); split; [exact Ha|reflexivity]|];
         right; split; [reflexivity | auto]).
  - (* no earlier hook *)
    assert (T : forall (x : list FsEvent) y z, ((x ++ [y]) ++ z)%list
                                               = (x ++ y :: z)%list)
      by (intros; rewrite <- app_assoc; reflexivity).
    unfold hbind at 1, hret at 1 in E. cbn [negb] in E.
    unfold except_Exception, hbind at 1, write_text, fs_call in E.
    cbn [tree events] in E.
    destruct (fs_write_text F hook_path HOOK_CONTENT t1) as [[|msg] t4].
    2:{ cbn [is_Exception] in E. inversion E; subst. cbn [events]. rewrite !T.
        eexists. split; [reflexivity|]. right. right. right. right.
        eexists. split; [left; reflexivity|].
        left. split; [reflexivity | auto]. }
    destruct (os_is_nt F) eqn:Hnt; cbn [negb] in E.
    + unfold hbind, hret in E. inversion E; subst. cbn [events]. rewrite !T.
      eexists. split; [reflexivity|]. right. right. right. right.
      eexists. split; [left; reflexivity|].
      left. split; [reflexivity | auto].
    + unfold hbind, hret, add_exec, fs_call in E. cbn [tree events] in E.
      destruct (fs_add_exec F hook_path t4) as [[|msg] t5];
        cbn [is_Exception] in E; inversion E; subst; cbn [events]; rewrite !T;
        (eexists; split; [reflexivity|]; right; right; right; right;
         eexists; split; [left; reflexivity|];
         right; split; [reflexivity | auto]).
Qed.

End HookRuns.







(* ===================================================================== *)
(** * Installing, then removing, on the reference file system *)
(* ===================================================================== *)

Section RoundTrip.

Import InstallHook InstallHook.SimFs.

Lemma path_eqb_eq p : forall q, path_eqb p q = true <-> p = q.
Proof.
  induction p as [|a p IH]; intros [|b q]; simpl; split; intros H;
    try reflexivity; try discriminate.
  - apply andb_true_iff in H. destruct H as [Ha Hp].
    apply String.eqb_eq in Ha. apply IH in Hp. congruence.
  - inversion H; subst. rewrite String.eqb_refl. simpl. apply IH. reflexivity.
Qed.

Lemma path_eqb_refl p : path_eqb p p = true.
Proof. apply path_eqb_eq. reflexivity. Qed.

Lemma path_eqb_neq p q : p <> q -> path_eqb p q = false.
Proof.
  intros H. destruct (path_eqb p q) eqn:E; [|reflexivity].
  apply path_eqb_eq in E. contradiction.
Qed.

Lemma lookup_remove_same p fs : lookup p (remove p fs) = None.
Proof.
  induction fs as [|[q text] fs IH]; simpl; [reflexivity|].
  destruct (path_eqb p q) eqn:E; simpl; [exact IH|]. rewrite E. exact IH.
Qed.

Lemma lookup_remove_other p q fs :
  p <> q -> lookup p (remove q fs) = lookup p fs.
Proof.
  intros H. induction fs as [|[x text] fs IH]; simpl; [reflexivity|].
  destruct (path_eqb q x) eqn:E; simpl.
  - apply path_eqb_eq in E. subst x. rewrite (path_eqb_neq _ _ H). exact IH.
  - rewrite IH. reflexivity.
Qed.

Lemma lookup_set_same p text fs : lookup p (set p text fs) = Some text.
Proof. unfold set. simpl. rewrite path_eqb_refl. reflexivity. Qed.

Lemma lookup_set_other p q text fs :
  p <> q -> lookup p (set q text fs) = lookup p fs.
Proof.
  intros H. unfold set. simpl. rewrite (path_eqb_neq _ _ H).
  apply lookup_remove_other. exact H.
Qed.

End RoundTrip.



(* ===================================================================== *)
(** * Building the checker *)
(* ===================================================================== *)

(** X21.  [__init__] builds a checker exactly from the documents of
    [builds]: when the configuration file is absent, or holds a JSON
    object whose ["colors"] entry is absent or an object.  The checker
    then keeps the document read (the built-in configuration when the
    file is absent) and starts with empty [errors], [warnings] and
    [fixes_applied].  From any other file (malformed, unreadable, not an
    object, ["colors"] not an object) it raises, and no checker
    exists. *)
Theorem checker_is_built_from (P : Platform) path w :
  match init P path w with
  | Ok c =>
      builds (load_json P path w) = true
      /\ config c = document (load_json P path w)
      /\ errors c = [] /\ warnings c = [] /\ fixes_applied c = []
  | Raise _ => builds (load_json P path w) = false
  end.
Proof.
  unfold init, _load_config.
  destruct (load_json P path w) as [v| | |msg]; cbn [res_bind builds document].
  - destruct v; try reflexivity.
    cbn [Py.get]. destruct (Py.lookup "colors" items) as [colors|];
      cbn [res_bind].
    + destruct colors; try reflexivity. cbn [Py.get].
      destruct (Py.lookup "enabled" items0), (Py.lookup "strict_mode" items),
        (Py.lookup "auto_fix" items), (Py.lookup "interactive" items);
        cbn [res_bind config errors warnings fixes_applied]; repeat split.
    + cbn [Py.get Py.lookup].
      destruct (Py.lookup "strict_mode" items),
        (Py.lookup "auto_fix" items), (Py.lookup "interactive" items);
        cbn [res_bind config errors warnings fixes_applied]; repeat split.
  - vm_compute. repeat split.
  - reflexivity.
  - reflexivity.
Qed.
